(** * Model selection and ensembling in [qemlflow.core.enhanced_models]

    A shallow embedding of [EnsembleModel], [XGBoostModel], [LightGBMModel]
    and [AutoMLModel] from
    [src/qemlflow/core/enhanced_models.py.backup_20250616_131254].

    Python floats are read as real numbers, Python exceptions as values of
    [Py.result], attribute assignment as functional record update.  The
    libraries the module calls into (scikit-learn, optuna, xgboost and
    lightgbm) and the sibling module [.models] are interfaces: each is a
    type class whose fields are the calls the source makes.

    This copy of the module binds [RandomForestModel], [SVMModel],
    [LinearModel] and [train_test_split] only by imports local to
    [AutoMLModel.fit], [_get_default_models] and [_fit_voting].  Where
    [_create_model], [XGBoostModel.fit] and [LightGBMModel.fit] use the same
    names they are unbound module globals, and the use raises
    [NameError]. *)

From Stdlib Require Import Reals Lra ZArith String List.
From stdpp Require Import base strings gmap list pretty.

Local Open Scope string_scope.

(** ** Python values, exceptions and dictionaries *)

Module Py.

(** An exception derived from [Exception]: its class name and message. *)
Record exn := Exception { exn_class : string; exn_msg : string }.

Definition ValueError (msg : string) : exn := Exception "ValueError" msg.
Definition KeyError (msg : string) : exn := Exception "KeyError" msg.

(** The exception of a name that neither the function nor the module
    binds. *)
Definition NameError (name : string) : exn :=
  Exception "NameError"
    (String.append "name '" (String.append name "' is not defined")).

Inductive result (A : Type) : Type :=
| Ok (a : A)
| Raise (e : exn).
Arguments Ok {A} a.
Arguments Raise {A} e.

#[global] Instance result_ret : MRet result := fun _ a => Ok a.
#[global] Instance result_bind : MBind result := fun _ _ f r =>
  match r with
  | Ok a => f a
  | Raise e => Raise e
  end.

(** The use of a global name that the module never binds. *)
Definition unbound {A} (name : string) : result A := Raise (NameError name).

(** [try: body  except cls: handler] *)
Definition try_except_class {A} (cls : string) (body : result A)
    (handler : result A) : result A :=
  match body with
  | Ok a => Ok a
  | Raise e => if String.eqb (exn_class e) cls then handler else Raise e
  end.

(** A value stored in a keyword dictionary. *)
Inductive value :=
| VInt (z : Z)
| VFloat (r : R)
| VStr (s : string).

(** [d.get(key, default)] *)
Definition get (d : gmap string value) (key : string) (default : value)
  : value :=
  match d !! key with
  | Some v => v
  | None => default
  end.

(** [x in xs] for strings. *)
Definition str_in (x : string) (xs : list string) : bool :=
  existsb (String.eqb x) xs.

(** A method body over an object state [σ]: it reads and updates the
    state and returns or raises; what it assigned before an exception
    stays assigned. *)
Definition method (σ A : Type) : Type := σ -> σ * result A.

#[global] Instance method_ret σ : MRet (method σ) := fun _ a s => (s, Ok a).
#[global] Instance method_bind σ : MBind (method σ) := fun _ _ f m s =>
  let '(s', r) := m s in
  match r with
  | Ok a => f a s'
  | Raise e => (s', Raise e)
  end.

Definition get_state {σ} : method σ σ := fun s => (s, Ok s).
Definition modify {σ} (f : σ -> σ) : method σ unit := fun s => (f s, Ok tt).
Definition call {σ A} (r : result A) : method σ A := fun s => (s, r).

End Py.

Import Py.

(** [np.ndarray] data: a feature matrix is a list of rows, a target vector a
    list of numbers. *)
Definition matrix := list (list R).
Definition vector := list R.

#[global] Instance R_eq_dec : EqDecision R := Req_dec_T.
#[global] Instance Rlt_decision (a b : R) : Decision (a < b)%R := Rlt_dec a b.

Module np.

(** [len(np.unique(y))] *)
Definition n_unique (y : vector) : Z := Z.of_nat (length (remove_dups y)).

Definition sum (v : vector) : R := foldr Rplus 0%R v.

(** [v.mean()] *)
Definition mean (v : vector) : R := (sum v / INR (length v))%R.

(** [X[idx]] for a list of row indices. *)
Definition take {A} (rows : list A) (idx : list nat) : list A :=
  omap (fun i => rows !! i) idx.

End np.

(** ** Native estimators

    The object held in the [model] attribute of a candidate model: an
    [xgb.XGBRegressor], an [lgb.LGBMClassifier], a scikit-learn estimator.
    [est_fitted] records the training data its own [fit] received and
    [est_eval_set] the [eval_set] keyword of that call. *)

Record Estimator := {
  est_class : string;
  est_params : gmap string value;
  est_fitted : option (matrix * vector);
  est_eval_set : list (matrix * vector)
}.

Definition new_estimator (cls : string) (ps : gmap string value) : Estimator :=
  {| est_class := cls; est_params := ps; est_fitted := None;
     est_eval_set := [] |}.

(** [sklearn.base.clone]: same class and parameters, not fitted. *)
Definition clone (e : Estimator) : Estimator :=
  new_estimator (est_class e) (est_params e).

(** Cross-validation splitters of [sklearn.model_selection]. *)
Inductive CVStrategy :=
| KFoldSplitter (n_splits : Z) (shuffle : bool) (random_state : Z)
| StratifiedKFoldSplitter (n_splits : Z) (shuffle : bool) (random_state : Z).

Definition n_splits_error (n_splits : Z) : exn :=
  ValueError
    (String.append
       "k-fold cross-validation requires at least one train/test split by setting n_splits=2 or more, got n_splits="
       (String.append (pretty n_splits) ".")).

(** Both constructors reject a fold count below two with [ValueError]. *)
Definition KFold (n_splits : Z) (shuffle : bool) (random_state : Z)
  : result CVStrategy :=
  if (n_splits <=? 1)%Z
  then Raise (n_splits_error n_splits)
  else Ok (KFoldSplitter n_splits shuffle random_state).

Definition StratifiedKFold (n_splits : Z) (shuffle : bool) (random_state : Z)
  : result CVStrategy :=
  if (n_splits <=? 1)%Z
  then Raise (n_splits_error n_splits)
  else Ok (StratifiedKFoldSplitter n_splits shuffle random_state).

(** What the source uses of scikit-learn and of the native libraries. *)
Class Sklearn := {
  (** [RandomState(42).permutation(n)], the shuffle behind
      [train_test_split(..., random_state=42)] *)
  permutation : nat -> list nat;
  (** the exception, if any, that the estimator's own
      [fit(X, y, eval_set=eval_set)] raises *)
  estimator_fit_error :
    Estimator -> matrix -> vector -> list (matrix * vector) -> option exn;
  (** the exception, if any, that the estimator's own [predict(X)]
      raises *)
  estimator_predict_error : Estimator -> matrix -> option exn;
  (** the fitted estimator's prediction for one row *)
  estimator_predict : Estimator -> list R -> R;
  (** the exception, if any, that a fitted [VotingClassifier] with the
      given members and [voting] mode raises when it collects its members'
      votes on [X] *)
  classifier_vote_error : list Estimator -> string -> matrix -> option exn;
  (** the label a [VotingClassifier] with the given fitted members and
      [voting] mode assigns to one row *)
  classifier_vote : list Estimator -> string -> list R -> R;
  (** [cross_val_score(est, X, y, cv=cv, scoring=s, error_score="raise")] *)
  cross_val_score :
    Estimator -> matrix -> vector -> CVStrategy -> string -> result vector
}.

Class SklearnLaws (sk : Sklearn) : Prop := {
  permutation_range : forall n, permutation n ≡ₚ seq 0 n
}.

(** Metrics returned by [fit] and [evaluate]: [Dict[str, float]]. *)
Abbreviation metrics := (gmap string R).

Section sklearn_calls.
Context {sk : Sklearn}.

(** [est.fit(X, y, eval_set=eval_set, ...)] *)
Definition estimator_fit (e : Estimator) (X : matrix) (y : vector)
    (eval_set : list (matrix * vector)) : result Estimator :=
  match estimator_fit_error e X y eval_set with
  | Some ex => Raise ex
  | None =>
      Ok {| est_class := est_class e; est_params := est_params e;
            est_fitted := Some (X, y); est_eval_set := eval_set |}
  end.

(** [est.predict(X)]: one prediction for each row. *)
Definition estimator_predict_all (e : Estimator) (X : matrix)
  : result vector :=
  match estimator_predict_error e X with
  | Some ex => Raise ex
  | None => Ok (map (estimator_predict e) X)
  end.

Definition inconsistent_samples (n m : nat) : exn :=
  ValueError
    (String.append
       "Found input variables with inconsistent numbers of samples: ["
       (String.append (pretty n)
          (String.append ", " (String.append (pretty m) "]")))).

Definition empty_train_set (n : nat) : exn :=
  ValueError
    (String.append "With n_samples="
       (String.append (pretty n)
          ", test_size=0.2 and train_size=None, the resulting train set will be empty. Adjust any of the aforementioned parameters.")).

(** [train_test_split(X, y, test_size=0.2, random_state=42)]: the test part
    has [ceil(0.2 * n)] rows, the first ones of the shuffle, and the train
    part the remaining rows; an empty train part is a [ValueError]. *)
Definition train_test_split (X : matrix) (y : vector)
  : result (matrix * matrix * vector * vector) :=
  let n := length X in
  if negb (n =? length y)%nat
  then Raise (inconsistent_samples n (length y))
  else
    let n_test := ((n + 4) / 5)%nat in
    let n_train := (n - n_test)%nat in
    if (n_train =? 0)%nat
    then Raise (empty_train_set n)
    else
      let p := permutation n in
      let ind_test := take n_test p in
      let ind_train := drop n_test p in
      Ok (np.take X ind_train, np.take X ind_test,
          np.take y ind_train, np.take y ind_test).

End sklearn_calls.

(** ** Voting ensembles of [sklearn.ensemble] *)

Module Voting.

Inductive kind := Regressor | Classifier.

(** [estimators] is the constructor argument, [estimators_] the fitted
    clones that [fit] stores. *)
Record t := {
  kind_of : kind;
  estimators : list (string * Estimator);
  voting : string;
  estimators_ : list Estimator
}.

Definition VotingRegressor (ests : list (string * Estimator)) : t :=
  {| kind_of := Regressor; estimators := ests; voting := "hard";
     estimators_ := [] |}.

Definition VotingClassifier (ests : list (string * Estimator))
    (voting : string) : t :=
  {| kind_of := Classifier; estimators := ests; voting := voting;
     estimators_ := [] |}.

Section with_sklearn.
Context {sk : Sklearn}.

Fixpoint fit_clones (ests : list (string * Estimator)) (X : matrix)
    (y : vector) : result (list Estimator) :=
  match ests with
  | [] => Ok []
  | (_, e) :: rest =>
      e' ← estimator_fit (clone e) X y [];
      rest' ← fit_clones rest X y;
      Ok (e' :: rest')
  end.

(** [ensemble.fit(X, y)]: an empty estimator list is rejected, every
    estimator is cloned and the clone fitted on all of [X], [y]. *)
Definition fit (v : t) (X : matrix) (y : vector) : result t :=
  match estimators v with
  | [] => Raise (ValueError "Invalid 'estimators' attribute, 'estimators' should be a non-empty list of (string, estimator) tuples.")
  | _ =>
      fitted ← fit_clones (estimators v) X y;
      Ok {| kind_of := kind_of v; estimators := estimators v;
            voting := voting v; estimators_ := fitted |}
  end.

(** [check_is_fitted(self)] on an ensemble that has no [estimators_]. *)
Definition NotFittedError (v : t) : exn :=
  Exception "NotFittedError"
    (String.append "This "
       (String.append
          match kind_of v with
          | Regressor => "VotingRegressor"
          | Classifier => "VotingClassifier"
          end
          " instance is not fitted yet. Call 'fit' with appropriate arguments before using this estimator.")).

(** The first exception the members raise when each is asked, in order, to
    predict [X]. *)
Fixpoint predict_error (members : list Estimator) (X : matrix)
  : option exn :=
  match members with
  | [] => None
  | e :: rest =>
      match estimator_predict_error e X with
      | Some ex => Some ex
      | None => predict_error rest X
      end
  end.

(** [ensemble.predict(X)]: every fitted member predicts [X], and the
    regressor averages the predictions row by row. *)
Definition predict (v : t) (X : matrix) : result vector :=
  match estimators_ v with
  | [] => Raise (NotFittedError v)
  | _ =>
      match kind_of v with
      | Regressor =>
          match predict_error (estimators_ v) X with
          | Some ex => Raise ex
          | None =>
              Ok (map (fun x =>
                         np.mean
                           (map (fun e => estimator_predict e x)
                              (estimators_ v)))
                    X)
          end
      | Classifier =>
          match classifier_vote_error (estimators_ v) (voting v) X with
          | Some ex => Raise ex
          | None => Ok (map (classifier_vote (estimators_ v) (voting v)) X)
          end
      end
  end.

End with_sklearn.

End Voting.

(** ** The trial search of optuna *)

Module optuna.

Inductive Distribution :=
| IntDistribution (low high : Z)
| FloatDistribution (low high : R) (log : bool)
| CategoricalDistribution (choices : list string).

Inductive StudyDirection := MINIMIZE | MAXIMIZE.

(** A finished trial as the study records it. *)
Record FrozenTrial := {
  number : nat;
  params : gmap string value;
  distributions : gmap string Distribution;
  value : R
}.

(** The sampler behind [trial.suggest_*] and the clock behind [timeout].
    A draw may depend on the sampler's own state and on the trials
    recorded so far. *)
Class Backend := {
  sampler_state : Type;
  sample_int :
    sampler_state -> list FrozenTrial -> string -> Z -> Z ->
    Z * sampler_state;
  sample_float :
    sampler_state -> list FrozenTrial -> string -> R -> R -> bool ->
    R * sampler_state;
  sample_categorical :
    sampler_state -> list FrozenTrial -> string -> list string ->
    string * sampler_state;
  (** whether [timeout] seconds have elapsed once [i] trials are done *)
  timed_out : Z -> nat -> bool
}.

(** Every draw lies in the range it was asked for. *)
Class BackendLaws (bk : Backend) : Prop := {
  sample_int_range : forall s h name low high,
    (low <= high)%Z ->
    (low <= (sample_int s h name low high).1 <= high)%Z;
  sample_float_range : forall s h name low high log,
    (low <= high)%R ->
    (low <= (sample_float s h name low high log).1 <= high)%R;
  sample_categorical_range : forall s h name choices,
    choices <> [] ->
    (sample_categorical s h name choices).1 ∈ choices
}.

Section with_backend.
Context {bk : Backend}.

(** A running trial: what it has been given so far, the sampler it
    draws from and the study's history. *)
Record Trial := {
  trial_number : nat;
  trial_params : gmap string Py.value;
  trial_distributions : gmap string Distribution;
  trial_sampler : sampler_state;
  trial_history : list FrozenTrial
}.

Definition record (t : Trial) (name : string) (v : Py.value)
    (d : Distribution) (s : sampler_state) : Trial :=
  {| trial_number := trial_number t;
     trial_params := <[name := v]> (trial_params t);
     trial_distributions := <[name := d]> (trial_distributions t);
     trial_sampler := s;
     trial_history := trial_history t |}.

(** [trial.suggest_int(name, low, high)] *)
Definition suggest_int (t : Trial) (name : string) (low high : Z)
  : Z * Trial :=
  let '(z, s) :=
    sample_int (trial_sampler t) (trial_history t) name low high in
  (z, record t name (VInt z) (IntDistribution low high) s).

(** [trial.suggest_float(name, low, high, log=log)] *)
Definition suggest_float (t : Trial) (name : string) (low high : R)
    (log : bool) : R * Trial :=
  let '(r, s) :=
    sample_float (trial_sampler t) (trial_history t) name low high log in
  (r, record t name (VFloat r) (FloatDistribution low high log) s).

(** [trial.suggest_categorical(name, choices)] *)
Definition suggest_categorical (t : Trial) (name : string)
    (choices : list string) : string * Trial :=
  let '(c, s) :=
    sample_categorical (trial_sampler t) (trial_history t) name choices in
  (c, record t name (VStr c) (CategoricalDistribution choices) s).

Record Study := {
  direction : StudyDirection;
  trials : list FrozenTrial;
  sampler : sampler_state
}.

(** [optuna.create_study(direction=direction)].  No sampler and no seed
    are passed: the default sampler starts from a state [entropy] that
    the operating system supplies. *)
Definition create_study (direction : string) (entropy : sampler_state)
  : result Study :=
  if String.eqb direction "minimize" then
    Ok {| direction := MINIMIZE; trials := []; sampler := entropy |}
  else if String.eqb direction "maximize" then
    Ok {| direction := MAXIMIZE; trials := []; sampler := entropy |}
  else Raise (ValueError "Please set either 'minimize' or 'maximize' to direction.").

Definition ask (st : Study) : Trial :=
  {| trial_number := length (trials st);
     trial_params := ∅;
     trial_distributions := ∅;
     trial_sampler := sampler st;
     trial_history := trials st |}.

Definition freeze (t : Trial) (v : R) : FrozenTrial :=
  {| number := trial_number t;
     params := trial_params t;
     distributions := trial_distributions t;
     value := v |}.

Definition tell (st : Study) (t : Trial) (v : R) : Study :=
  {| direction := direction st;
     trials := trials st ++ [freeze t v];
     sampler := trial_sampler t |}.

(** The objective of a study: it may draw from the trial, warn, and
    return a value or raise. *)
Definition Objective : Type := Trial -> Trial * list string * result R.

(** [study.optimize(objective, n_trials=n, timeout=timeout)]: trials run
    one after the other until [n] are done or the timeout has elapsed;
    an exception of the objective ends the study and propagates.  [trials]
    holds the completed trials. *)
Fixpoint optimize (objective : Objective) (n : nat)
    (timeout : option Z) (st : Study)
  : Study * list string * result unit :=
  match n with
  | O => (st, [], Ok tt)
  | S n' =>
      let expired :=
        match timeout with
        | Some secs => timed_out secs (length (trials st))
        | None => false
        end in
      if expired then (st, [], Ok tt)
      else
        let '(t, w, r) := objective (ask st) in
        match r with
        | Raise e => (st, w, Raise e)
        | Ok v =>
            let '(st', w', r') :=
              optimize objective n' timeout (tell st t v) in
            (st', (w ++ w')%list, r')
        end
  end.

(** Whether value [a] is strictly better than [b]. *)
Definition better (d : StudyDirection) (a b : R) : bool :=
  match d with
  | MINIMIZE => bool_decide (a < b)%R
  | MAXIMIZE => bool_decide (b < a)%R
  end.

(** The study keeps the first trial and replaces it whenever a later one
    is strictly better. *)
Definition keep_best (d : StudyDirection) (best : option FrozenTrial)
    (t : FrozenTrial) : option FrozenTrial :=
  match best with
  | None => Some t
  | Some b => if better d (value t) (value b) then Some t else Some b
  end.

Definition best_trial (st : Study) : option FrozenTrial :=
  foldl (keep_best (direction st)) None (trials st).

(** [study.best_params] *)
Definition best_params (st : Study) : result (gmap string Py.value) :=
  match best_trial st with
  | Some t => Ok (params t)
  | None => Raise (ValueError "No trials are completed yet.")
  end.

End with_backend.

End optuna.

(** ** Candidate models *)

(** The optional imports at the top of the module. *)
Class Capabilities := {
  HAS_XGBOOST : bool;
  HAS_LIGHTGBM : bool;
  HAS_OPTUNA : bool
}.

Module BaseModel.

(** An instance of a subclass of [BaseModel]; [cls] names the subclass and
    [model] is the native estimator it wraps. *)
Record t := {
  cls : string;
  task_type : string;
  is_fitted : bool;
  model : Estimator
}.

(** Modelled from the spec: [BaseModel.__init__] lives in [.models], which
    is not part of this file; a candidate model "starts unfitted". *)
Definition __init__ (cls task_type : string) (model : Estimator) : t :=
  {| cls := cls; task_type := task_type; is_fitted := false;
     model := model |}.

(** [self.model = m; self.is_fitted = True] *)
Definition fitted (self : t) (m : Estimator) : t :=
  {| cls := cls self; task_type := task_type self; is_fitted := true;
     model := m |}.

End BaseModel.

(** The sibling module [.models], which is not part of this file:
    [RandomForestModel], [SVMModel], [LinearModel], and the [evaluate]
    method every model inherits from [BaseModel]. *)
Class Models := {
  (** [Cls(task_type=task_type, **kwargs)] for a class of [.models] *)
  models_new : string -> string -> gmap string value -> result BaseModel.t;
  (** [self.fit(X, y)] for an instance of such a class *)
  models_fit :
    BaseModel.t -> matrix -> vector -> result (BaseModel.t * metrics);
  (** [self.predict(X)] for an instance of such a class *)
  models_predict : BaseModel.t -> matrix -> result vector;
  (** [self.evaluate(X, y)], inherited by every model class *)
  evaluate : forall Self : Type, Self -> matrix -> vector -> result metrics
}.


Definition not_fitted_predict : exn :=
  ValueError "Model must be fitted before making predictions".

Module XGBoostModel.
Section methods.
Context {sk : Sklearn} {md : Models}.

(** [XGBoostModel(task_type=task_type, **kwargs)]: the five tuning
    keywords with their defaults, [random_state=42], [verbosity=0]. *)
Definition __init__ (task_type : string) (kwargs : gmap string value)
  : BaseModel.t :=
  let ps : gmap string value :=
    <["n_estimators" := get kwargs "n_estimators" (VInt 100)]>
    (<["learning_rate" := get kwargs "learning_rate" (VFloat 0.1)]>
    (<["max_depth" := get kwargs "max_depth" (VInt 6)]>
    (<["subsample" := get kwargs "subsample" (VFloat 0.8)]>
    (<["colsample_bytree" := get kwargs "colsample_bytree" (VFloat 0.8)]>
    (<["random_state" := get kwargs "random_state" (VInt 42)]>
    (<["verbosity" := VInt 0]> ∅)))))) in
  BaseModel.__init__ "XGBoostModel" task_type
    (new_estimator
       (if String.eqb task_type "regression"
        then "XGBRegressor" else "XGBClassifier") ps).

(** [fit]: split off a validation part, fit the native model on the
    train part with the validation part as [eval_set] for early
    stopping, then evaluate on the validation part.  The module imports
    [train_test_split] nowhere at its top level, so the first statement
    raises. *)
Definition fit (self : BaseModel.t) (X : matrix) (y : vector)
  : result (BaseModel.t * metrics) :=
  '(X_train, X_val, y_train, y_val) ←
    unbound (A := matrix * matrix * vector * vector) "train_test_split";
  m ← estimator_fit (BaseModel.model self) X_train y_train
        [(X_val, y_val)];
  let self := BaseModel.fitted self m in
  val_metrics ← evaluate _ self X_val y_val;
  Ok (self, val_metrics).

Definition predict (self : BaseModel.t) (X : matrix) : result vector :=
  if negb (BaseModel.is_fitted self) then Raise not_fitted_predict
  else estimator_predict_all (BaseModel.model self) X.

End methods.
End XGBoostModel.

Module LightGBMModel.
Section methods.
Context {sk : Sklearn} {md : Models}.

Definition __init__ (task_type : string) (kwargs : gmap string value)
  : BaseModel.t :=
  let ps : gmap string value :=
    <["n_estimators" := get kwargs "n_estimators" (VInt 100)]>
    (<["learning_rate" := get kwargs "learning_rate" (VFloat 0.1)]>
    (<["num_leaves" := get kwargs "num_leaves" (VInt 31)]>
    (<["feature_fraction" := get kwargs "feature_fraction" (VFloat 0.8)]>
    (<["bagging_fraction" := get kwargs "bagging_fraction" (VFloat 0.8)]>
    (<["random_state" := get kwargs "random_state" (VInt 42)]>
    (<["verbosity" := VInt (-1)]> ∅)))))) in
  BaseModel.__init__ "LightGBMModel" task_type
    (new_estimator
       (if String.eqb task_type "regression"
        then "LGBMRegressor" else "LGBMClassifier") ps).

(** [fit], as in [XGBoostModel]: [train_test_split] is unbound here
    too. *)
Definition fit (self : BaseModel.t) (X : matrix) (y : vector)
  : result (BaseModel.t * metrics) :=
  '(X_train, X_val, y_train, y_val) ←
    unbound (A := matrix * matrix * vector * vector) "train_test_split";
  m ← estimator_fit (BaseModel.model self) X_train y_train
        [(X_val, y_val)];
  let self := BaseModel.fitted self m in
  val_metrics ← evaluate _ self X_val y_val;
  Ok (self, val_metrics).

Definition predict (self : BaseModel.t) (X : matrix) : result vector :=
  if negb (BaseModel.is_fitted self) then Raise not_fitted_predict
  else estimator_predict_all (BaseModel.model self) X.

End methods.
End LightGBMModel.

(** Method dispatch on the class of a candidate model: [model.fit(X, y)] and
    [model.predict(X)]. *)
Section dispatch.
Context {sk : Sklearn} {md : Models}.

Definition call_fit (m : BaseModel.t) (X : matrix) (y : vector)
  : result (BaseModel.t * metrics) :=
  if String.eqb (BaseModel.cls m) "XGBoostModel" then XGBoostModel.fit m X y
  else if String.eqb (BaseModel.cls m) "LightGBMModel"
  then LightGBMModel.fit m X y
  else models_fit m X y.

Definition call_predict (m : BaseModel.t) (X : matrix) : result vector :=
  if String.eqb (BaseModel.cls m) "XGBoostModel" then XGBoostModel.predict m X
  else if String.eqb (BaseModel.cls m) "LightGBMModel"
  then LightGBMModel.predict m X
  else models_predict m X.

End dispatch.

(** ** [EnsembleModel] *)

Module EnsembleModel.

Record t := {
  task_type : string;
  is_fitted : bool;
  base_models : list BaseModel.t;
  ensemble_method : string;
  voting_strategy : string;
  cv_folds : Z;
  ensemble : option Voting.t
}.

Definition set_base_model (i : nat) (m : BaseModel.t) (self : t) : t :=
  {| task_type := task_type self; is_fitted := is_fitted self;
     base_models := <[i := m]> (base_models self);
     ensemble_method := ensemble_method self;
     voting_strategy := voting_strategy self; cv_folds := cv_folds self;
     ensemble := ensemble self |}.

Definition set_ensemble (e : Voting.t) (self : t) : t :=
  {| task_type := task_type self; is_fitted := is_fitted self;
     base_models := base_models self;
     ensemble_method := ensemble_method self;
     voting_strategy := voting_strategy self; cv_folds := cv_folds self;
     ensemble := Some e |}.

Definition set_is_fitted (b : bool) (self : t) : t :=
  {| task_type := task_type self; is_fitted := b;
     base_models := base_models self;
     ensemble_method := ensemble_method self;
     voting_strategy := voting_strategy self; cv_folds := cv_folds self;
     ensemble := ensemble self |}.

Section methods.
Context {sk : Sklearn} {md : Models}.

(** The loop of [_fit_voting]: fit base model [i] on all of [X], [y] and
    append [("model_i", model.model)]. *)
Fixpoint fit_base_models (X : matrix) (y : vector) (i : nat)
    (todo : list BaseModel.t) (estimators : list (string * Estimator))
  : method t (list (string * Estimator)) :=
  match todo with
  | [] => mret estimators
  | model :: rest =>
      fitted ← call (call_fit model X y);
      modify (set_base_model i fitted.1);;
      fit_base_models X y (S i) rest
        (estimators ++
           [(String.append "model_" (pretty i), BaseModel.model fitted.1)])%list
  end.

Definition _fit_voting (X : matrix) (y : vector) : method t metrics :=
  self ← get_state;
  estimators ← fit_base_models X y 0 (base_models self) [];
  let ens :=
    if String.eqb (task_type self) "regression"
    then Voting.VotingRegressor estimators
    else Voting.VotingClassifier estimators (voting_strategy self) in
  modify (set_ensemble ens);;
  ens ← call (Voting.fit ens X y);
  modify (set_ensemble ens);;
  modify (set_is_fitted true);;
  split ← call (train_test_split X y);
  let '(X_train, X_val, y_train, y_val) := split in
  self ← get_state;
  call (evaluate _ self X_val y_val).

Definition predict (self : t) (X : matrix) : result vector :=
  if negb (is_fitted self) then Raise not_fitted_predict
  else
    match ensemble self with
    | Some e => Voting.predict e X
    | None =>
        Raise (Exception "AttributeError"
                 "'NoneType' object has no attribute 'predict'")
    end.

End methods.
End EnsembleModel.

(** ** [AutoMLModel] *)

Module AutoMLModel.
Section methods.
Context {caps : Capabilities} {sk : Sklearn} {md : Models}
        {bk : optuna.Backend}.

Local Open Scope R_scope.

Record t := {
  task_type : string;
  is_fitted : bool;
  model_types : list string;
  optimization_metric : string;
  n_trials : Z;
  cv_folds : Z;
  timeout : option Z;
  best_model : option BaseModel.t;
  best_params : option (gmap string value);
  study : option optuna.Study
}.

(** [AutoMLModel(model_types=..., optimization_metric=..., ...)].  The
    inherited attributes come from [BaseModel.__init__]: the instance
    starts unfitted. *)
Definition __init__ (task_type : string)
    (model_types : option (list string)) (optimization_metric : string)
    (n_trials cv_folds : Z) (timeout : option Z) : result t :=
  let model_types :=
    match model_types with
    | Some (m :: ms) => m :: ms
    | _ => ["rf"; "xgb"; "lgb"; "svm"; "linear"]
    end in
  let available_models :=
    (["rf"; "svm"; "linear"]
       ++ (if HAS_XGBOOST then ["xgb"] else [])
       ++ (if HAS_LIGHTGBM then ["lgb"] else []))%list in
  let model_types :=
    List.filter (fun m => str_in m available_models) model_types in
  match model_types with
  | [] => Raise (ValueError "No available model types found")
  | _ =>
      Ok {| task_type := task_type; is_fitted := false;
            model_types := model_types;
            optimization_metric := optimization_metric;
            n_trials := n_trials; cv_folds := cv_folds;
            timeout := timeout; best_model := None;
            best_params := None; study := None |}
  end.

(** [_create_model(model_type, params)].  [RandomForestModel], [SVMModel]
    and [LinearModel] are imported only inside [fit] and
    [_get_default_models]; here they are unbound. *)
Definition _create_model (self : t) (model_type : string)
    (params : gmap string value) : result BaseModel.t :=
  if String.eqb model_type "rf" then
    unbound "RandomForestModel"
  else if String.eqb model_type "xgb" && HAS_XGBOOST then
    Ok (XGBoostModel.__init__ (task_type self) params)
  else if String.eqb model_type "lgb" && HAS_LIGHTGBM then
    Ok (LightGBMModel.__init__ (task_type self) params)
  else if String.eqb model_type "svm" then
    unbound "SVMModel"
  else if String.eqb model_type "linear" then
    unbound "LinearModel"
  else Raise (ValueError (String.append "Unknown model type: " model_type)).

(** The first half of [objective]: suggest the model type, then the
    hyperparameters of that type. *)
Definition objective_suggest (self : t) (trial : optuna.Trial)
  : string * gmap string value * optuna.Trial :=
  let '(model_type, trial) :=
    optuna.suggest_categorical trial "model_type" (model_types self) in
  if String.eqb model_type "rf" then
    let '(n_estimators, trial) :=
      optuna.suggest_int trial "n_estimators" 50 300 in
    let '(max_depth, trial) := optuna.suggest_int trial "max_depth" 3 20 in
    let '(min_samples_split, trial) :=
      optuna.suggest_int trial "min_samples_split" 2 20 in
    let '(min_samples_leaf, trial) :=
      optuna.suggest_int trial "min_samples_leaf" 1 10 in
    (model_type,
     <["n_estimators" := VInt n_estimators]>
     (<["max_depth" := VInt max_depth]>
     (<["min_samples_split" := VInt min_samples_split]>
     (<["min_samples_leaf" := VInt min_samples_leaf]> ∅))),
     trial)
  else if String.eqb model_type "xgb" && HAS_XGBOOST then
    let '(n_estimators, trial) :=
      optuna.suggest_int trial "n_estimators" 50 300 in
    let '(learning_rate, trial) :=
      optuna.suggest_float trial "learning_rate" 0.01 0.3 false in
    let '(max_depth, trial) := optuna.suggest_int trial "max_depth" 3 10 in
    let '(subsample, trial) :=
      optuna.suggest_float trial "subsample" 0.6 1.0 false in
    let '(colsample_bytree, trial) :=
      optuna.suggest_float trial "colsample_bytree" 0.6 1.0 false in
    (model_type,
     <["n_estimators" := VInt n_estimators]>
     (<["learning_rate" := VFloat learning_rate]>
     (<["max_depth" := VInt max_depth]>
     (<["subsample" := VFloat subsample]>
     (<["colsample_bytree" := VFloat colsample_bytree]> ∅)))),
     trial)
  else if String.eqb model_type "lgb" && HAS_LIGHTGBM then
    let '(n_estimators, trial) :=
      optuna.suggest_int trial "n_estimators" 50 300 in
    let '(learning_rate, trial) :=
      optuna.suggest_float trial "learning_rate" 0.01 0.3 false in
    let '(num_leaves, trial) :=
      optuna.suggest_int trial "num_leaves" 10 100 in
    let '(feature_fraction, trial) :=
      optuna.suggest_float trial "feature_fraction" 0.5 1.0 false in
    let '(bagging_fraction, trial) :=
      optuna.suggest_float trial "bagging_fraction" 0.5 1.0 false in
    (model_type,
     <["n_estimators" := VInt n_estimators]>
     (<["learning_rate" := VFloat learning_rate]>
     (<["num_leaves" := VInt num_leaves]>
     (<["feature_fraction" := VFloat feature_fraction]>
     (<["bagging_fraction" := VFloat bagging_fraction]> ∅)))),
     trial)
  else if String.eqb model_type "svm" then
    let '(C, trial) := optuna.suggest_float trial "C" 0.1 100 true in
    let '(gamma, trial) :=
      optuna.suggest_categorical trial "gamma" ["scale"; "auto"] in
    let '(kernel, trial) :=
      optuna.suggest_categorical trial "kernel" ["linear"; "rbf"; "poly"] in
    (model_type,
     <["C" := VFloat C]>
     (<["gamma" := VStr gamma]>
     (<["kernel" := VStr kernel]> ∅)),
     trial)
  else if String.eqb model_type "linear" then
    let '(regularization, trial) :=
      optuna.suggest_categorical trial "regularization"
        ["none"; "ridge"; "lasso"] in
    let '(alpha, trial) := optuna.suggest_float trial "alpha" 0.001 10 true in
    (model_type,
     <["regularization" := VStr regularization]>
     (<["alpha" := VFloat alpha]> ∅),
     trial)
  else (model_type, ∅, trial).

(** "Choose appropriate CV strategy" *)
Definition cv_strategy (self : t) (y : vector) : result CVStrategy :=
  if String.eqb (task_type self) "classification" && (1 <? np.n_unique y)%Z
  then
    try_except_class "ValueError"
      (StratifiedKFold (Z.min (cv_folds self) (np.n_unique y)) true 42)
      (KFold (Z.min (cv_folds self) (Z.of_nat (length y) / 2)) true 42)
  else KFold (Z.min (cv_folds self) (Z.of_nat (length y) / 2)) true 42.

(** The body of the [try] block of [objective]. *)
Definition objective_try (self : t) (X : matrix) (y : vector)
    (metric model_type : string) (params : gmap string value) : result R :=
  model ← _create_model self model_type params;
  cv_strategy ← cv_strategy self y;
  if String.eqb metric "rmse" then
    scores ← cross_val_score (BaseModel.model model) X y cv_strategy
               "neg_mean_squared_error";
    Ok (if (0 <? length scores)%nat
        then sqrt (- np.mean scores) else 1e6)
  else if String.eqb metric "r2" then
    scores ← cross_val_score (BaseModel.model model) X y cv_strategy "r2";
    Ok (if (0 <? length scores)%nat then np.mean scores else -1e6)
  else if String.eqb metric "accuracy" then
    scores ← cross_val_score (BaseModel.model model) X y cv_strategy
               "accuracy";
    Ok (if (0 <? length scores)%nat then np.mean scores else 0.0)
  else
    scores ← cross_val_score (BaseModel.model model) X y cv_strategy
               "neg_mean_squared_error";
    Ok (if (0 <? length scores)%nat then - np.mean scores else 1e6).

(** The value of the [except] branch. *)
Definition penalty (metric : string) : R :=
  if str_in metric ["rmse"; "neg_mse"] then 1e6 else -1e6.

(** [_create_objective(X, y, metric)] *)
Definition _create_objective (self : t) (X : matrix) (y : vector)
    (metric : string) : optuna.Objective :=
  fun trial =>
    let '(model_type, params, trial) := objective_suggest self trial in
    match objective_try self X y metric model_type params with
    | Ok v => (trial, [], Ok v)
    | Raise e =>
        (trial,
         [String.append "Model "
            (String.append model_type
               (String.append " failed during CV: " (exn_msg e)))],
         Ok (penalty metric))
    end.

(** The object and the warnings issued so far. *)
Record world := { self_of : t; warnings : list string }.

Definition update (f : t -> t) : method world unit :=
  modify (fun w => {| self_of := f (self_of w); warnings := warnings w |}).

(** [warnings.warn(msg)] *)
Definition warn (msgs : list string) : method world unit :=
  modify (fun w =>
            {| self_of := self_of w;
               warnings := (warnings w ++ msgs)%list |}).

Definition set_best_model (m : BaseModel.t) (self : t) : t :=
  {| task_type := task_type self; is_fitted := is_fitted self;
     model_types := model_types self;
     optimization_metric := optimization_metric self;
     n_trials := n_trials self; cv_folds := cv_folds self;
     timeout := timeout self; best_model := Some m;
     best_params := best_params self; study := study self |}.

Definition set_best_params (ps : gmap string value) (self : t) : t :=
  {| task_type := task_type self; is_fitted := is_fitted self;
     model_types := model_types self;
     optimization_metric := optimization_metric self;
     n_trials := n_trials self; cv_folds := cv_folds self;
     timeout := timeout self; best_model := best_model self;
     best_params := Some ps; study := study self |}.

Definition set_study (st : optuna.Study) (self : t) : t :=
  {| task_type := task_type self; is_fitted := is_fitted self;
     model_types := model_types self;
     optimization_metric := optimization_metric self;
     n_trials := n_trials self; cv_folds := cv_folds self;
     timeout := timeout self; best_model := best_model self;
     best_params := best_params self; study := Some st |}.

Definition set_is_fitted (b : bool) (self : t) : t :=
  {| task_type := task_type self; is_fitted := b;
     model_types := model_types self;
     optimization_metric := optimization_metric self;
     n_trials := n_trials self; cv_folds := cv_folds self;
     timeout := timeout self; best_model := best_model self;
     best_params := best_params self; study := study self |}.

(** "Determine optimization metric": the metric handed to the objective
    and the direction handed to the study. *)
Definition metric_and_direction (self : t) : string * string :=
  if String.eqb (optimization_metric self) "auto" then
    if String.eqb (task_type self) "regression"
    then ("rmse", "minimize")
    else ("accuracy", "maximize")
  else
    (optimization_metric self,
     if str_in (optimization_metric self) ["rmse"; "mse"; "mae"]
     then "minimize" else "maximize").

(** [self.best_params.pop("model_type")] followed by
    [self._create_model(model_type, self.best_params)]. *)
Definition create_best_model (self : t) (bp : gmap string value)
  : result BaseModel.t :=
  match bp !! "model_type" with
  | None => Raise (KeyError "model_type")
  | Some (VStr model_type) =>
      _create_model self model_type (delete "model_type" bp)
  | Some _ => Raise (ValueError "Unknown model type")
  end.

(** [fit(X, y)].  [entropy] is the state the study's default sampler
    starts from. *)
Definition fit (X : matrix) (y : vector) (entropy : optuna.sampler_state)
  : method world metrics :=
  w ← get_state;
  let self := self_of w in
  if negb HAS_OPTUNA then
    warn ["Optuna not available. Using default Random Forest."];;
    rf ← call (models_new "RandomForestModel" (task_type self) ∅);
    update (set_best_model rf);;
    fitted ← call (call_fit rf X y);
    update (set_best_model fitted.1);;
    mret fitted.2
  else
    let '(metric, direction) := metric_and_direction self in
    st ← call (optuna.create_study direction entropy);
    update (set_study st);;
    let objective := _create_objective (set_study st self) X y metric in
    let '(st, ws, r) :=
      optuna.optimize objective (Z.to_nat (n_trials self))
        (timeout self) st in
    update (set_study st);;
    warn ws;;
    call r;;
    bp ← call (optuna.best_params st);
    update (set_best_params (delete "model_type" bp));;
    w ← get_state;
    m ← call (create_best_model (self_of w) bp);
    update (set_best_model m);;
    fitted ← call (call_fit m X y);
    update (set_best_model fitted.1);;
    update (set_is_fitted true);;
    mret fitted.2.

(** [predict(X)] *)
Definition predict (self : t) (X : matrix) : result vector :=
  match is_fitted self, best_model self with
  | true, Some m => call_predict m X
  | _, _ => Raise not_fitted_predict
  end.

(** [get_best_params()] *)
Definition get_best_params (self : t) : result (gmap string value) :=
  match best_params self with
  | None => Raise (ValueError "Model must be fitted first")
  | Some ps => Ok ps
  end.

End methods.
End AutoMLModel.

(** ** Vocabulary for the properties of the objective *)

Module Objective.

Local Open Scope R_scope.

(** The [scoring] argument handed to [cross_val_score], by metric. *)
Definition scoring_of (metric : string) : string :=
  if String.eqb metric "rmse" then "neg_mean_squared_error"
  else if String.eqb metric "r2" then "r2"
  else if String.eqb metric "accuracy" then "accuracy"
  else "neg_mean_squared_error".

(** The value the objective makes of the fold scores, by metric. *)
Definition score_of (metric : string) (scores : vector) : R :=
  if String.eqb metric "rmse" then
    if (0 <? length scores)%nat then sqrt (- np.mean scores) else 1e6
  else if String.eqb metric "r2" then
    if (0 <? length scores)%nat then np.mean scores else -1e6
  else if String.eqb metric "accuracy" then
    if (0 <? length scores)%nat then np.mean scores else 0.0
  else
    if (0 <? length scores)%nat then - np.mean scores else 1e6.


(** [params[name]] is an integer, or a float, within the given bounds. *)
Definition int_in (params : gmap string value) (name : string)
    (low high : Z) : Prop :=
  exists z, params !! name = Some (VInt z) /\ (low <= z <= high)%Z.

Definition float_in (params : gmap string value) (name : string)
    (low high : R) : Prop :=
  exists r, params !! name = Some (VFloat r) /\ low <= r <= high.

Definition choice_in (params : gmap string value) (name : string)
    (choices : list string) : Prop :=
  exists c, params !! name = Some (VStr c) /\ c ∈ choices.

(** The distribution a trial has recorded for [name]. *)
Definition declared {bk : optuna.Backend} (t : optuna.Trial) (name : string)
    (d : optuna.Distribution) : Prop :=
  optuna.trial_distributions t !! name = Some d.

(** Scorers of scikit-learn are "greater is better".  [agrees d va vb] says
    that direction [d] ranks the objective value [vb] at least as good as
    [va]. *)
Definition agrees (d : optuna.StudyDirection) (va vb : R) : Prop :=
  match d with
  | optuna.MINIMIZE => vb <= va
  | optuna.MAXIMIZE => va <= vb
  end.

End Objective.

(** The estimator [e] as a voting ensemble keeps it: cloned, then fitted on
    all of [X], [y]. *)
Definition refit (X : matrix) (y : vector) (e : Estimator) : Estimator :=
  {| est_class := est_class e; est_params := est_params e;
     est_fitted := Some (X, y); est_eval_set := [] |}.

(** ** Vocabulary for the properties of the search *)

Module Search.
Section search.
Context {caps : Capabilities} {sk : Sklearn} {md : Models}
        {bk : optuna.Backend}.

Local Open Scope R_scope.

(** The distributions a trial of the given model type declares. *)
Definition search_space (self : AutoMLModel.t) (model_type : string)
  : gmap string optuna.Distribution :=
  let base : gmap string optuna.Distribution :=
    <["model_type" :=
        optuna.CategoricalDistribution (AutoMLModel.model_types self)]> ∅ in
  if String.eqb model_type "rf" then
    <["n_estimators" := optuna.IntDistribution 50 300]>
    (<["max_depth" := optuna.IntDistribution 3 20]>
    (<["min_samples_split" := optuna.IntDistribution 2 20]>
    (<["min_samples_leaf" := optuna.IntDistribution 1 10]> base)))
  else if String.eqb model_type "xgb" && HAS_XGBOOST then
    <["n_estimators" := optuna.IntDistribution 50 300]>
    (<["learning_rate" := optuna.FloatDistribution 0.01 0.3 false]>
    (<["max_depth" := optuna.IntDistribution 3 10]>
    (<["subsample" := optuna.FloatDistribution 0.6 1.0 false]>
    (<["colsample_bytree" := optuna.FloatDistribution 0.6 1.0 false]>
       base))))
  else if String.eqb model_type "lgb" && HAS_LIGHTGBM then
    <["n_estimators" := optuna.IntDistribution 50 300]>
    (<["learning_rate" := optuna.FloatDistribution 0.01 0.3 false]>
    (<["num_leaves" := optuna.IntDistribution 10 100]>
    (<["feature_fraction" := optuna.FloatDistribution 0.5 1.0 false]>
    (<["bagging_fraction" := optuna.FloatDistribution 0.5 1.0 false]>
       base))))
  else if String.eqb model_type "svm" then
    <["C" := optuna.FloatDistribution 0.1 100 true]>
    (<["gamma" := optuna.CategoricalDistribution ["scale"; "auto"]]>
    (<["kernel" :=
         optuna.CategoricalDistribution ["linear"; "rbf"; "poly"]]> base))
  else if String.eqb model_type "linear" then
    <["regularization" :=
        optuna.CategoricalDistribution ["none"; "ridge"; "lasso"]]>
    (<["alpha" := optuna.FloatDistribution 0.001 10 true]> base)
  else base.

(** The model type among a trial's parameters. *)
Definition model_type_of (ps : gmap string value) : string :=
  match ps !! "model_type" with
  | Some (VStr model_type) => model_type
  | _ => ""
  end.

(** The sequence of sampled (model type, configuration) pairs of a study:
    the parameters of its trials, in order. *)
Definition sampled (st : optuna.Study) : list (gmap string value) :=
  map optuna.params (optuna.trials st).

(** The study after [study.optimize] on a new study. *)
Definition search (self : AutoMLModel.t) (X : matrix) (y : vector)
    (metric : string) (st : optuna.Study) : optuna.Study :=
  (optuna.optimize (AutoMLModel._create_objective self X y metric)
     (Z.to_nat (AutoMLModel.n_trials self)) (AutoMLModel.timeout self)
     st).1.1.

End search.
End Search.

(** ** Concrete environments

    Small instances of the interfaces, used to run the model on examples. *)

Module Demo.

Definition capabilities (xgboost lightgbm optuna : bool) : Capabilities :=
  {| HAS_XGBOOST := xgboost; HAS_LIGHTGBM := lightgbm;
     HAS_OPTUNA := optuna |}.

(** The value of an estimator's [constant] parameter. *)
Definition constant_of (e : Estimator) : R :=
  match est_params e !! "constant" with
  | Some (VFloat r) => r
  | _ => 0%R
  end.

(** What scikit-learn's input validation says of an array without rows;
    the data of the examples has one feature. *)
Definition no_samples (cls : string) : exn :=
  ValueError
    (String.append
       "Found array with 0 sample(s) (shape=(0, 1)) while a minimum of 1 is required by "
       (String.append cls ".")).

Definition rejects_empty (cls : string) (X : matrix) : option exn :=
  match X with
  | [] => Some (no_samples cls)
  | _ => None
  end.

(** A scikit-learn whose shuffle is the identity, whose estimators never
    fail to fit, reject an input without rows when they predict and
    otherwise predict the value of their [constant] parameter, and whose
    cross-validation returns the given fold scores. *)
Definition sklearn (cv_result : result vector) : Sklearn :=
  {| permutation := fun n => seq 0 n;
     estimator_fit_error := fun _ _ _ _ => None;
     estimator_predict_error := fun e X => rejects_empty (est_class e) X;
     estimator_predict := fun e _ => constant_of e;
     classifier_vote_error := fun _ _ X => rejects_empty "VotingClassifier" X;
     classifier_vote := fun _ _ _ => 0%R;
     cross_val_score := fun _ _ _ _ _ => cv_result |}.


(** A [.models] whose classes wrap an estimator of the same name, fit it on
    all the data they are given and report no metrics. *)
Definition models (sk : Sklearn) : Models :=
  {| models_new := fun cls task_type kwargs =>
       Ok (BaseModel.__init__ cls task_type (new_estimator cls kwargs));
     models_fit := fun self X y =>
       m ← estimator_fit (BaseModel.model self) X y [];
       Ok (BaseModel.fitted self m, (∅ : metrics));
     models_predict := fun self X =>
       if negb (BaseModel.is_fitted self) then Raise not_fitted_predict
       else estimator_predict_all (BaseModel.model self) X;
     evaluate := fun _ _ _ _ => Ok (∅ : metrics) |}.


(** A sampler that replays a tape of numbers: each draw consumes one entry
    and maps it into the requested range. *)
Definition tape : optuna.Backend :=
  {| optuna.sampler_state := list nat;
     optuna.sample_int := fun s _ _ low high =>
       ((low + Z.of_nat (hd O s) `mod` (high - low + 1))%Z, tl s);
     optuna.sample_float := fun s _ _ low high _ =>
       (if Nat.even (hd O s) then low else high, tl s);
     optuna.sample_categorical := fun s _ _ choices =>
       (nth (hd O s `mod` length choices) choices "", tl s);
     optuna.timed_out := fun _ _ => false |}.

Definition draws (l : list nat) : optuna.sampler_state (Backend := tape) :=
  l.

Definition fresh (task_type metric : string) (model_types : list string)
    (n_trials cv_folds : Z) {bk : optuna.Backend} : AutoMLModel.t :=
  {| AutoMLModel.task_type := task_type;
     AutoMLModel.is_fitted := false;
     AutoMLModel.model_types := model_types;
     AutoMLModel.optimization_metric := metric;
     AutoMLModel.n_trials := n_trials;
     AutoMLModel.cv_folds := cv_folds;
     AutoMLModel.timeout := None;
     AutoMLModel.best_model := None;
     AutoMLModel.best_params := None;
     AutoMLModel.study := None |}.

Definition sk0 : Sklearn := sklearn (Ok []).
Definition md0 : Models := models sk0.
Definition no_optuna : Capabilities := capabilities false false false.

(** The default random forest of [md0], before and after its [fit]. *)
Definition rf0 : BaseModel.t :=
  BaseModel.__init__ "RandomForestModel" "regression"
    (new_estimator "RandomForestModel" ∅).

Definition rf_on (X : matrix) (y : vector) : BaseModel.t :=
  BaseModel.fitted rf0
    {| est_class := "RandomForestModel"; est_params := ∅;
       est_fitted := Some (X, y); est_eval_set := [] |}.

Definition optuna_only : Capabilities := capabilities false false true.
Definition everything : Capabilities := capabilities true true true.

(** Ten samples with one feature each. *)
Definition X10 : matrix :=
  map (fun i => [INR i]) (seq 0 10).
Definition y10 : vector := map INR (seq 0 10).

Definition y6 : vector := [0; 1; 2; 3; 4; 5]%R.
Definition X6 : matrix := map (fun v => [v]) y6.
Definition y3 : vector := [0; 1; 2]%R.
Definition X3 : matrix := map (fun v => [v]) y3.

(** An empty study and its first trial, for a given tape. *)
Definition study0 (direction : optuna.StudyDirection) (l : list nat)
  : optuna.Study (bk := tape) :=
  {| optuna.direction := direction; optuna.trials := [];
     optuna.sampler := draws l |}.

Definition trial0 (l : list nat) : optuna.Trial (bk := tape) :=
  optuna.ask (study0 optuna.MINIMIZE l).

(** A model of [.models] whose estimator predicts the constant [c]. *)
Definition constant_model (c : R) : BaseModel.t :=
  BaseModel.__init__ "LinearModel" "regression"
    (new_estimator "LinearModel" (<["constant" := VFloat c]> ∅)).

(** A voting ensemble of two such models, before and after
    [_fit_voting]. *)
Definition ensemble0 : EnsembleModel.t :=
  {| EnsembleModel.task_type := "regression";
     EnsembleModel.is_fitted := false;
     EnsembleModel.base_models := [constant_model 1; constant_model 3];
     EnsembleModel.ensemble_method := "voting";
     EnsembleModel.voting_strategy := "soft";
     EnsembleModel.cv_folds := 5;
     EnsembleModel.ensemble := None |}.

Definition ensemble1 : EnsembleModel.t :=
  (EnsembleModel._fit_voting (sk := sk0) (md := md0) X10 y10 ensemble0).1.


(** A scikit-learn whose cross-validation reports a mean squared error of
    4 on the only fold. *)
Definition sk4 : Sklearn := sklearn (Ok [-4]%R).
Definition md4 : Models := models sk4.

(** An instance that tries one of the two gradient-boosted families
    once. *)
Definition xgb_or_lgb : AutoMLModel.t (bk := tape) :=
  fresh "regression" "auto" ["xgb"; "lgb"] 1 5.

(** An instance that optimizes "auc" over xgboost. *)
Definition auc_xgb : AutoMLModel.t (bk := tape) :=
  fresh "regression" "auc" ["xgb"] 100 5.

Definition new_world (self : AutoMLModel.t (bk := tape))
  : AutoMLModel.world :=
  {| AutoMLModel.self_of := self; AutoMLModel.warnings := [] |}.

(** An instance whose only family is xgboost. *)
Definition only_xgb : AutoMLModel.t (bk := tape) :=
  fresh "regression" "auto" ["xgb"] 1 5.

(** An instance with the random forest as its only family, before any
    [fit], and the world around it before and after a [fit] without
    optuna. *)
Definition unfitted_rf : AutoMLModel.t (bk := tape) :=
  fresh "regression" "auto" ["rf"] 100 5.

Definition world0 : AutoMLModel.world :=
  {| AutoMLModel.self_of := unfitted_rf; AutoMLModel.warnings := [] |}.

Definition world1 : AutoMLModel.world :=
  {| AutoMLModel.self_of :=
       AutoMLModel.set_best_model (rf_on X10 y10)
         (AutoMLModel.set_best_model rf0 unfitted_rf);
     AutoMLModel.warnings :=
       ["Optuna not available. Using default Random Forest."] |}.

(** The world after [fit] on the xgboost-only instance. *)
Definition world_xgb : AutoMLModel.world :=
  (AutoMLModel.fit (caps := everything) (sk := sk4) (md := md4) X10 y10
     (draws [0; 1; 2; 3; 4; 5]%nat) (new_world only_xgb)).1.

(** The study a [fit] of [xgb_or_lgb] leaves behind, by tape. *)
Definition study_after (l : list nat) : option (optuna.Study (bk := tape)) :=
  AutoMLModel.study
    (AutoMLModel.self_of
       (AutoMLModel.fit (caps := everything) (sk := sk4) (md := md4) X10 y10
          (draws l) (new_world xgb_or_lgb)).1).

End Demo.

(** ** The rest of the module *)

(** "Filter available models": the list [AutoMLModel.__init__] filters the
    requested model types by. *)
Definition available_models {caps : Capabilities} : list string :=
  (["rf"; "svm"; "linear"]
     ++ (if HAS_XGBOOST then ["xgb"] else [])
     ++ (if HAS_LIGHTGBM then ["lgb"] else []))%list.

(** [EnsembleModel.__init__] and [_get_default_models].  The constructor
    also stores [meta_model], which only [_fit_stacking] reads; it is
    returned next to the instance. *)
Module EnsembleInit.
Section methods.
Context {md : Models}.

(** [_get_default_models()] *)
Definition _get_default_models (task_type : string)
  : result (list BaseModel.t) :=
  linear ← models_new "LinearModel" task_type
             (<["regularization" := VStr "ridge"]> ∅);
  forest ← models_new "RandomForestModel" task_type
             (<["n_estimators" := VInt 100]> ∅);
  svm ← models_new "SVMModel" task_type (<["kernel" := VStr "rbf"]> ∅);
  Ok [linear; forest; svm].

(** [EnsembleModel(base_models=..., ensemble_method=..., ...)]: an absent or
    empty list of base models is replaced by the defaults. *)
Definition __init__ (task_type : string)
    (base_models : option (list BaseModel.t))
    (ensemble_method voting_strategy : string)
    (meta_model : option BaseModel.t) (cv_folds : Z)
  : result (EnsembleModel.t * option BaseModel.t) :=
  base_models ←
    match base_models with
    | Some (m :: ms) => Ok (m :: ms)
    | _ => _get_default_models task_type
    end;
  Ok ({| EnsembleModel.task_type := task_type;
         EnsembleModel.is_fitted := false;
         EnsembleModel.base_models := base_models;
         EnsembleModel.ensemble_method := ensemble_method;
         EnsembleModel.voting_strategy := voting_strategy;
         EnsembleModel.cv_folds := cv_folds;
         EnsembleModel.ensemble := None |},
      meta_model).

End methods.
End EnsembleInit.

(** [ConvolutionalNN.__init__]: the layers it builds and the sizes it
    tracks while building them.  Sizes are Python integers; [//] is floor
    division and raises [ZeroDivisionError] on a zero divisor. *)
Module ConvolutionalNN.

Inductive layer :=
| Conv1d (in_channels out_channels kernel_size padding : Z)
| ReLU
| MaxPool1d (pool_size : Z)
| Dropout (rate : R)
| Linear (in_features out_features : Z).

(** The attributes [__init__] assigns; the [StandardScaler] it creates and
    the parameters of the torch layers are left out. *)
Record t := {
  task_type : string;
  is_fitted : bool;
  input_dim : Z;
  num_conv_layers : Z;
  conv_channels : list Z;
  kernel_sizes : list Z;
  pool_sizes : list Z;
  hidden_dims : list Z;
  dropout_rate : R;
  output_dim : Z;
  conv_layers : list layer;
  fc_layers : list layer
}.

Definition ZeroDivisionError : exn :=
  Exception "ZeroDivisionError" "integer division or modulo by zero".

(** What torch does when a layer is constructed.  A layer with parameters
    allocates its weight, and a negative size in the shape of the weight is
    a [RuntimeError] that names the first negative size and the shape;
    [nn.Dropout] rejects a probability outside [0, 1] with a [ValueError],
    whose message goes on with the number; [nn.ReLU] and [nn.MaxPool1d]
    accept what they are given. *)
Definition negative_dimension (size : Z) (shape : list Z) : exn :=
  Exception "RuntimeError"
    (String.append "Trying to create tensor with negative dimension "
       (String.append (pretty size)
          (String.append ": ["
             (String.append (String.concat ", " (map pretty shape)) "]")))).

(** [torch.empty(shape)] *)
Definition allocate (shape : list Z) : result unit :=
  match List.find (fun size => (size <? 0)%Z) shape with
  | Some size => Raise (negative_dimension size shape)
  | None => Ok tt
  end.

(** [nn.Conv1d(in_channels, out_channels, kernel_size, padding=padding)] *)
Definition new_Conv1d (in_channels out_channels kernel_size padding : Z)
  : result layer :=
  allocate [out_channels; in_channels; kernel_size];;
  Ok (Conv1d in_channels out_channels kernel_size padding).

(** [nn.Dropout(rate)] *)
Definition new_Dropout (rate : R) : result layer :=
  if bool_decide (rate < 0)%R || bool_decide (1 < rate)%R
  then Raise (ValueError "dropout probability has to be between 0 and 1, but got ")
  else Ok (Dropout rate).

(** [nn.Linear(in_features, out_features)] *)
Definition new_Linear (in_features out_features : Z) : result layer :=
  allocate [out_features; in_features];;
  Ok (Linear in_features out_features).

(** [xs or [d] * n] *)
Definition or_default (xs : list Z) (d : Z) (n : Z) : list Z :=
  match xs with
  | [] => replicate (Z.to_nat n) d
  | _ => xs
  end.

(** [xs[i] if i < len(xs) else d] *)
Definition item_or (xs : list Z) (i : nat) (d : Z) : Z :=
  default d (xs !! i).

(** The loop "Build convolutional layers": [todo] layers remain, the next
    one has index [i]. *)
Fixpoint build_conv (channels kernels pools : list Z) (rate : R)
    (todo i : nat) (layers : list layer) (in_channels current_length : Z)
  : result (list layer * Z * Z) :=
  match todo with
  | O => Ok (layers, in_channels, current_length)
  | S todo' =>
      let out_channels := item_or channels i 64 in
      let kernel_size := item_or kernels i 3 in
      let pool_size := item_or pools i 2 in
      conv ← new_Conv1d in_channels out_channels kernel_size
               (kernel_size / 2);
      dropout ← new_Dropout rate;
      let layers :=
        (layers ++ [conv; ReLU; MaxPool1d pool_size; dropout])%list in
      if (pool_size =? 0)%Z then Raise ZeroDivisionError
      else
        build_conv channels kernels pools rate todo' (S i) layers
          out_channels (current_length / pool_size)
  end.

(** The loop "Build fully connected layers". *)
Fixpoint build_fc (rate : R) (hidden : list Z) (layers : list layer)
    (prev_dim : Z) : result (list layer * Z) :=
  match hidden with
  | [] => Ok (layers, prev_dim)
  | hidden_dim :: rest =>
      linear ← new_Linear prev_dim hidden_dim;
      dropout ← new_Dropout rate;
      build_fc rate rest (layers ++ [linear; ReLU; dropout])%list hidden_dim
  end.

(** [ConvolutionalNN(input_dim, num_conv_layers, conv_channels, ...)] *)
Definition __init__ (task_type : string) (input_dim num_conv_layers : Z)
    (conv_channels kernel_sizes pool_sizes hidden_dims : list Z)
    (dropout_rate : R) (output_dim : Z) : result t :=
  let conv_channels := or_default conv_channels 64 num_conv_layers in
  let kernel_sizes := or_default kernel_sizes 3 num_conv_layers in
  let pool_sizes := or_default pool_sizes 2 num_conv_layers in
  built ← build_conv conv_channels kernel_sizes pool_sizes dropout_rate
            (Z.to_nat num_conv_layers) 0 [] 1 input_dim;
  let '(conv_layers, in_channels, current_length) := built in
  let flattened_size := (in_channels * current_length)%Z in
  dense ← build_fc dropout_rate hidden_dims [] flattened_size;
  let '(fc_layers, prev_dim) := dense in
  output ← new_Linear prev_dim output_dim;
  Ok {| task_type := task_type; is_fitted := false;
        input_dim := input_dim; num_conv_layers := num_conv_layers;
        conv_channels := conv_channels; kernel_sizes := kernel_sizes;
        pool_sizes := pool_sizes; hidden_dims := hidden_dims;
        dropout_rate := dropout_rate; output_dim := output_dim;
        conv_layers := conv_layers;
        fc_layers := (fc_layers ++ [output])%list |}.

End ConvolutionalNN.

(** ** Candidates of the search *)

Section candidates.
Context {caps : Capabilities} {sk : Sklearn} {md : Models}
        {bk : optuna.Backend}.

(** Whether the candidate with parameters [ps] is penalized: the [try] block
    of the objective raises for it. *)
Definition penalized (self : AutoMLModel.t) (X : matrix) (y : vector)
    (metric : string) (ps : gmap string value) : bool :=
  match AutoMLModel.objective_try self X y metric (Search.model_type_of ps)
          (delete "model_type" ps) with
  | Ok _ => false
  | Raise _ => true
  end.

End candidates.

(** ** More concrete cases *)

Module Cases.

(** An instance that is given no trial to run. *)
Definition no_trials : AutoMLModel.t (bk := Demo.tape) :=
  Demo.fresh "regression" "auto" ["rf"] 0 5.

(** What the constructor makes of the default arguments when neither
    xgboost nor lightgbm is installed. *)
Definition defaults : AutoMLModel.t (bk := Demo.tape) :=
  Demo.fresh "regression" "auto" ["rf"; "svm"; "linear"] 100 5.

(** A dataset of a single sample. *)
Definition X1 : matrix := [[0%R]].
Definition y1 : vector := [0%R].

(** The world after [fit] of the xgboost-only instance on that dataset. *)
Definition world_one : AutoMLModel.world :=
  (AutoMLModel.fit (caps := Demo.everything) (sk := Demo.sk4)
     (md := Demo.md4) X1 y1 (Demo.draws [0; 1; 2; 3; 4; 5]%nat)
     (Demo.new_world Demo.only_xgb)).1.

(** The ensemble the constructor builds from the default arguments with
    the models of [Demo.md0]. *)
Definition default_ensemble : EnsembleModel.t :=
  {| EnsembleModel.task_type := "regression";
     EnsembleModel.is_fitted := false;
     EnsembleModel.base_models :=
       [BaseModel.__init__ "LinearModel" "regression"
          (new_estimator "LinearModel" (<["regularization" := VStr "ridge"]> ∅));
        BaseModel.__init__ "RandomForestModel" "regression"
          (new_estimator "RandomForestModel"
             (<["n_estimators" := VInt 100]> ∅));
        BaseModel.__init__ "SVMModel" "regression"
          (new_estimator "SVMModel" (<["kernel" := VStr "rbf"]> ∅))];
     EnsembleModel.ensemble_method := "voting";
     EnsembleModel.voting_strategy := "soft";
     EnsembleModel.cv_folds := 5;
     EnsembleModel.ensemble := None |}.

(** The two-member ensemble after [_fit_voting] on the single sample. *)
Definition ensemble_one : EnsembleModel.t :=
  (EnsembleModel._fit_voting (sk := Demo.sk0) (md := Demo.md0) X1 y1
     Demo.ensemble0).1.

End Cases.

(** More cases: what the constructor keeps of a request for xgboost, the
    support vector machine and the random forest when xgboost is not
    installed, and an instance that optimizes the mean squared error. *)
Module Requests.

Definition svm_and_rf : AutoMLModel.t (bk := Demo.tape) :=
  Demo.fresh "regression" "auto" ["svm"; "rf"] 10 5.

Definition mse_rf : AutoMLModel.t (bk := Demo.tape) :=
  Demo.fresh "regression" "mse" ["rf"] 10 5.

End Requests.

(** ** Vocabulary for the sizes of [ConvolutionalNN] *)

Module Shapes.

(** The first [n] entries the loop of [__init__] reads from [xs], with the
    fallback [d] past its end. *)
Definition used (xs : list Z) (d : Z) (n : nat) : list Z :=
  map (fun i => ConvolutionalNN.item_or xs i d) (seq 0 n).

Definition product (xs : list Z) : Z := foldr Z.mul 1%Z xs.

(** The fully connected stack for a given input size: one
    [Linear; ReLU; Dropout] group per hidden size, then the output layer. *)
Definition dense (rate : R) (size : Z) (hidden : list Z) (output_dim : Z)
  : list ConvolutionalNN.layer :=
  (flat_map
     (fun io : Z * Z =>
        [ConvolutionalNN.Linear io.1 io.2; ConvolutionalNN.ReLU;
         ConvolutionalNN.Dropout rate])
     (zip (size :: hidden) hidden)
   ++ [ConvolutionalNN.Linear (List.last hidden size) output_dim])%list.

(** Arguments that the constructors of the torch layers accept: positive
    channel counts, kernel sizes and feature counts, and a dropout
    probability. *)
Definition accepted (channels kernels hidden : list Z) (rate : R)
    (output_dim : Z) : Prop :=
  Forall (fun c => 0 < c)%Z channels
  /\ Forall (fun k => 0 < k)%Z kernels
  /\ Forall (fun h => 0 < h)%Z hidden
  /\ (0 < output_dim)%Z
  /\ (0 <= rate <= 1)%R.

End Shapes.

(** * Properties *)

Module AutoMLModelFacts.
Import AutoMLModel.

Section facts.
Context {caps : Capabilities} {sk : Sklearn} {md : Models}
        {bk : optuna.Backend}.

Lemma init_unfitted task_type mts metric n k tmo self :
  __init__ task_type mts metric n k tmo = Ok self ->
  is_fitted self = false /\ best_model self = None.
Proof.
  unfold __init__. intros Hinit.
  destruct (List.filter _ _); [discriminate|].
  injection Hinit as <-. split; reflexivity.
Qed.

Lemma predict_unfitted self X :
  is_fitted self = false -> predict self X = Raise not_fitted_predict.
Proof. unfold predict. intros ->. reflexivity. Qed.

(** C7 (amended). On every instance that [__init__] returns, [predict]
    called before any [fit] raises [ValueError] with the message
    "Model must be fitted before making predictions". *)
Theorem predict_before_fit task_type mts metric n k tmo self X :
  __init__ task_type mts metric n k tmo = Ok self ->
  predict self X =
    Raise (Exception "ValueError"
             "Model must be fitted before making predictions").
Proof.
  intros Hinit. apply init_unfitted in Hinit as [Hf _].
  apply predict_unfitted. exact Hf.
Qed.

(** The branch of [fit] taken when optuna is missing, step by step. *)
Lemma fit_without_optuna_eq X y entropy w :
  HAS_OPTUNA = false ->
  fit X y entropy w =
    let warned :=
      (warnings w ++
         ["Optuna not available. Using default Random Forest."])%list in
    match models_new "RandomForestModel" (task_type (self_of w)) ∅ with
    | Raise e => ({| self_of := self_of w; warnings := warned |}, Raise e)
    | Ok rf =>
        match call_fit rf X y with
        | Raise e =>
            ({| self_of := set_best_model rf (self_of w);
                warnings := warned |}, Raise e)
        | Ok fitted =>
            ({| self_of :=
                  set_best_model fitted.1 (set_best_model rf (self_of w));
                warnings := warned |}, Ok fitted.2)
        end
    end.
Proof.
  intros Hno. unfold fit, mbind, method_bind, get_state. rewrite Hno.
  simpl. unfold call.
  destruct (models_new _ _ _) as [rf|e]; [|reflexivity]. simpl.
  destruct (call_fit rf X y) as [fitted|e]; reflexivity.
Qed.

Lemma fit_without_optuna_is_fitted X y entropy w :
  HAS_OPTUNA = false ->
  is_fitted (self_of (fit X y entropy w).1) = is_fitted (self_of w).
Proof.
  intros Hno. rewrite fit_without_optuna_eq by exact Hno. simpl.
  destruct (models_new _ _ _) as [rf|e]; [|reflexivity].
  destruct (call_fit rf X y) as [fitted|e]; reflexivity.
Qed.



(** C10. Without optuna, a [fit] on an unfitted instance that returns
    metrics leaves [is_fitted] false, so every later [predict] raises
    "Model must be fitted before making predictions". *)
Theorem fallback_fit_stays_unfitted X y entropy w w' ms :
  HAS_OPTUNA = false ->
  is_fitted (self_of w) = false ->
  fit X y entropy w = (w', Ok ms) ->
  is_fitted (self_of w') = false
  /\ forall X', predict (self_of w') X' = Raise not_fitted_predict.
Proof.
  intros Hno Hunfit Hfit.
  assert (Hflag : is_fitted (self_of w') = false).
  { rewrite <- Hunfit, <- (fit_without_optuna_is_fitted X y entropy w Hno).
    rewrite Hfit. reflexivity. }
  split; [exact Hflag|]. intros X'. apply predict_unfitted, Hflag.
Qed.

End facts.

Lemma predict_before_fit_witness :
  __init__ (caps := Demo.capabilities false false true)
    "regression" (Some ["rf"]) "auto" 100 5 None = Ok Demo.unfitted_rf
  /\ predict (sk := Demo.sk0) (md := Demo.md0)
       Demo.unfitted_rf [] =
     Raise (Exception "ValueError"
              "Model must be fitted before making predictions").
Proof.
  split; [reflexivity|].
  apply (predict_before_fit (caps := Demo.capabilities false false true)
           (sk := Demo.sk0) (md := Demo.md0)
           "regression" (Some ["rf"]) "auto" 100 5 None).
  reflexivity.
Defined.

(** C7 as stated fails: the exception raised before [fit] is a
    [ValueError], not a [NotFittedError]. *)
Lemma predict_before_fit_not_NotFittedError :
  __init__ (caps := Demo.capabilities false false true)
    "regression" (Some ["rf"]) "auto" 100 5 None = Ok Demo.unfitted_rf
  /\ forall msg,
       predict (sk := Demo.sk0) (md := Demo.md0)
         Demo.unfitted_rf [] <> Raise (Exception "NotFittedError" msg).
Proof.
  split; [reflexivity|]. intros msg. simpl. discriminate.
Qed.




(** Without optuna the run on ten samples returns the metrics of the random
    forest fitted on those ten samples. *)
Lemma fit_without_optuna_run :
  fit (caps := Demo.no_optuna) (sk := Demo.sk0) (md := Demo.md0)
    (bk := Demo.tape) Demo.X10 Demo.y10 (Demo.draws []) Demo.world0 =
  (Demo.world1, Ok ∅).
Proof. reflexivity. Qed.

Lemma fallback_fit_stays_unfitted_witness :
  HAS_OPTUNA (Capabilities := Demo.no_optuna) = false
  /\ is_fitted (self_of Demo.world0) = false
  /\ fit (caps := Demo.no_optuna) (sk := Demo.sk0) (md := Demo.md0)
       (bk := Demo.tape) Demo.X10 Demo.y10 (Demo.draws []) Demo.world0 = (Demo.world1, Ok ∅)
  /\ is_fitted (self_of Demo.world1) = false
  /\ forall X',
       predict (sk := Demo.sk0) (md := Demo.md0) (self_of Demo.world1) X' =
       Raise not_fitted_predict.
Proof.
  split; [reflexivity|]. split; [reflexivity|]. split; [reflexivity|].
  apply (fallback_fit_stays_unfitted (caps := Demo.no_optuna)
           (sk := Demo.sk0) (md := Demo.md0) (bk := Demo.tape) Demo.X10 Demo.y10 (Demo.draws []) Demo.world0
           Demo.world1 ∅); reflexivity.
Defined.

End AutoMLModelFacts.

Module ObjectiveFacts.
Import AutoMLModel Objective.

Section facts.
Context {caps : Capabilities} {sk : Sklearn} {md : Models}
        {bk : optuna.Backend}.

Local Open Scope R_scope.

(** The four metric branches of the [try] block differ only in the scoring
    name and in what they make of the fold scores. *)
Lemma objective_try_eq self X y metric model_type params :
  objective_try self X y metric model_type params =
    (model ← _create_model self model_type params;
     cv ← cv_strategy self y;
     scores ← cross_val_score (BaseModel.model model) X y cv
                (scoring_of metric);
     Ok (score_of metric scores)).
Proof.
  unfold objective_try, scoring_of, score_of.
  destruct (_create_model _ _ _) as [model|e]; [|reflexivity]. simpl.
  destruct (cv_strategy self y) as [cv|e]; [|reflexivity]. simpl.
  destruct (String.eqb metric "rmse"); [reflexivity|].
  destruct (String.eqb metric "r2"); [reflexivity|].
  destruct (String.eqb metric "accuracy"); reflexivity.
Qed.

(** Outside stratified classification the splitter is a plain [KFold] over
    [min(cv_folds, len(y) // 2)] folds. *)
Lemma cv_strategy_plain self y :
  (String.eqb (task_type self) "classification" && (1 <? np.n_unique y)%Z)
    = false ->
  cv_strategy self y =
    KFold (Z.min (cv_folds self) (Z.of_nat (length y) / 2)) true 42.
Proof. unfold cv_strategy. intros ->. reflexivity. Qed.

(** With at least two classes and at least two requested folds, the
    splitter is stratified over [min(cv_folds, number of classes)] folds. *)
Lemma cv_strategy_stratified self y :
  task_type self = "classification" ->
  (2 <= np.n_unique y)%Z -> (2 <= cv_folds self)%Z ->
  cv_strategy self y =
    Ok (StratifiedKFoldSplitter (Z.min (cv_folds self) (np.n_unique y))
          true 42).
Proof.
  intros Htask Hcls Hfolds. unfold cv_strategy. rewrite Htask. simpl.
  replace (1 <? np.n_unique y)%Z with true by (symmetry; apply Z.ltb_lt; lia).
  unfold StratifiedKFold.
  replace (Z.min (cv_folds self) (np.n_unique y) <=? 1)%Z with false
    by (symmetry; apply Z.leb_gt; lia).
  reflexivity.
Qed.

(** Of the five model types [_create_model] constructs the two
    gradient-boosted ones, when their library is installed. *)
Lemma create_model_gradient_boosted self model_type params :
  (model_type = "xgb" /\ HAS_XGBOOST = true)
  \/ (model_type = "lgb" /\ HAS_LIGHTGBM = true) ->
  exists model,
    _create_model self model_type params = Ok model
    /\ (BaseModel.cls model = "XGBoostModel"
        \/ BaseModel.cls model = "LightGBMModel")
    /\ BaseModel.is_fitted model = false
    /\ est_fitted (BaseModel.model model) = None.
Proof.
  unfold _create_model. intros [[-> Hhas]|[-> Hhas]]; rewrite Hhas; simpl;
    eexists; (split; [reflexivity|]); simpl; auto.
Qed.

(** C3 (amended). For a candidate of a gradient-boosted model type, with
    plain folds (a task other than classification, or a single class), at
    least four samples and fewer than two samples per requested fold, the
    splitter is a [KFold] over [len(y) // 2] folds, which is
    [max(2, len(y) // 2)], and the candidate is scored by [cross_val_score]
    with that splitter. *)
Theorem small_dataset_folds self X y metric model_type params :
  (model_type = "xgb" /\ HAS_XGBOOST = true)
  \/ (model_type = "lgb" /\ HAS_LIGHTGBM = true) ->
  (String.eqb (task_type self) "classification" && (1 <? np.n_unique y)%Z)
    = false ->
  (4 <= Z.of_nat (length y))%Z ->
  (Z.of_nat (length y) < 2 * cv_folds self)%Z ->
  let reduced := Z.max 2 (Z.of_nat (length y) / 2) in
  reduced = (Z.of_nat (length y) / 2)%Z
  /\ cv_strategy self y = Ok (KFoldSplitter reduced true 42)
  /\ exists model,
       _create_model self model_type params = Ok model
       /\ objective_try self X y metric model_type params =
            (scores ← cross_val_score (BaseModel.model model) X y
                       (KFoldSplitter reduced true 42) (scoring_of metric);
             Ok (score_of metric scores)).
Proof.
  intros Hfamily Hplain Hfour Hsmall reduced.
  assert (Hhalf : (2 <= Z.of_nat (length y) / 2)%Z).
  { apply Z.div_le_lower_bound; lia. }
  assert (Hlt : (Z.of_nat (length y) / 2 < cv_folds self)%Z).
  { apply Z.div_lt_upper_bound; lia. }
  assert (Hred : reduced = (Z.of_nat (length y) / 2)%Z).
  { unfold reduced. lia. }
  assert (Hcv : cv_strategy self y = Ok (KFoldSplitter reduced true 42)).
  { rewrite cv_strategy_plain by exact Hplain. unfold KFold.
    rewrite Z.min_r by lia. rewrite Hred.
    replace (Z.of_nat (length y) / 2 <=? 1)%Z with false
      by (symmetry; apply Z.leb_gt; lia).
    reflexivity. }
  split; [exact Hred|]. split; [exact Hcv|].
  destruct (create_model_gradient_boosted self model_type params Hfamily)
    as (model & Hmodel & _).
  exists model. split; [exact Hmodel|].
  rewrite objective_try_eq, Hmodel, Hcv. reflexivity.
Qed.


Lemma create_study_direction direction entropy st :
  optuna.create_study direction entropy = Ok st ->
  (direction = "minimize" /\ optuna.direction st = optuna.MINIMIZE)
  \/ (direction = "maximize" /\ optuna.direction st = optuna.MAXIMIZE).
Proof.
  unfold optuna.create_study. intros Hst.
  destruct (String.eqb direction "minimize") eqn:Hmin.
  - apply String.eqb_eq in Hmin. injection Hst as <-. left. auto.
  - destruct (String.eqb direction "maximize") eqn:Hmax; [|discriminate].
    apply String.eqb_eq in Hmax. injection Hst as <-. right. auto.
Qed.

Lemma better_minimize a b : (a < b) -> optuna.better optuna.MINIMIZE a b = true.
Proof. intros Hlt. unfold optuna.better. apply bool_decide_eq_true, Hlt. Qed.

Lemma better_maximize a b : (b < a) -> optuna.better optuna.MAXIMIZE a b = true.
Proof. intros Hlt. unfold optuna.better. apply bool_decide_eq_true, Hlt. Qed.



(** For "rmse", "r2" and "accuracy" the direction of the study agrees with
    what the objective returns: a candidate whose mean fold score is higher
    is ranked at least as good. *)
Lemma direction_agrees self entropy st scores_a scores_b :
  In (optimization_metric self) ["auto"; "rmse"; "r2"; "accuracy"] ->
  optuna.create_study (metric_and_direction self).2 entropy = Ok st ->
  scores_a <> [] -> scores_b <> [] ->
  np.mean scores_a <= np.mean scores_b ->
  agrees (optuna.direction st)
    (score_of (metric_and_direction self).1 scores_a)
    (score_of (metric_and_direction self).1 scores_b).
Proof.
  intros Hin Hst Ha Hb Hmean.
  assert (Hla : (0 <? length scores_a)%nat = true)
    by (destruct scores_a; [congruence|reflexivity]).
  assert (Hlb : (0 <? length scores_b)%nat = true)
    by (destruct scores_b; [congruence|reflexivity]).
  assert (Hcases :
    metric_and_direction self = ("rmse", "minimize")
    \/ metric_and_direction self = ("r2", "maximize")
    \/ metric_and_direction self = ("accuracy", "maximize")).
  { unfold metric_and_direction. simpl in Hin.
    destruct Hin as [<-|[<-|[<-|[<-|[]]]]]; simpl; auto.
    destruct (String.eqb (task_type self) "regression"); auto. }
  destruct Hcases as [Hm|[Hm|Hm]]; rewrite Hm in Hst |- *; simpl in Hst |- *;
    apply create_study_direction in Hst as [[Hd ->]|[Hd ->]];
    try discriminate Hd; unfold score_of; simpl; rewrite Hla, Hlb; simpl.
  - apply sqrt_le_1_alt. lra.
  - exact Hmean.
  - exact Hmean.
Qed.

(** For "auc" the objective returns the mean squared error while the study
    maximizes: the candidate with the lower mean fold score is ranked
    strictly better. *)
Lemma auc_direction_reversed self entropy st scores_a scores_b :
  optimization_metric self = "auc" ->
  optuna.create_study (metric_and_direction self).2 entropy = Ok st ->
  scores_a <> [] -> scores_b <> [] ->
  np.mean scores_a < np.mean scores_b ->
  optuna.better (optuna.direction st)
    (score_of (metric_and_direction self).1 scores_a)
    (score_of (metric_and_direction self).1 scores_b) = true.
Proof.
  intros Hauc Hst Ha Hb Hmean.
  assert (Hla : (0 <? length scores_a)%nat = true)
    by (destruct scores_a; [congruence|reflexivity]).
  assert (Hlb : (0 <? length scores_b)%nat = true)
    by (destruct scores_b; [congruence|reflexivity]).
  unfold metric_and_direction in *. rewrite Hauc in *. simpl in *.
  injection Hst as <-. simpl. unfold score_of. simpl. rewrite Hla, Hlb.
  apply better_maximize. lra.
Qed.

End facts.

Section ranges.
Context {caps : Capabilities} {bk : optuna.Backend}
        {laws : optuna.BackendLaws bk}.

Local Open Scope R_scope.

Lemma suggest_int_spec t name low high z t' :
  (low <= high)%Z ->
  optuna.suggest_int t name low high = (z, t') ->
  (low <= z <= high)%Z
  /\ optuna.trial_distributions t' =
       <[name := optuna.IntDistribution low high]>
         (optuna.trial_distributions t).
Proof.
  intros Hle. unfold optuna.suggest_int.
  pose proof (optuna.sample_int_range (optuna.trial_sampler t)
                (optuna.trial_history t) name low high Hle) as Hrange.
  destruct (optuna.sample_int _ _ _ _ _) as [z0 s]. simpl in Hrange.
  intros [= <- <-]. split; [exact Hrange|reflexivity].
Qed.

Lemma suggest_float_spec t name low high log r t' :
  low <= high ->
  optuna.suggest_float t name low high log = (r, t') ->
  low <= r <= high
  /\ optuna.trial_distributions t' =
       <[name := optuna.FloatDistribution low high log]>
         (optuna.trial_distributions t).
Proof.
  intros Hle. unfold optuna.suggest_float.
  pose proof (optuna.sample_float_range (optuna.trial_sampler t)
                (optuna.trial_history t) name low high log Hle) as Hrange.
  destruct (optuna.sample_float _ _ _ _ _ _) as [r0 s]. simpl in Hrange.
  intros [= <- <-]. split; [exact Hrange|reflexivity].
Qed.

Lemma suggest_categorical_spec t name choices c t' :
  choices <> [] ->
  optuna.suggest_categorical t name choices = (c, t') ->
  c ∈ choices
  /\ optuna.trial_distributions t' =
       <[name := optuna.CategoricalDistribution choices]>
         (optuna.trial_distributions t).
Proof.
  intros Hne. unfold optuna.suggest_categorical.
  pose proof (optuna.sample_categorical_range (optuna.trial_sampler t)
                (optuna.trial_history t) name choices Hne) as Hrange.
  destruct (optuna.sample_categorical _ _ _ _) as [c0 s]. simpl in Hrange.
  intros [= <- <-]. split; [exact Hrange|reflexivity].
Qed.

Ltac draw H :=
  let v := fresh "v" in
  let t' := fresh "t" in
  let E := fresh "E" in
  let Hr := fresh "Hr" in
  let Hd := fresh "Hd" in
  match type of H with
  | context [optuna.suggest_int ?t ?n ?lo ?hi] =>
      destruct (optuna.suggest_int t n lo hi) as [v t'] eqn:E;
      apply suggest_int_spec in E as [Hr Hd]; [|lia]
  | context [optuna.suggest_float ?t ?n ?lo ?hi ?lg] =>
      destruct (optuna.suggest_float t n lo hi lg) as [v t'] eqn:E;
      apply suggest_float_spec in E as [Hr Hd]; [|lra]
  | context [optuna.suggest_categorical ?t ?n ?cs] =>
      destruct (optuna.suggest_categorical t n cs) as [v t'] eqn:E;
      apply suggest_categorical_spec in E as [Hr Hd]; [|discriminate]
  end.

Ltac other_family :=
  intros; subst; simpl in *;
  repeat match goal with
         | Hh : HAS_XGBOOST = true |- _ => rewrite Hh in *
         | Hh : HAS_LIGHTGBM = true |- _ => rewrite Hh in *
         end;
  simpl in *; discriminate.

Ltac this_family :=
  intros;
  repeat match goal with |- _ /\ _ => split end;
  first [ eexists; split; [reflexivity|]; first [lia|lra|assumption]
        | unfold declared;
          repeat match goal with
                 | Hd : optuna.trial_distributions _ = _ |- _ =>
                     rewrite Hd; clear Hd
                 end;
          by simplify_map_eq ].

(** C8 (amended). Every hyperparameter a trial is given lies in a bounded
    range fixed by the model type: the ensemble size in [50, 300], a depth or
    leaf count, and for the gradient-boosted families sampling fractions
    inside [0, 1] and a learning rate in [0.01, 0.3] that is declared without
    the logarithmic flag; the logarithmic flag is set for the regularization
    strengths [C] in [0.1, 100] and [alpha] in [0.001, 10]. *)
Theorem suggested_ranges self trial :
  let suggested := objective_suggest self trial in
  let model_type := suggested.1.1 in
  let params := suggested.1.2 in
  let trial' := suggested.2 in
  (model_type = "rf" ->
     int_in params "n_estimators" 50 300
     /\ int_in params "max_depth" 3 20
     /\ int_in params "min_samples_split" 2 20
     /\ int_in params "min_samples_leaf" 1 10)
  /\ (model_type = "xgb" -> HAS_XGBOOST = true ->
     int_in params "n_estimators" 50 300
     /\ float_in params "learning_rate" 0.01 0.3
     /\ declared trial' "learning_rate"
          (optuna.FloatDistribution 0.01 0.3 false)
     /\ int_in params "max_depth" 3 10
     /\ float_in params "subsample" 0.6 1
     /\ float_in params "colsample_bytree" 0.6 1)
  /\ (model_type = "lgb" -> HAS_LIGHTGBM = true ->
     int_in params "n_estimators" 50 300
     /\ float_in params "learning_rate" 0.01 0.3
     /\ declared trial' "learning_rate"
          (optuna.FloatDistribution 0.01 0.3 false)
     /\ int_in params "num_leaves" 10 100
     /\ float_in params "feature_fraction" 0.5 1
     /\ float_in params "bagging_fraction" 0.5 1)
  /\ (model_type = "svm" ->
     float_in params "C" 0.1 100
     /\ declared trial' "C" (optuna.FloatDistribution 0.1 100 true)
     /\ choice_in params "gamma" ["scale"; "auto"]
     /\ choice_in params "kernel" ["linear"; "rbf"; "poly"])
  /\ (model_type = "linear" ->
     float_in params "alpha" 0.001 10
     /\ declared trial' "alpha" (optuna.FloatDistribution 0.001 10 true)
     /\ choice_in params "regularization" ["none"; "ridge"; "lasso"]).
Proof.
  intros suggested. subst suggested.
  destruct (objective_suggest self trial) as [[model_type params] trial']
    eqn:Hs.
  simpl. unfold objective_suggest in Hs.
  destruct (optuna.suggest_categorical trial "model_type" (model_types self))
    as [mt t0].
  destruct (String.eqb mt "rf") eqn:Hrf.
  { repeat draw Hs. injection Hs as <- <- <-.
    split; [this_family|]. repeat split; other_family. }
  destruct (String.eqb mt "xgb" && HAS_XGBOOST) eqn:Hxgb.
  { repeat draw Hs. injection Hs as <- <- <-.
    split; [other_family|]. split; [this_family|].
    repeat split; other_family. }
  destruct (String.eqb mt "lgb" && HAS_LIGHTGBM) eqn:Hlgb.
  { repeat draw Hs. injection Hs as <- <- <-.
    split; [other_family|]. split; [other_family|]. split; [this_family|].
    repeat split; other_family. }
  destruct (String.eqb mt "svm") eqn:Hsvm.
  { repeat draw Hs. injection Hs as <- <- <-.
    split; [other_family|]. split; [other_family|]. split; [other_family|].
    split; [this_family|]. other_family. }
  destruct (String.eqb mt "linear") eqn:Hlin.
  { repeat draw Hs. injection Hs as <- <- <-.
    split; [other_family|]. split; [other_family|]. split; [other_family|].
    split; [other_family|]. this_family. }
  injection Hs as <- <- <-. repeat split; other_family.
Qed.

End ranges.

Local Open Scope R_scope.

Lemma mean_singleton (r : R) : np.mean [r] = r.
Proof. unfold np.mean, np.sum. cbn [foldr length INR]. field. Qed.

(** The tape sampler keeps every draw in range. *)
Lemma tape_laws : optuna.BackendLaws Demo.tape.
Proof.
  split; simpl.
  - intros s h name low high Hle.
    pose proof (Z.mod_pos_bound (Z.of_nat (hd O s)) (high - low + 1)).
    lia.
  - intros s h name low high log Hle. destruct (Nat.even (hd O s)); lra.
  - intros s h name choices Hne. apply list_elem_of_In, nth_In.
    apply Nat.mod_upper_bound. destruct choices; [congruence|discriminate].
Qed.

Lemma small_dataset_folds_witness :
  (("xgb" = "xgb" /\ HAS_XGBOOST (Capabilities := Demo.everything) = true)
   \/ ("xgb" = "lgb" /\ HAS_LIGHTGBM (Capabilities := Demo.everything) = true))
  /\ (String.eqb (task_type Demo.only_xgb) "classification"
        && (1 <? np.n_unique Demo.y6)%Z) = false
  /\ (4 <= Z.of_nat (length Demo.y6))%Z
  /\ (Z.of_nat (length Demo.y6) < 2 * cv_folds Demo.only_xgb)%Z
  /\ Z.max 2 (Z.of_nat (length Demo.y6) / 2) = (Z.of_nat (length Demo.y6) / 2)%Z
  /\ cv_strategy Demo.only_xgb Demo.y6 =
       Ok (KFoldSplitter (Z.max 2 (Z.of_nat (length Demo.y6) / 2)) true 42)
  /\ exists model,
       _create_model (caps := Demo.everything) Demo.only_xgb "xgb" ∅ =
         Ok model
       /\ objective_try (caps := Demo.everything) (sk := Demo.sk0)
            Demo.only_xgb Demo.X6 Demo.y6 "rmse" "xgb" ∅ =
            (scores ← cross_val_score (Sklearn := Demo.sk0)
                       (BaseModel.model model) Demo.X6 Demo.y6
                       (KFoldSplitter
                          (Z.max 2 (Z.of_nat (length Demo.y6) / 2)) true 42)
                       (scoring_of "rmse");
             Ok (score_of "rmse" scores)).
Proof.
  split; [left; split; reflexivity|].
  split; [reflexivity|]. split; [simpl; lia|]. split; [simpl; lia|].
  apply (small_dataset_folds (caps := Demo.everything) (sk := Demo.sk0)
           Demo.only_xgb Demo.X6 Demo.y6 "rmse" "xgb" ∅);
    [left; split; reflexivity | reflexivity | simpl; lia | simpl; lia].
Defined.

(** C3 as stated fails: with three samples and five requested folds the
    claimed fold count is [max(2, 3 // 2) = 2], but the source asks for
    [min(5, 3 // 2) = 1] fold, the splitter rejects it and the candidate is
    not cross-validated at all. *)
Lemma three_samples_are_not_cross_validated :
  (Z.of_nat (length Demo.y3) < 2 * cv_folds Demo.only_xgb)%Z
  /\ Z.max 2 (Z.of_nat (length Demo.y3) / 2) = 2%Z
  /\ cv_strategy Demo.only_xgb Demo.y3 = Raise (n_splits_error 1)
  /\ exn_msg (n_splits_error 1) =
       "k-fold cross-validation requires at least one train/test split by setting n_splits=2 or more, got n_splits=1."
  /\ objective_try (caps := Demo.everything) (sk := Demo.sk0)
       Demo.only_xgb Demo.X3 Demo.y3 "rmse" "xgb" ∅ =
     Raise (n_splits_error 1)
  /\ (_create_objective (caps := Demo.everything) (sk := Demo.sk0)
        Demo.only_xgb Demo.X3 Demo.y3 "rmse"
        (Demo.trial0 [0; 0; 0; 0; 0]%nat)).2 = Ok 1e6.
Proof.
  split; [simpl; lia|]. repeat split.
Qed.



(** C4, at the failing input [optimization_metric="auc"] with xgboost: the
    study is created with direction "maximize", the objective returns the
    mean squared error, and of two candidates with errors 1 and 4 the study
    ranks the one with error 4 strictly better. *)
Theorem auc_study_prefers_larger_error :
  metric_and_direction Demo.auc_xgb = ("auc", "maximize")
  /\ objective_try (caps := Demo.everything)
       (sk := Demo.sklearn (Ok [-1]))
       Demo.auc_xgb Demo.X10 Demo.y10 "auc" "xgb" ∅ = Ok 1
  /\ objective_try (caps := Demo.everything)
       (sk := Demo.sklearn (Ok [-4]))
       Demo.auc_xgb Demo.X10 Demo.y10 "auc" "xgb" ∅ = Ok 4
  /\ optuna.better optuna.MAXIMIZE 4 1 = true.
Proof.
  split; [reflexivity|].
  split; [|split].
  - change (Ok (- np.mean [-1]) = Ok 1 :> result R). f_equal.
    rewrite mean_singleton. lra.
  - change (Ok (- np.mean [-4]) = Ok 4 :> result R). f_equal.
    rewrite mean_singleton. lra.
  - apply better_maximize. lra.
Qed.

(** A trial of an instance whose only family is xgboost. *)
Lemma suggested_ranges_witness :
  let suggested :=
    objective_suggest (caps := Demo.everything) Demo.only_xgb
      (Demo.trial0 [0; 1; 2; 3; 4; 5]%nat) in
  let model_type := suggested.1.1 in
  let params := suggested.1.2 in
  let trial' := suggested.2 in
  (model_type = "rf" ->
     int_in params "n_estimators" 50 300
     /\ int_in params "max_depth" 3 20
     /\ int_in params "min_samples_split" 2 20
     /\ int_in params "min_samples_leaf" 1 10)
  /\ (model_type = "xgb" ->
     HAS_XGBOOST (Capabilities := Demo.everything) = true ->
     int_in params "n_estimators" 50 300
     /\ float_in params "learning_rate" 0.01 0.3
     /\ declared trial' "learning_rate"
          (optuna.FloatDistribution 0.01 0.3 false)
     /\ int_in params "max_depth" 3 10
     /\ float_in params "subsample" 0.6 1
     /\ float_in params "colsample_bytree" 0.6 1)
  /\ (model_type = "lgb" ->
     HAS_LIGHTGBM (Capabilities := Demo.everything) = true ->
     int_in params "n_estimators" 50 300
     /\ float_in params "learning_rate" 0.01 0.3
     /\ declared trial' "learning_rate"
          (optuna.FloatDistribution 0.01 0.3 false)
     /\ int_in params "num_leaves" 10 100
     /\ float_in params "feature_fraction" 0.5 1
     /\ float_in params "bagging_fraction" 0.5 1)
  /\ (model_type = "svm" ->
     float_in params "C" 0.1 100
     /\ declared trial' "C" (optuna.FloatDistribution 0.1 100 true)
     /\ choice_in params "gamma" ["scale"; "auto"]
     /\ choice_in params "kernel" ["linear"; "rbf"; "poly"])
  /\ (model_type = "linear" ->
     float_in params "alpha" 0.001 10
     /\ declared trial' "alpha" (optuna.FloatDistribution 0.001 10 true)
     /\ choice_in params "regularization" ["none"; "ridge"; "lasso"]).
Proof.
  exact (suggested_ranges (caps := Demo.everything) (laws := tape_laws)
           Demo.only_xgb (Demo.trial0 [0; 1; 2; 3; 4; 5]%nat)).
Defined.

(** C8 as stated fails: the learning rate of a gradient-boosted trial is
    declared on a linear scale, not a logarithmic one. *)
Lemma learning_rate_is_not_log_scaled :
  let suggested :=
    objective_suggest (caps := Demo.everything) Demo.only_xgb
      (Demo.trial0 [0; 1; 2; 3; 4; 5]%nat) in
  suggested.1.1 = "xgb"
  /\ optuna.trial_distributions suggested.2 !! "learning_rate" =
       Some (optuna.FloatDistribution 0.01 0.3 false)
  /\ forall low high,
       optuna.trial_distributions suggested.2 !! "learning_rate" <>
       Some (optuna.FloatDistribution low high true).
Proof.
  simpl. split; [reflexivity|]. split; [reflexivity|].
  intros low high. discriminate.
Qed.

End ObjectiveFacts.

Module EnsembleFacts.
Import EnsembleModel.

Section facts.
Context {sk : Sklearn} {md : Models}.

Local Open Scope R_scope.

Lemma fit_clones_spec X y ests fitted :
  Voting.fit_clones ests X y = Ok fitted ->
  fitted = map (fun ne => refit X y ne.2) ests.
Proof.
  revert fitted. induction ests as [|[name e] ests IH]; intros fitted; simpl.
  - intros [= <-]. reflexivity.
  - unfold estimator_fit at 1. simpl.
    destruct (estimator_fit_error (clone e) X y []) as [ex|]; [discriminate|].
    simpl. destruct (Voting.fit_clones ests X y) as [rest|ex]; [|discriminate].
    simpl. intros [= <-]. rewrite (IH rest eq_refl). reflexivity.
Qed.

(** The loop fits the base models in place, in order, and collects their
    native estimators. *)
Lemma fit_base_models_spec X y todo :
  forall i acc s done s' ests,
    base_models s = (done ++ todo)%list -> length done = i ->
    fit_base_models X y i todo acc s = (s', Ok ests) ->
    exists done',
      base_models s' = (done ++ done')%list
      /\ length done' = length todo
      /\ map snd ests = (map snd acc ++ map BaseModel.model done')%list
      /\ task_type s' = task_type s
      /\ voting_strategy s' = voting_strategy s.
Proof.
  induction todo as [|model rest IH]; intros i acc s done s' ests Hbase Hlen.
  - simpl. intros [= <- <-]. exists []. rewrite app_nil_r in *.
    repeat split; auto. rewrite app_nil_r. reflexivity.
  - simpl. unfold mbind, method_bind, call, modify.
    destruct (call_fit model X y) as [fitted|ex]; [|discriminate].
    intros Hloop.
    apply (IH (S i) _ _ (done ++ [fitted.1])%list) in Hloop.
    + destruct Hloop as (done' & Hb & Hl & He & Ht & Hv).
      exists (fitted.1 :: done'). rewrite <- app_assoc in Hb. simpl in Hb.
      repeat split; auto.
      * simpl. rewrite Hl. reflexivity.
      * rewrite He, map_app. simpl. rewrite <- app_assoc. reflexivity.
    + simpl. rewrite Hbase. rewrite <- Hlen.
      rewrite insert_app_r_alt by lia. rewrite Nat.sub_diag. simpl.
      rewrite <- app_assoc. reflexivity.
    + rewrite length_app. simpl. lia.
Qed.

End facts.



End EnsembleFacts.

Module SearchFacts.
Import AutoMLModel Objective Search.

Section facts.
Context {caps : Capabilities} {sk : Sklearn} {md : Models}
        {bk : optuna.Backend}.

Local Open Scope R_scope.

Ltac sample_all :=
  repeat match goal with
         | |- context [optuna.sample_int ?a ?b ?c ?d ?e] =>
             destruct (optuna.sample_int a b c d e)
         | |- context [optuna.sample_float ?a ?b ?c ?d ?e ?f] =>
             destruct (optuna.sample_float a b c d e f)
         | |- context [optuna.sample_categorical ?a ?b ?c ?d] =>
             destruct (optuna.sample_categorical a b c d)
         end.

(** On a trial that has been given nothing yet, the first half of the
    objective records the model type next to the hyperparameters it returns,
    and declares the search space of that model type. *)
Lemma suggest_from_fresh self t model_type ps t' :
  optuna.trial_params t = ∅ -> optuna.trial_distributions t = ∅ ->
  objective_suggest self t = (model_type, ps, t') ->
  optuna.trial_number t' = optuna.trial_number t
  /\ optuna.trial_params t' = <["model_type" := VStr model_type]> ps
  /\ ps !! "model_type" = None
  /\ optuna.trial_distributions t' = search_space self model_type.
Proof.
  destruct t as [num tps tds smp hist]. simpl. intros -> ->.
  unfold objective_suggest, search_space, optuna.suggest_categorical,
    optuna.suggest_int, optuna.suggest_float, optuna.record. simpl.
  destruct (optuna.sample_categorical smp hist "model_type" (model_types self))
    as [mt s0].
  destruct (String.eqb mt "rf") eqn:Hrf.
  { sample_all. intros [= <- <- <-]. rewrite Hrf. repeat split. }
  destruct (String.eqb mt "xgb" && HAS_XGBOOST) eqn:Hxgb.
  { sample_all. intros [= <- <- <-]. rewrite Hrf, Hxgb. repeat split. }
  destruct (String.eqb mt "lgb" && HAS_LIGHTGBM) eqn:Hlgb.
  { sample_all. intros [= <- <- <-]. rewrite Hrf, Hxgb, Hlgb. repeat split. }
  destruct (String.eqb mt "svm") eqn:Hsvm.
  { sample_all. intros [= <- <- <-]. rewrite Hrf, Hxgb, Hlgb, Hsvm.
    repeat split. }
  destruct (String.eqb mt "linear") eqn:Hlin.
  { sample_all. intros [= <- <- <-]. rewrite Hrf, Hxgb, Hlgb, Hsvm, Hlin.
    repeat split. }
  intros [= <- <- <-]. rewrite Hrf, Hxgb, Hlgb, Hsvm, Hlin. repeat split.
Qed.

(** Whatever model [_create_model] returns is gradient-boosted and not
    trained, and its [fit] raises at its first statement, the call of the
    unbound [train_test_split]. *)
Lemma created_model_fit_raises self model_type params m X y :
  _create_model self model_type params = Ok m ->
  (BaseModel.cls m = "XGBoostModel" \/ BaseModel.cls m = "LightGBMModel")
  /\ BaseModel.is_fitted m = false
  /\ est_fitted (BaseModel.model m) = None
  /\ call_fit m X y = Raise (NameError "train_test_split").
Proof.
  unfold _create_model, unbound.
  destruct (String.eqb model_type "rf"); [discriminate|].
  destruct (String.eqb model_type "xgb" && HAS_XGBOOST).
  { intros [= <-]. repeat split. left. reflexivity. }
  destruct (String.eqb model_type "lgb" && HAS_LIGHTGBM).
  { intros [= <-]. repeat split. right. reflexivity. }
  destruct (String.eqb model_type "svm"); [discriminate|].
  destruct (String.eqb model_type "linear"); discriminate.
Qed.

(** C5, the defect.  With optuna, [fit] never returns.  It raises, leaves
    [is_fitted] as it was, and when it got as far as constructing the final
    model, that model is a gradient-boosted one that [best_model] keeps
    untrained: its [fit] was called with all of [X], [y] and raised
    [NameError] before any sample reached the native estimator. *)
Theorem final_model_is_never_trained X y entropy w w' r :
  HAS_OPTUNA = true ->
  fit X y entropy w = (w', r) ->
  (exists ex, r = Raise ex)
  /\ is_fitted (self_of w') = is_fitted (self_of w)
  /\ (best_model (self_of w') = best_model (self_of w)
      \/ exists m,
           best_model (self_of w') = Some m
           /\ (BaseModel.cls m = "XGBoostModel"
               \/ BaseModel.cls m = "LightGBMModel")
           /\ BaseModel.is_fitted m = false
           /\ est_fitted (BaseModel.model m) = None
           /\ call_fit m X y = Raise (NameError "train_test_split")
           /\ r = Raise (NameError "train_test_split")).
Proof.
  intros Hhas Hfit.
  unfold fit, mbind, method_bind, get_state, update, warn, modify, call in Hfit.
  rewrite Hhas in Hfit. simpl in Hfit.
  destruct (metric_and_direction (self_of w)) as [metric direction].
  destruct (optuna.create_study direction entropy) as [st0|ex0];
    [|injection Hfit as <- <-; eauto].
  destruct (optuna.optimize _ _ _ _) as [[st ws] r0]. simpl in Hfit.
  destruct r0 as [[]|ex0]; [|injection Hfit as <- <-; simpl; eauto].
  destruct (optuna.best_params st) as [bp|ex0];
    [|injection Hfit as <- <-; simpl; eauto].
  simpl in Hfit.
  destruct (create_best_model _ bp) as [m0|ex0] eqn:Hm0;
    [|injection Hfit as <- <-; simpl; eauto].
  assert (Hraises :
    (BaseModel.cls m0 = "XGBoostModel" \/ BaseModel.cls m0 = "LightGBMModel")
    /\ BaseModel.is_fitted m0 = false
    /\ est_fitted (BaseModel.model m0) = None
    /\ call_fit m0 X y = Raise (NameError "train_test_split")).
  { unfold create_best_model in Hm0.
    destruct (bp !! "model_type") as [[| |model_type]|]; try discriminate.
    exact (created_model_fit_raises _ _ _ _ X y Hm0). }
  destruct Hraises as (Hcls & Hunfit & Hnone & Hcall).
  rewrite Hcall in Hfit. injection Hfit as <- <-. simpl.
  split; [eauto|]. split; [reflexivity|]. right. exists m0. auto 10.
Qed.

Lemma take_length {A} (rows : list A) (idx : list nat) :
  Forall (fun i => (i < length rows)%nat) idx ->
  length (np.take rows idx) = length idx.
Proof.
  unfold np.take. induction 1 as [|i idx Hi _ IH]; [reflexivity|].
  simpl. destruct (lookup_lt_is_Some_2 rows i Hi) as [row ->]. simpl.
  f_equal. exact IH.
Qed.

(** The train part has [n - ceil(n / 5)] rows and the validation part
    [ceil(n / 5)]. *)
Lemma train_test_split_sizes {laws : SklearnLaws sk} X y
    X_train X_val y_train y_val :
  train_test_split X y = Ok (X_train, X_val, y_train, y_val) ->
  length X_train = (length X - (length X + 4) / 5)%nat
  /\ length X_val = ((length X + 4) / 5)%nat
  /\ (length X_train < length X)%nat.
Proof.
  unfold train_test_split.
  destruct (negb (length X =? length y)%nat); [discriminate|].
  destruct (length X - (length X + 4) / 5 =? 0)%nat eqn:Hempty; [discriminate|].
  apply Nat.eqb_neq in Hempty.
  intros [= <- <- _ _].
  pose proof (permutation_range (length X)) as Hperm.
  assert (Hlen : length (permutation (length X)) = length X).
  { rewrite Hperm. apply length_seq. }
  assert (Hall : Forall (fun i => (i < length X)%nat) (permutation (length X))).
  { rewrite Hperm. apply Forall_seq. intros i Hi. lia. }
  rewrite !take_length by (auto using Forall_drop, Forall_take).
  rewrite length_drop, length_take, Hlen.
  assert (Hpos : (0 < length X)%nat).
  { destruct (length X); [exfalso; apply Hempty; reflexivity|lia]. }
  pose proof (Nat.div_mod_eq (length X + 4) 5) as Hdm.
  pose proof (Nat.mod_upper_bound (length X + 4) 5) as Hmod.
  change (Nat.divmod (length X + 4) 4 0 4).1
    with ((length X + 4) / 5)%nat.
  lia.
Qed.

End facts.

Lemma demo_sklearn_laws cv_result : SklearnLaws (Demo.sklearn cv_result).
Proof. split. intros n. reflexivity. Qed.

(** C2, the defect.  [fit] takes no seed and hands none to the study: what
    the study samples depends on a state of its sampler that [fit] does not
    choose.  Two calls on the same instance and the same ten samples, with
    the sampler starting from two different states, sample different model
    types and end with different best trials. *)
Theorem same_inputs_different_samples :
  (map model_type_of ∘ sampled) <$> Demo.study_after [0]%nat = Some ["xgb"]
  /\ (map model_type_of ∘ sampled) <$> Demo.study_after [1]%nat =
       Some ["lgb"]
  /\ (Demo.study_after [0]%nat ≫= optuna.best_trial) ≫=
       (fun best => optuna.params best !! "model_type") = Some (VStr "xgb")
  /\ (Demo.study_after [1]%nat ≫= optuna.best_trial) ≫=
       (fun best => optuna.params best !! "model_type") = Some (VStr "lgb").
Proof.
  split; [vm_cast_no_check (eq_refl (Some ["xgb"]))|].
  split; [vm_cast_no_check (eq_refl (Some ["lgb"]))|].
  split; [vm_cast_no_check (eq_refl (Some (VStr "xgb")))|].
  vm_cast_no_check (eq_refl (Some (VStr "lgb"))).
Qed.

(** The run of [fit] that [Demo.world_xgb] is the result of. *)
Lemma demo_fit_xgb :
  fit (caps := Demo.everything) (sk := Demo.sk4) (md := Demo.md4)
    Demo.X10 Demo.y10 (Demo.draws [0; 1; 2; 3; 4; 5]%nat)
    (Demo.new_world Demo.only_xgb) =
  (Demo.world_xgb, Raise (NameError "train_test_split")).
Proof.
  unfold Demo.world_xgb.
  rewrite (surjective_pairing (fit _ _ _ _)) at 1. f_equal.
Qed.

Lemma final_model_is_never_trained_witness :
  HAS_OPTUNA (Capabilities := Demo.everything) = true
  /\ fit (caps := Demo.everything) (sk := Demo.sk4) (md := Demo.md4)
       Demo.X10 Demo.y10 (Demo.draws [0; 1; 2; 3; 4; 5]%nat)
       (Demo.new_world Demo.only_xgb) =
     (Demo.world_xgb, Raise (NameError "train_test_split"))
  /\ is_fitted (self_of Demo.world_xgb) = false
  /\ (best_model (self_of Demo.world_xgb) = None
      \/ exists m,
           best_model (self_of Demo.world_xgb) = Some m
           /\ (BaseModel.cls m = "XGBoostModel"
               \/ BaseModel.cls m = "LightGBMModel")
           /\ BaseModel.is_fitted m = false
           /\ est_fitted (BaseModel.model m) = None
           /\ call_fit (sk := Demo.sk4) (md := Demo.md4) m Demo.X10
                Demo.y10 = Raise (NameError "train_test_split")
           /\ Raise (NameError "train_test_split") =
                Raise (A := metrics) (NameError "train_test_split")).
Proof.
  split; [reflexivity|]. split; [exact demo_fit_xgb|].
  exact (proj2 (final_model_is_never_trained (caps := Demo.everything)
                  (sk := Demo.sk4) (md := Demo.md4) Demo.X10 Demo.y10
                  (Demo.draws [0; 1; 2; 3; 4; 5]%nat)
                  (Demo.new_world Demo.only_xgb) Demo.world_xgb _
                  eq_refl demo_fit_xgb)).
Defined.

End SearchFacts.

Module RegistryFacts.
Import AutoMLModel.

Section facts.
Context {caps : Capabilities} {sk : Sklearn} {md : Models}
        {bk : optuna.Backend}.

Lemma str_in_In x xs : str_in x xs = true <-> In x xs.
Proof.
  unfold str_in. rewrite existsb_exists. split.
  - intros (y & Hy & Heq). apply String.eqb_eq in Heq. subst. exact Hy.
  - intros Hin. exists x. split; [exact Hin|apply String.eqb_refl].
Qed.

(** The model types requested of [__init__], after the default. *)
Lemma init_model_types task_type mts metric n k tmo self :
  __init__ task_type mts metric n k tmo = Ok self ->
  model_types self =
    List.filter (fun m => str_in m available_models)
      match mts with
      | Some (m :: ms) => m :: ms
      | _ => ["rf"; "xgb"; "lgb"; "svm"; "linear"]
      end
  /\ task_type = AutoMLModel.task_type self.
Proof.
  unfold __init__, available_models.
  destruct (List.filter _ _) as [|m ms] eqn:Hf; [discriminate|].
  intros [= <-]. simpl. split; reflexivity.
Qed.


Lemma filter_nil_iff {A} (f : A -> bool) (l : list A) :
  List.filter f l = [] <-> forall x, In x l -> f x = false.
Proof.
  induction l as [|a l IH]; simpl.
  - split; [intros _ x []|reflexivity].
  - destruct (f a) eqn:Ha.
    + split; [discriminate|]. intros H. specialize (H a (or_introl eq_refl)).
      congruence.
    + rewrite IH. split.
      * intros H x [<-|Hin]; auto.
      * intros H x Hin. apply H. right. exact Hin.
Qed.

(** X2. [__init__] raises [ValueError("No available model types found")]
    exactly when none of the requested model types is available, and
    returns an instance otherwise; a request that is absent or empty
    stands for all five model types and therefore never fails. *)
Theorem init_fails_iff_nothing_available task_type mts metric n k tmo :
  let requested :=
    match mts with
    | Some (m :: ms) => m :: ms
    | _ => ["rf"; "xgb"; "lgb"; "svm"; "linear"]
    end in
  (__init__ task_type mts metric n k tmo =
     Raise (ValueError "No available model types found")
   <-> forall m, In m requested -> ~ In m available_models)
  /\ (Forall (fun m => ~ In m available_models) requested
      \/ exists self, __init__ task_type mts metric n k tmo = Ok self)
  /\ (mts = None \/ mts = Some [] ->
      exists self, __init__ task_type mts metric n k tmo = Ok self).
Proof.
  intros requested.
  assert (Hnil :
    List.filter (fun m => str_in m available_models) requested = []
    <-> forall m, In m requested -> ~ In m available_models).
  { rewrite filter_nil_iff. split; intros H m Hin.
    - rewrite <- str_in_In. rewrite (H m Hin). discriminate.
    - specialize (H m Hin). rewrite <- str_in_In in H.
      destruct (str_in m available_models); [contradiction H|]; reflexivity. }
  assert (Hcases :
    (List.filter (fun m => str_in m available_models) requested = []
     /\ __init__ task_type mts metric n k tmo =
          Raise (ValueError "No available model types found"))
    \/ (List.filter (fun m => str_in m available_models) requested <> []
        /\ exists self, __init__ task_type mts metric n k tmo = Ok self)).
  { unfold __init__. fold requested. fold (available_models (caps := caps)).
    destruct (List.filter _ requested) as [|m ms]; [left|right];
      (split; [reflexivity || discriminate|]); eauto. }
  split; [|split].
  - rewrite <- Hnil. destruct Hcases as [[Hf ->]|[Hf [self ->]]].
    + split; auto.
    + split; [discriminate|contradiction].
  - destruct Hcases as [[Hf _]|[_ Hok]]; [left|right; exact Hok].
    apply List.Forall_forall. apply Hnil, Hf.
  - intros Hdefault. destruct Hcases as [[Hf _]|[_ Hok]]; [|exact Hok].
    exfalso. rewrite Hnil in Hf. apply (Hf "rf").
    + subst requested. destruct Hdefault as [-> | ->]; simpl; auto.
    + unfold available_models. simpl. auto.
Qed.

(** X3. For a model type that is not available, [_create_model] raises
    [ValueError("Unknown model type: ...")]; this includes "xgb" and "lgb"
    when their library is not installed. *)
Theorem create_model_unavailable self model_type params :
  ~ In model_type available_models ->
  _create_model self model_type params =
    Raise (ValueError (String.append "Unknown model type: " model_type)).
Proof.
  intros Hnot. unfold _create_model.
  assert (Hne : forall tag, In tag available_models ->
                  String.eqb model_type tag = false).
  { intros tag Hin. apply String.eqb_neq. intros ->. contradiction. }
  unfold available_models in Hne.
  rewrite (Hne "rf"), (Hne "svm"), (Hne "linear") by (simpl; auto).
  destruct HAS_XGBOOST, HAS_LIGHTGBM; simpl in *;
    rewrite ?(Hne "xgb"), ?(Hne "lgb") by auto 10;
    rewrite ?andb_false_r; reflexivity.
Qed.

End facts.


Lemma create_model_unavailable_witness :
  ~ In "xgb" (available_models (caps := Demo.optuna_only))
  /\ _create_model (caps := Demo.optuna_only)
       Demo.unfitted_rf "xgb" ∅ =
     Raise (ValueError "Unknown model type: xgb").
Proof.
  assert (Hnot : ~ In "xgb" (available_models (caps := Demo.optuna_only))).
  { simpl. intros [H|[H|[H|[]]]]; discriminate H. }
  split; [exact Hnot|].
  exact (create_model_unavailable (caps := Demo.optuna_only)
            Demo.unfitted_rf "xgb" ∅ Hnot).
Defined.

End RegistryFacts.

Module LoopFacts.
Import AutoMLModel Objective Search.

Section facts.
Context {caps : Capabilities} {sk : Sklearn} {md : Models}
        {bk : optuna.Backend}.

Local Open Scope R_scope.

(** One call of the objective on a new trial: it returns a value, and warns
    exactly when the candidate is penalized. *)
Lemma objective_on_new_trial self X y metric st :
  exists t ws v,
    _create_objective self X y metric (optuna.ask st) = (t, ws, Ok v)
    /\ optuna.trial_number t = length (optuna.trials st)
    /\ length ws =
         (if penalized self X y metric (optuna.trial_params t)
          then 1 else 0)%nat.
Proof.
  unfold _create_objective.
  destruct (objective_suggest self (optuna.ask st)) as [[mt ps] t'] eqn:Hs.
  apply SearchFacts.suggest_from_fresh in Hs as (Hnum & Hps & Hnone & _);
    [|reflexivity..].
  assert (Hpen : penalized self X y metric (optuna.trial_params t') =
                 match objective_try self X y metric mt ps with
                 | Ok _ => false | Raise _ => true end).
  { unfold penalized, model_type_of.
    rewrite Hps, lookup_insert_eq, delete_insert_id by exact Hnone.
    reflexivity. }
  destruct (objective_try self X y metric mt ps) as [s|ex];
    eexists _, _, _; (split; [reflexivity|]); rewrite Hpen; split; auto.
Qed.

(** The objective never raises, so the search never ends early with an
    exception. *)
Lemma optimize_ok self X y metric tmo n :
  forall st,
    (optuna.optimize (_create_objective self X y metric) n tmo st).2 = Ok tt.
Proof.
  induction n as [|n IH]; intros st; simpl; [reflexivity|].
  destruct (match tmo with
            | Some secs => optuna.timed_out secs (length (optuna.trials st))
            | None => false
            end); [reflexivity|].
  destruct (objective_on_new_trial self X y metric st)
    as (t & ws & v & Hobj & _). rewrite Hobj.
  specialize (IH (optuna.tell st t v)).
  destruct (optuna.optimize _ n tmo (optuna.tell st t v)) as [[st' ws'] r'].
  exact IH.
Qed.

(** Without a timeout every one of the [n] trials is run and recorded. *)
Lemma optimize_length self X y metric n :
  forall st,
    length
      (optuna.trials
         (optuna.optimize (_create_objective self X y metric) n None st).1.1) =
      (length (optuna.trials st) + n)%nat.
Proof.
  induction n as [|n IH]; intros st; simpl; [lia|].
  destruct (objective_on_new_trial self X y metric st)
    as (t & ws & v & Hobj & _). rewrite Hobj.
  specialize (IH (optuna.tell st t v)).
  destruct (optuna.optimize _ n None (optuna.tell st t v)) as [[st' ws'] r'].
  simpl in IH |- *. rewrite IH, length_app. simpl. lia.
Qed.

(** The search in closed form: it never raises, appends at most [n] trials
    numbered consecutively, all [n] when there is no timeout, and warns once
    per penalized trial. *)
Lemma optimize_spec self X y metric tmo n :
  forall st,
    let out := optuna.optimize (_create_objective self X y metric) n tmo st in
    out.2 = Ok tt
    /\ exists new,
         optuna.trials out.1.1 = (optuna.trials st ++ new)%list
         /\ (length new <= n)%nat
         /\ (tmo = None -> length new = n)
         /\ map optuna.number new =
              seq (length (optuna.trials st)) (length new)
         /\ length out.1.2 =
              length (List.filter (penalized self X y metric)
                        (map optuna.params new)).
Proof.
  induction n as [|n IH]; intros st; simpl.
  - split; [reflexivity|]. exists []. rewrite app_nil_r.
    repeat split; reflexivity.
  - destruct (match tmo with
              | Some secs => optuna.timed_out secs (length (optuna.trials st))
              | None => false
              end) eqn:Hexp; simpl.
    { split; [reflexivity|]. exists []. rewrite app_nil_r.
      split; [reflexivity|]. split; [simpl; lia|].
      split; [intros ->; discriminate|]. split; reflexivity. }
    destruct (objective_on_new_trial self X y metric st)
      as (t & ws & v & Hobj & Hnum & Hws).
    rewrite Hobj.
    specialize (IH (optuna.tell st t v)).
    destruct (optuna.optimize _ n tmo (optuna.tell st t v))
      as [[st' ws'] r'].
    simpl in IH |- *. destruct IH as (Hr & new & Htr & Hle & Hall & Hnums & Hw).
    split; [exact Hr|].
    exists (optuna.freeze t v :: new).
    rewrite Htr, <- app_assoc. simpl. rewrite length_app in Hnums.
    simpl in Hnums. rewrite Nat.add_1_r in Hnums.
    repeat split.
    + lia.
    + intros Hnone. rewrite (Hall Hnone). reflexivity.
    + rewrite Hnum, Hnums. reflexivity.
    + rewrite length_app, Hws, Hw.
      destruct (penalized self X y metric (optuna.trial_params t));
        reflexivity.
Qed.

End facts.
End LoopFacts.

Module LifecycleFacts.
Import AutoMLModel Objective Search.

Section facts.
Context {caps : Capabilities} {sk : Sklearn} {md : Models}
        {bk : optuna.Backend}.

Local Open Scope R_scope.

Lemma better_false d a b :
  optuna.better d a b = false <->
  match d with optuna.MINIMIZE => b <= a | optuna.MAXIMIZE => a <= b end.
Proof.
  unfold optuna.better. destruct d; rewrite bool_decide_eq_false; lra.
Qed.

Lemma better_true d a b :
  optuna.better d a b = true <->
  match d with optuna.MINIMIZE => a < b | optuna.MAXIMIZE => b < a end.
Proof.
  unfold optuna.better. destruct d; rewrite bool_decide_eq_true; lra.
Qed.

(** The trial a fold of [keep_best] ends with is one of those it has seen,
    and none of them is strictly better. *)
Lemma keep_best_fold d l :
  forall b0 b,
    foldl (optuna.keep_best d) (Some b0) l = Some b ->
    (b = b0 \/ b ∈ l)
    /\ optuna.better d (optuna.value b0) (optuna.value b) = false
    /\ forall t, t ∈ l ->
         optuna.better d (optuna.value t) (optuna.value b) = false.
Proof.
  induction l as [|t l IH]; intros b0 b; simpl.
  - intros [= <-]. split; [auto|]. split.
    + apply better_false. destruct d; lra.
    + intros t Ht. inversion Ht.
  - destruct (optuna.better d (optuna.value t) (optuna.value b0)) eqn:Htb;
      intros Hfold; apply IH in Hfold as (Hin & Hb0 & Hall).
    + apply better_true in Htb. apply better_false in Hb0.
      split; [destruct Hin as [->|Hin]; right; constructor; auto|].
      split; [apply better_false; destruct d; lra|].
      intros t' Ht'. apply elem_of_cons in Ht' as [->|Ht']; [|auto].
      apply better_false. exact Hb0.
    + apply better_false in Htb. apply better_false in Hb0.
      split; [destruct Hin as [->|Hin]; [left|right; constructor]; auto|].
      split; [apply better_false; exact Hb0|].
      intros t' Ht'. apply elem_of_cons in Ht' as [->|Ht']; [|auto].
      apply better_false. destruct d; lra.
Qed.

Lemma best_trial_spec st best :
  optuna.best_trial st = Some best ->
  best ∈ optuna.trials st
  /\ forall t, t ∈ optuna.trials st ->
       optuna.better (optuna.direction st) (optuna.value t)
         (optuna.value best) = false.
Proof.
  unfold optuna.best_trial. destruct (optuna.trials st) as [|t0 l]; simpl.
  - discriminate.
  - intros Hfold. apply keep_best_fold in Hfold as (Hin & Hb0 & Hall). split.
    + destruct Hin as [->|Hin]; constructor; auto.
    + intros t Ht. apply elem_of_cons in Ht as [->|Ht]; auto.
Qed.

Lemma best_trial_nonempty st :
  optuna.trials st <> [] -> exists best, optuna.best_trial st = Some best.
Proof.
  unfold optuna.best_trial. destruct (optuna.trials st) as [|t0 l];
    [congruence|]. intros _. simpl. generalize t0.
  induction l as [|t l IH]; intros b0; simpl; [eauto|].
  destruct (optuna.better _ _ _); apply IH.
Qed.

Ltac run_fit H :=
  unfold fit, mbind, method_bind, get_state, update, warn, modify, call in H.

Lemma create_study_ok self entropy :
  exists st0,
    optuna.create_study (metric_and_direction self).2 entropy = Ok st0
    /\ optuna.trials st0 = [] /\ optuna.sampler st0 = entropy.
Proof.
  unfold metric_and_direction, optuna.create_study.
  destruct (String.eqb (optimization_metric self) "auto").
  - destruct (String.eqb (task_type self) "regression"); simpl; eauto.
  - cbn [snd]. destruct (str_in _ _); simpl; eauto.
Qed.

(** X7. With optuna and [n_trials <= 0] no trial is run: [fit] raises the
    [ValueError] of [study.best_params], "No trials are completed yet.",
    and leaves [is_fitted], the best model, the best parameters and the
    warnings as they were, and an empty study. *)
Theorem fit_without_trials X y entropy w w' r :
  HAS_OPTUNA = true ->
  (n_trials (self_of w) <= 0)%Z ->
  fit X y entropy w = (w', r) ->
  r = Raise (ValueError "No trials are completed yet.")
  /\ is_fitted (self_of w') = is_fitted (self_of w)
  /\ best_model (self_of w') = best_model (self_of w)
  /\ best_params (self_of w') = best_params (self_of w)
  /\ warnings w' = warnings w
  /\ exists st, study (self_of w') = Some st /\ optuna.trials st = [].
Proof.
  intros Hhas Hn Hfit. run_fit Hfit. rewrite Hhas in Hfit. simpl in Hfit.
  destruct (create_study_ok (self_of w) entropy) as (st0 & Hst0 & Htr & _).
  destruct (metric_and_direction (self_of w)) as [metric direction].
  simpl in Hst0. rewrite Hst0 in Hfit.
  replace (Z.to_nat (n_trials (self_of w))) with O in Hfit by lia.
  simpl in Hfit. unfold optuna.best_params, optuna.best_trial in Hfit.
  rewrite Htr in Hfit. simpl in Hfit. injection Hfit as <- <-. simpl.
  rewrite app_nil_r. repeat split; eauto.
Qed.

(** X4. With optuna, whatever [fit] returns or raises, it leaves a study
    that was started empty and holds at most [n_trials] trials, numbered
    from zero, and exactly [n_trials] of them when there is no timeout: a
    candidate that fails does not end the search.  [fit] adds one warning
    for each recorded trial whose candidate was penalized, and no other. *)
Theorem fit_trial_budget X y entropy w w' r :
  HAS_OPTUNA = true ->
  fit X y entropy w = (w', r) ->
  exists st new_warnings,
    study (self_of w') = Some st
    /\ (length (optuna.trials st) <= Z.to_nat (n_trials (self_of w)))%nat
    /\ (timeout (self_of w) = None ->
        length (optuna.trials st) = Z.to_nat (n_trials (self_of w)))
    /\ map optuna.number (optuna.trials st) =
         seq 0 (length (optuna.trials st))
    /\ warnings w' = (warnings w ++ new_warnings)%list
    /\ length new_warnings =
         length
           (List.filter
              (penalized (self_of w) X y (metric_and_direction (self_of w)).1)
              (map optuna.params (optuna.trials st))).
Proof.
  intros Hhas Hfit. run_fit Hfit. rewrite Hhas in Hfit. simpl in Hfit.
  destruct (create_study_ok (self_of w) entropy) as (st0 & Hst0 & Htr & _).
  destruct (metric_and_direction (self_of w)) as [metric direction].
  simpl in Hst0. rewrite Hst0 in Hfit.
  change (_create_objective (set_study st0 (self_of w)) X y metric)
    with (_create_objective (self_of w) X y metric) in Hfit.
  destruct (LoopFacts.optimize_spec (self_of w) X y metric
              (timeout (self_of w)) (Z.to_nat (n_trials (self_of w))) st0)
    as (Hok & new & Hnew & Hle & Hall & Hnums & Hws).
  destruct (optuna.optimize _ _ _ _) as [[st ws] r0].
  simpl in Hok, Hnew, Hnums, Hws. subst r0. rewrite Htr in Hnew, Hnums.
  simpl in Hnew, Hnums, Hfit. rewrite <- Hnew in Hle, Hall, Hnums, Hws.
  assert (Hgoal : forall self1 : AutoMLModel.t,
    study self1 = Some st ->
    exists st' new_warnings,
      study self1 = Some st'
      /\ (length (optuna.trials st') <= Z.to_nat (n_trials (self_of w)))%nat
      /\ (timeout (self_of w) = None ->
          length (optuna.trials st') = Z.to_nat (n_trials (self_of w)))
      /\ map optuna.number (optuna.trials st') =
           seq 0 (length (optuna.trials st'))
      /\ (warnings w ++ ws)%list = (warnings w ++ new_warnings)%list
      /\ length new_warnings =
           length
             (List.filter (penalized (self_of w) X y metric)
                (map optuna.params (optuna.trials st')))).
  { intros self1 Hst. exists st, ws. repeat split; auto. }
  destruct (optuna.best_params st) as [bp|ex0];
    [|injection Hfit as <- _; apply Hgoal; reflexivity].
  simpl in Hfit.
  destruct (create_best_model _ bp) as [m0|ex0];
    [|injection Hfit as <- _; apply Hgoal; reflexivity].
  destruct (call_fit m0 X y) as [fitted|ex0];
    injection Hfit as <- _; apply Hgoal; reflexivity.
Qed.

(** X5. With optuna, whenever [get_best_params] returns a configuration
    after [fit] on an instance that had none, whatever [fit] returned or
    raised, that configuration is the one of a trial the study recorded
    that no recorded trial beats in the direction of the study, without
    the key "model_type". *)
Theorem reported_params_are_of_an_unbeaten_trial X y entropy w w' r ps :
  HAS_OPTUNA = true ->
  best_params (self_of w) = None ->
  fit X y entropy w = (w', r) ->
  get_best_params (self_of w') = Ok ps ->
  ps !! "model_type" = None
  /\ exists st best,
       study (self_of w') = Some st
       /\ best ∈ optuna.trials st
       /\ (forall t, t ∈ optuna.trials st ->
             optuna.better (optuna.direction st) (optuna.value t)
               (optuna.value best) = false)
       /\ ps = delete "model_type" (optuna.params best).
Proof.
  intros Hhas Hnone Hfit Hps. run_fit Hfit. rewrite Hhas in Hfit.
  simpl in Hfit. unfold get_best_params in Hps.
  destruct (metric_and_direction (self_of w)) as [metric direction].
  destruct (optuna.create_study direction entropy) as [st0|ex0];
    [|injection Hfit as <- _; rewrite Hnone in Hps; discriminate].
  destruct (optuna.optimize _ _ _ _) as [[st ws] r0]. simpl in Hfit.
  destruct r0 as [[]|ex0];
    [|injection Hfit as <- _; simpl in Hps; rewrite Hnone in Hps;
      discriminate].
  unfold optuna.best_params in Hfit.
  destruct (optuna.best_trial st) as [best|] eqn:Hbest;
    [|injection Hfit as <- _; simpl in Hps; rewrite Hnone in Hps;
      discriminate].
  apply best_trial_spec in Hbest as [Hin Hall]. simpl in Hfit.
  assert (Hgoal : forall self1 : AutoMLModel.t,
    study self1 = Some st ->
    best_params self1 = Some (delete "model_type" (optuna.params best)) ->
    match best_params self1 with
    | Some ps0 => Ok ps0
    | None => Raise (ValueError "Model must be fitted first")
    end = Ok ps ->
    ps !! "model_type" = None
    /\ exists st' best',
         study self1 = Some st'
         /\ best' ∈ optuna.trials st'
         /\ (forall t, t ∈ optuna.trials st' ->
               optuna.better (optuna.direction st') (optuna.value t)
                 (optuna.value best') = false)
         /\ ps = delete "model_type" (optuna.params best')).
  { intros self1 Hst Hbp. rewrite Hbp. intros [= <-].
    split; [apply lookup_delete_eq|]. exists st, best. auto. }
  destruct (create_best_model _ _) as [m0|ex0];
    [|injection Hfit as <- _; apply Hgoal; [reflexivity..|exact Hps]].
  destruct (call_fit m0 X y) as [fitted|ex0];
    injection Hfit as <- _; apply Hgoal; try reflexivity; exact Hps.
Qed.

(** X8. With optuna, at least one trial and no timeout, a [fit] that raises
    has completed the search: all [n_trials] trials are recorded,
    [get_best_params] returns the configuration of the best trial, and the
    instance is not marked fitted. *)
Theorem failed_fit_keeps_best_params X y entropy w w' ex :
  HAS_OPTUNA = true ->
  (0 < n_trials (self_of w))%Z ->
  timeout (self_of w) = None ->
  fit X y entropy w = (w', Raise ex) ->
  exists st best,
    study (self_of w') = Some st
    /\ optuna.best_trial st = Some best
    /\ length (optuna.trials st) = Z.to_nat (n_trials (self_of w))
    /\ get_best_params (self_of w') =
         Ok (delete "model_type" (optuna.params best))
    /\ is_fitted (self_of w') = is_fitted (self_of w).
Proof.
  intros Hhas Hn Htmo Hfit. run_fit Hfit.
  rewrite Hhas, Htmo in Hfit. simpl in Hfit.
  destruct (create_study_ok (self_of w) entropy) as (st0 & Hst0 & Htr & _).
  destruct (metric_and_direction (self_of w)) as [metric direction].
  simpl in Hst0. rewrite Hst0 in Hfit.
  change (_create_objective (set_study st0 (self_of w)) X y metric)
    with (_create_objective (self_of w) X y metric) in Hfit.
  pose proof (LoopFacts.optimize_ok (self_of w) X y metric None
                (Z.to_nat (n_trials (self_of w))) st0) as Hok.
  pose proof (LoopFacts.optimize_length (self_of w) X y metric
                (Z.to_nat (n_trials (self_of w))) st0) as Hlen.
  destruct (optuna.optimize _ _ _ _) as [[st ws] r0]. simpl in Hok, Hlen.
  subst r0. simpl in Hfit. rewrite Htr in Hlen. simpl in Hlen.
  destruct (best_trial_nonempty st) as [best Hbest].
  { intros Hnil. rewrite Hnil in Hlen. simpl in Hlen. lia. }
  unfold optuna.best_params in Hfit. rewrite Hbest in Hfit. simpl in Hfit.
  exists st, best.
  destruct (create_best_model _ _) as [m0|ex0];
    [|injection Hfit as <- _; simpl; auto].
  destruct (call_fit m0 X y) as [fitted|ex0];
    [discriminate|injection Hfit as <- _; simpl; auto].
Qed.

(** X9. A [fit] that raises, with or without optuna, changes neither
    [is_fitted] nor [model_types]; on an instance that was not fitted,
    [predict] still raises. *)
Theorem failed_fit_stays_unfitted X y entropy w w' ex :
  fit X y entropy w = (w', Raise ex) ->
  is_fitted (self_of w') = is_fitted (self_of w)
  /\ model_types (self_of w') = model_types (self_of w)
  /\ (is_fitted (self_of w) = false ->
      forall X', predict (self_of w') X' = Raise not_fitted_predict).
Proof.
  intros Hfit.
  assert (Hsame : is_fitted (self_of w') = is_fitted (self_of w)
                  /\ model_types (self_of w') = model_types (self_of w)).
  { run_fit Hfit. destruct HAS_OPTUNA; simpl in Hfit.
    - destruct (metric_and_direction (self_of w)) as [metric direction].
      destruct (optuna.create_study direction entropy) as [st0|ex0];
        [|injection Hfit as <- _; auto].
      destruct (optuna.optimize _ _ _ _) as [[st ws] r0]. simpl in Hfit.
      destruct r0 as [[]|ex0]; [|injection Hfit as <- _; auto].
      destruct (optuna.best_params st) as [bp|ex0];
        [|injection Hfit as <- _; auto].
      simpl in Hfit.
      destruct (create_best_model _ bp) as [m0|ex0];
        [|injection Hfit as <- _; auto].
      destruct (call_fit m0 X y) as [fitted|ex0];
        [discriminate|injection Hfit as <- _; auto].
    - destruct (models_new _ _ _) as [rf|ex0];
        [|injection Hfit as <- _; auto].
      destruct (call_fit rf X y) as [fitted|ex0];
        [discriminate|injection Hfit as <- _; auto]. }
  destruct Hsame as [Hfitted Htypes]. split; [exact Hfitted|].
  split; [exact Htypes|].
  intros Hunfit X'. unfold predict. rewrite Hfitted, Hunfit. reflexivity.
Qed.

(** X10. Without optuna, [get_best_params] raises
    [ValueError("Model must be fitted first")] on a new instance and still
    raises it after [fit], whether [fit] returned or raised: the fallback
    never sets [best_params]. *)
Theorem get_best_params_needs_search task_type mts metric n k tmo self
    X y entropy ws w' r :
  HAS_OPTUNA = false ->
  __init__ task_type mts metric n k tmo = Ok self ->
  fit X y entropy {| self_of := self; warnings := ws |} = (w', r) ->
  get_best_params self = Raise (ValueError "Model must be fitted first")
  /\ get_best_params (self_of w') =
       Raise (ValueError "Model must be fitted first").
Proof.
  intros Hhas Hinit Hfit.
  assert (Hnone : best_params self = None).
  { unfold __init__ in Hinit. destruct (List.filter _ _); [discriminate|].
    injection Hinit as <-. reflexivity. }
  unfold get_best_params. rewrite Hnone. split; [reflexivity|].
  run_fit Hfit. rewrite Hhas in Hfit. simpl in Hfit.
  destruct (models_new _ _ _) as [rf|ex0];
    [|injection Hfit as <- _; simpl; rewrite Hnone; reflexivity].
  destruct (call_fit rf X y) as [fitted|ex0];
    injection Hfit as <- _; simpl; rewrite Hnone; reflexivity.
Qed.

End facts.

(** The run of [fit] that [Cases.world_one] is the result of: the search
    penalizes its only trial, and the final training raises. *)
Lemma demo_fit_one :
  fit (caps := Demo.everything) (sk := Demo.sk4) (md := Demo.md4)
    Cases.X1 Cases.y1 (Demo.draws [0; 1; 2; 3; 4; 5]%nat)
    (Demo.new_world Demo.only_xgb) =
  (Cases.world_one, Raise (NameError "train_test_split")).
Proof.
  unfold Cases.world_one.
  rewrite (surjective_pairing (fit _ _ _ _)) at 1. f_equal.
Qed.

Lemma reported_params_are_of_an_unbeaten_trial_witness :
  HAS_OPTUNA (Capabilities := Demo.everything) = true
  /\ best_params (self_of (Demo.new_world Demo.only_xgb)) = None
  /\ exists ps,
       get_best_params (self_of Cases.world_one) = Ok ps
       /\ ps !! "model_type" = None
       /\ exists st best,
            study (self_of Cases.world_one) = Some st
            /\ best ∈ optuna.trials st
            /\ (forall t, t ∈ optuna.trials st ->
                  optuna.better (optuna.direction st) (optuna.value t)
                    (optuna.value best) = false)
            /\ ps = delete "model_type" (optuna.params best).
Proof.
  split; [reflexivity|]. split; [reflexivity|].
  assert (Hset :
    match best_params (self_of Cases.world_one) with
    | Some _ => true
    | None => false
    end = true) by reflexivity.
  destruct (best_params (self_of Cases.world_one)) as [ps|] eqn:Hbp;
    [|discriminate Hset].
  assert (Hps : get_best_params (self_of Cases.world_one) = Ok ps).
  { unfold get_best_params. rewrite Hbp. reflexivity. }
  exists ps. split; [exact Hps|].
  exact (reported_params_are_of_an_unbeaten_trial (caps := Demo.everything)
           (sk := Demo.sk4) (md := Demo.md4) Cases.X1 Cases.y1
           (Demo.draws [0; 1; 2; 3; 4; 5]%nat)
           (Demo.new_world Demo.only_xgb) Cases.world_one _ ps
           eq_refl eq_refl demo_fit_one Hps).
Defined.

Lemma fit_trial_budget_witness :
  HAS_OPTUNA (Capabilities := Demo.everything) = true
  /\ exists st new_warnings,
       study (self_of Cases.world_one) = Some st
       /\ (length (optuna.trials st) <= 1)%nat
       /\ (timeout (self_of (Demo.new_world Demo.only_xgb)) = None ->
           length (optuna.trials st) = 1%nat)
       /\ map optuna.number (optuna.trials st) =
            seq 0 (length (optuna.trials st))
       /\ warnings Cases.world_one = ([] ++ new_warnings)%list
       /\ length new_warnings =
            length
              (List.filter
                 (penalized (caps := Demo.everything) (sk := Demo.sk4)
                     Demo.only_xgb Cases.X1 Cases.y1 "rmse")
                 (map optuna.params (optuna.trials st))).
Proof.
  split; [reflexivity|].
  exact (fit_trial_budget (caps := Demo.everything) (sk := Demo.sk4)
           (md := Demo.md4) Cases.X1 Cases.y1
           (Demo.draws [0; 1; 2; 3; 4; 5]%nat)
           (Demo.new_world Demo.only_xgb) Cases.world_one _
           eq_refl demo_fit_one).
Defined.

Lemma fit_without_trials_witness :
  let run :=
    fit (caps := Demo.optuna_only) (sk := Demo.sk4) (md := Demo.md4)
      Demo.X10 Demo.y10 (Demo.draws []) (Demo.new_world Cases.no_trials) in
  HAS_OPTUNA (Capabilities := Demo.optuna_only) = true
  /\ (n_trials (self_of (Demo.new_world Cases.no_trials)) <= 0)%Z
  /\ run.2 = Raise (ValueError "No trials are completed yet.")
  /\ is_fitted (self_of run.1) = false.
Proof.
  intros run.
  pose proof (fit_without_trials (caps := Demo.optuna_only) (sk := Demo.sk4)
                (md := Demo.md4) Demo.X10 Demo.y10 (Demo.draws [])
                (Demo.new_world Cases.no_trials) run.1 run.2 eq_refl
                ltac:(simpl; lia) (surjective_pairing run))
    as (Hr & Hfitted & _).
  split; [reflexivity|]. split; [simpl; lia|].
  split; [exact Hr|exact Hfitted].
Defined.

Lemma failed_fit_keeps_best_params_witness :
  HAS_OPTUNA (Capabilities := Demo.everything) = true
  /\ (0 < n_trials (self_of (Demo.new_world Demo.only_xgb)))%Z
  /\ timeout (self_of (Demo.new_world Demo.only_xgb)) = None
  /\ exists st best,
       study (self_of Cases.world_one) = Some st
       /\ optuna.best_trial st = Some best
       /\ length (optuna.trials st) = 1%nat
       /\ get_best_params (self_of Cases.world_one) =
            Ok (delete "model_type" (optuna.params best))
       /\ is_fitted (self_of Cases.world_one) = false.
Proof.
  split; [reflexivity|]. split; [simpl; lia|]. split; [reflexivity|].
  exact (failed_fit_keeps_best_params (caps := Demo.everything)
           (sk := Demo.sk4) (md := Demo.md4) Cases.X1 Cases.y1
           (Demo.draws [0; 1; 2; 3; 4; 5]%nat)
           (Demo.new_world Demo.only_xgb) Cases.world_one _
           eq_refl ltac:(simpl; lia) eq_refl demo_fit_one).
Defined.

Lemma failed_fit_stays_unfitted_witness :
  is_fitted (self_of Cases.world_one) = false
  /\ model_types (self_of Cases.world_one) = ["xgb"]
  /\ forall X',
       predict (sk := Demo.sk4) (md := Demo.md4)
         (self_of Cases.world_one) X' = Raise not_fitted_predict.
Proof.
  pose proof (failed_fit_stays_unfitted (caps := Demo.everything)
                (sk := Demo.sk4) (md := Demo.md4) Cases.X1 Cases.y1
                (Demo.draws [0; 1; 2; 3; 4; 5]%nat)
                (Demo.new_world Demo.only_xgb) Cases.world_one _
                demo_fit_one) as (Hfitted & Htypes & Hpredict).
  split; [exact Hfitted|]. split; [exact Htypes|].
  exact (Hpredict eq_refl).
Defined.

Lemma get_best_params_needs_search_witness :
  let run :=
    fit (caps := Demo.no_optuna) (sk := Demo.sk0) (md := Demo.md0)
      Demo.X10 Demo.y10 (Demo.draws []) (Demo.new_world Cases.defaults) in
  HAS_OPTUNA (Capabilities := Demo.no_optuna) = false
  /\ __init__ (caps := Demo.no_optuna) "regression" None "auto" 100 5 None =
       Ok Cases.defaults
  /\ get_best_params Cases.defaults =
       Raise (ValueError "Model must be fitted first")
  /\ get_best_params (self_of run.1) =
       Raise (ValueError "Model must be fitted first").
Proof.
  intros run. split; [reflexivity|]. split; [reflexivity|].
  exact (get_best_params_needs_search (caps := Demo.no_optuna)
           (sk := Demo.sk0) (md := Demo.md0) "regression" None "auto" 100 5
           None Cases.defaults Demo.X10 Demo.y10 (Demo.draws []) [] run.1
           run.2 eq_refl eq_refl (surjective_pairing run)).
Defined.

End LifecycleFacts.

Module SamplerFacts.
Import AutoMLModel Objective Search.

Section facts.
Context {caps : Capabilities} {sk : Sklearn} {md : Models}
        {bk : optuna.Backend}.

Local Open Scope R_scope.

(** The model type a trial is given is one of the instance's. *)
Lemma suggested_model_type {laws : optuna.BackendLaws bk} self t mt ps t' :
  model_types self <> [] ->
  objective_suggest self t = (mt, ps, t') ->
  In mt (model_types self).
Proof.
  intros Hne. unfold objective_suggest.
  destruct (optuna.suggest_categorical t "model_type" (model_types self))
    as [c t0] eqn:Hc.
  apply ObjectiveFacts.suggest_categorical_spec in Hc as [Hin _]; [|exact Hne].
  apply list_elem_of_In in Hin.
  repeat match goal with
         | |- context [optuna.suggest_int ?a ?b ?c ?d] =>
             destruct (optuna.suggest_int a b c d)
         | |- context [optuna.suggest_float ?a ?b ?c ?d ?e] =>
             destruct (optuna.suggest_float a b c d e)
         | |- context [optuna.suggest_categorical ?a ?b ?c] =>
             destruct (optuna.suggest_categorical a b c)
         | |- context [if ?b then _ else _] => destruct b
         end;
    intros [= <- _ _]; exact Hin.
Qed.

Lemma new_trial_model_type {laws : optuna.BackendLaws bk}
    self X y metric st t ws v :
  model_types self <> [] ->
  _create_objective self X y metric (optuna.ask st) = (t, ws, Ok v) ->
  In (model_type_of (optuna.trial_params t)) (model_types self)
  /\ optuna.trial_distributions t !! "model_type" =
       Some (optuna.CategoricalDistribution (model_types self)).
Proof.
  intros Hne. unfold _create_objective.
  destruct (objective_suggest self (optuna.ask st)) as [[mt ps] t'] eqn:Hs.
  pose proof (suggested_model_type _ _ _ _ _ Hne Hs) as Hin.
  apply SearchFacts.suggest_from_fresh in Hs as (_ & Hps & _ & Hds);
    [|reflexivity..].
  assert (Hgoal :
    In (model_type_of (optuna.trial_params t')) (model_types self)
    /\ optuna.trial_distributions t' !! "model_type" =
         Some (optuna.CategoricalDistribution (model_types self))).
  { split.
    - unfold model_type_of. rewrite Hps, lookup_insert_eq. exact Hin.
    - rewrite Hds. unfold search_space.
      repeat match goal with
             | |- context [if ?b then _ else _] => destruct b
             end; by simplify_map_eq. }
  destruct (objective_try self X y metric mt ps); intros [= <- _ _];
    exact Hgoal.
Qed.

(** X11. For an instance made by [__init__] and a sampler that keeps its
    draws within the choices it is given, every trial the search records
    has a model type that the instance keeps and that is available. *)
Theorem every_trial_uses_an_available_family {laws : optuna.BackendLaws bk}
    task_type mts metric0 n0 k tmo0 self X y metric tmo n :
  __init__ task_type mts metric0 n0 k tmo0 = Ok self ->
  forall st,
    Forall (fun t => In (model_type_of (optuna.params t)) (model_types self))
      (optuna.trials st) ->
    Forall
      (fun t =>
         In (model_type_of (optuna.params t)) (model_types self)
         /\ In (model_type_of (optuna.params t)) available_models)
      (optuna.trials
         (optuna.optimize (_create_objective self X y metric) n tmo st).1.1).
Proof.
  intros Hinit.
  destruct (RegistryFacts.init_model_types _ _ _ _ _ _ _ Hinit) as [Htypes _].
  assert (Hne : model_types self <> []).
  { unfold __init__ in Hinit. destruct (List.filter _ _) eqn:Hf;
      [discriminate|]. injection Hinit as <-. simpl. discriminate. }
  assert (Havail : forall m, In m (model_types self) -> In m available_models).
  { intros m. rewrite Htypes, filter_In, RegistryFacts.str_in_In. tauto. }
  induction n as [|n IH]; intros st Hst; simpl.
  - eapply Forall_impl; [exact Hst|]. intros t Ht.
    exact (conj Ht (Havail _ Ht)).
  - destruct (match tmo with
              | Some secs => optuna.timed_out secs (length (optuna.trials st))
              | None => false
              end); simpl.
    { eapply Forall_impl; [exact Hst|]. intros t Ht.
      exact (conj Ht (Havail _ Ht)). }
    destruct (LoopFacts.objective_on_new_trial self X y metric st)
      as (t & ws & v & Hobj & _). rewrite Hobj.
    apply (new_trial_model_type _ _ _ _ _ _ _ _ Hne) in Hobj as [Hin _].
    specialize (IH (optuna.tell st t v)).
    destruct (optuna.optimize _ n tmo (optuna.tell st t v))
      as [[st' ws'] r'].
    apply IH. simpl. apply Forall_app. split; [exact Hst|].
    constructor; [exact Hin|constructor].
Qed.

(** The keyword arguments of a sampled gradient-boosted configuration reach
    the native estimator unchanged; the constructor adds its seed and its
    verbosity. *)
(** X12. The configuration that the objective samples for "xgb" or "lgb"
    reaches the native estimator as it was sampled: the estimator's
    parameters are the five sampled values together with
    [random_state = 42] and the verbosity of the class, and the model
    starts unfitted. *)
Theorem sampled_configuration_reaches_estimator self t mt ps t' :
  objective_suggest self t = (mt, ps, t') ->
  (mt = "xgb" -> HAS_XGBOOST = true ->
   exists m,
     _create_model self mt ps = Ok m
     /\ BaseModel.cls m = "XGBoostModel"
     /\ BaseModel.is_fitted m = false
     /\ est_params (BaseModel.model m) =
          <["random_state" := VInt 42]> (<["verbosity" := VInt 0]> ps))
  /\ (mt = "lgb" -> HAS_LIGHTGBM = true ->
      exists m,
        _create_model self mt ps = Ok m
        /\ BaseModel.cls m = "LightGBMModel"
        /\ BaseModel.is_fitted m = false
        /\ est_params (BaseModel.model m) =
             <["random_state" := VInt 42]> (<["verbosity" := VInt (-1)]> ps)).
Proof.
  unfold objective_suggest.
  destruct (optuna.suggest_categorical t "model_type" (model_types self))
    as [c t0].
  destruct (String.eqb c "rf") eqn:Hrf.
  { apply String.eqb_eq in Hrf as ->.
    repeat match goal with
           | |- context [optuna.suggest_int ?a ?b ?c ?d] =>
               destruct (optuna.suggest_int a b c d)
           end.
    intros [= <- _ _]. split; discriminate. }
  destruct (String.eqb c "xgb" && HAS_XGBOOST) eqn:Hxgb.
  { apply andb_prop in Hxgb as [Hc Hx]. apply String.eqb_eq in Hc as ->.
    repeat match goal with
           | |- context [optuna.suggest_int ?a ?b ?c ?d] =>
               destruct (optuna.suggest_int a b c d)
           | |- context [optuna.suggest_float ?a ?b ?c ?d ?e] =>
               destruct (optuna.suggest_float a b c d e)
           end.
    intros [= <- <- _]. split; [|discriminate]. intros _ _.
    unfold _create_model. simpl. rewrite Hx. eexists. split; [reflexivity|].
    split; [reflexivity|]. split; [reflexivity|]. simpl.
    apply map_eq. intros key. unfold get. by simplify_map_eq. }
  destruct (String.eqb c "lgb" && HAS_LIGHTGBM) eqn:Hlgb.
  { apply andb_prop in Hlgb as [Hc Hl]. apply String.eqb_eq in Hc as ->.
    repeat match goal with
           | |- context [optuna.suggest_int ?a ?b ?c ?d] =>
               destruct (optuna.suggest_int a b c d)
           | |- context [optuna.suggest_float ?a ?b ?c ?d ?e] =>
               destruct (optuna.suggest_float a b c d e)
           end.
    intros [= <- <- _]. split; [discriminate|]. intros _ _.
    unfold _create_model. simpl. rewrite Hl. simpl.
    eexists. split; [reflexivity|].
    split; [reflexivity|]. split; [reflexivity|]. simpl.
    apply map_eq. intros key. unfold get. by simplify_map_eq. }
  assert (Hnot : forall p : string * gmap string value * optuna.Trial,
    p.1.1 = c ->
    (p.1.1 = "xgb" -> HAS_XGBOOST = true -> False)
    /\ (p.1.1 = "lgb" -> HAS_LIGHTGBM = true -> False)).
  { intros p ->. split; intros -> Hh; rewrite Hh in *; discriminate. }
  intros Hs. specialize (Hnot (mt, ps, t')). simpl in Hnot.
  assert (Hmt : mt = c).
  { revert Hs.
    repeat match goal with
           | |- context [optuna.suggest_float ?a ?b ?c ?d ?e] =>
               destruct (optuna.suggest_float a b c d e)
           | |- context [optuna.suggest_categorical ?a ?b ?c] =>
               destruct (optuna.suggest_categorical a b c)
           | |- context [if ?b then _ else _] => destruct b
           end; intros [= <- _ _]; reflexivity. }
  destruct (Hnot Hmt) as [Hx Hl].
  split; intros H1 H2; exfalso; auto.
Qed.

Lemma mean_nonpositive scores :
  scores <> [] -> Forall (fun s => s <= 0) scores -> np.mean scores <= 0.
Proof.
  intros Hne Hall. unfold np.mean.
  assert (Hsum : np.sum scores <= 0).
  { unfold np.sum. induction Hall as [|s l Hs _ IH]; simpl; [lra|].
    destruct l; [simpl; lra|]. specialize (IH ltac:(discriminate)). lra. }
  assert (Hlen : 0 < INR (length scores)).
  { apply lt_0_INR. destruct scores; [congruence|simpl; lia]. }
  pose proof (Rinv_0_lt_compat _ Hlen) as Hinv. unfold Rdiv. nra.
Qed.

(** X13. For [optimization_metric] "mse" or "mae" the study minimizes and
    the objective returns the mean squared error, which is not negative
    since the fold scores are negated squared errors, but the value of a
    failed candidate is [-1e6]: the study ranks a failed candidate strictly
    better than every candidate that was scored. *)
Theorem cost_metric_penalty_wins self entropy st scores :
  optimization_metric self = "mse" \/ optimization_metric self = "mae" ->
  optuna.create_study (metric_and_direction self).2 entropy = Ok st ->
  scores <> [] ->
  Forall (fun s => s <= 0) scores ->
  let metric := (metric_and_direction self).1 in
  scoring_of metric = "neg_mean_squared_error"
  /\ optuna.direction st = optuna.MINIMIZE
  /\ 0 <= score_of metric scores
  /\ optuna.better (optuna.direction st) (penalty metric)
       (score_of metric scores) = true.
Proof.
  intros Hmetric Hst Hne Hall metric.
  pose proof (mean_nonpositive scores Hne Hall) as Hmean.
  assert (Hlen : (0 <? length scores)%nat = true)
    by (destruct scores; [congruence|reflexivity]).
  subst metric. unfold metric_and_direction in *.
  destruct Hmetric as [Hm|Hm]; rewrite Hm in *; simpl in *;
    injection Hst as <-; simpl; unfold score_of, penalty; simpl;
    rewrite Hlen; (split; [reflexivity|]); (split; [reflexivity|]);
    (split; [lra|]); apply ObjectiveFacts.better_minimize; lra.
Qed.

End facts.
Local Open Scope R_scope.

Lemma every_trial_uses_an_available_family_witness :
  __init__ (caps := Demo.optuna_only) "regression"
    (Some ["xgb"; "svm"; "rf"]) "auto" 10 5 None = Ok Requests.svm_and_rf
  /\ Forall
       (fun t =>
          In (model_type_of (optuna.params t))
            (model_types Requests.svm_and_rf))
       (optuna.trials (Demo.study0 optuna.MINIMIZE [1; 2; 3]%nat))
  /\ Forall
       (fun t =>
          In (model_type_of (optuna.params t))
            (model_types Requests.svm_and_rf)
          /\ In (model_type_of (optuna.params t))
               (available_models (caps := Demo.optuna_only)))
       (optuna.trials
          (optuna.optimize
             (_create_objective (caps := Demo.optuna_only) (sk := Demo.sk4)
                 Requests.svm_and_rf Demo.X10 Demo.y10
                "rmse")
             2 None (Demo.study0 optuna.MINIMIZE [1; 2; 3]%nat)).1.1).
Proof.
  split; [reflexivity|]. split; [constructor|].
  apply (every_trial_uses_an_available_family (caps := Demo.optuna_only)
           (sk := Demo.sk4) (laws := ObjectiveFacts.tape_laws)
           "regression" (Some ["xgb"; "svm"; "rf"]) "auto" 10 5 None
           Requests.svm_and_rf Demo.X10 Demo.y10 "rmse" None 2 eq_refl
           (Demo.study0 optuna.MINIMIZE [1; 2; 3]%nat)).
  constructor.
Defined.

Lemma sampled_configuration_reaches_estimator_witness :
  let s :=
    objective_suggest (caps := Demo.everything) Demo.only_xgb
      (Demo.trial0 [0; 1; 2; 3; 4; 5]%nat) in
  s.1.1 = "xgb"
  /\ HAS_XGBOOST (Capabilities := Demo.everything) = true
  /\ exists m,
       _create_model (caps := Demo.everything)
         Demo.only_xgb s.1.1 s.1.2 = Ok m
       /\ BaseModel.cls m = "XGBoostModel"
       /\ BaseModel.is_fitted m = false
       /\ est_params (BaseModel.model m) =
            <["random_state" := VInt 42]> (<["verbosity" := VInt 0]> s.1.2).
Proof.
  intros s. split; [reflexivity|]. split; [reflexivity|].
  refine (proj1
            (sampled_configuration_reaches_estimator
               (caps := Demo.everything) Demo.only_xgb
               (Demo.trial0 [0; 1; 2; 3; 4; 5]%nat) s.1.1 s.1.2 s.2 _)
            eq_refl eq_refl).
  rewrite <- !surjective_pairing. reflexivity.
Defined.

Lemma cost_metric_penalty_wins_witness :
  (optimization_metric Requests.mse_rf = "mse"
   \/ optimization_metric Requests.mse_rf = "mae")
  /\ optuna.create_study (metric_and_direction Requests.mse_rf).2
       (Demo.draws []) = Ok (Demo.study0 optuna.MINIMIZE [])
  /\ [-4] <> []
  /\ Forall (fun s => s <= 0) [-4]
  /\ optuna.better optuna.MINIMIZE
       (penalty (metric_and_direction Requests.mse_rf).1)
       (score_of (metric_and_direction Requests.mse_rf).1 [-4]) = true.
Proof.
  assert (Hall : Forall (fun s => s <= 0) [-4]).
  { constructor; [lra|constructor]. }
  split; [left; reflexivity|]. split; [reflexivity|].
  split; [discriminate|]. split; [exact Hall|].
  exact (proj2 (proj2 (proj2
           (cost_metric_penalty_wins Requests.mse_rf (Demo.draws [])
              (Demo.study0 optuna.MINIMIZE []) [-4]
              (or_introl eq_refl) eq_refl ltac:(discriminate) Hall)))).
Defined.

End SamplerFacts.

Module SplitFacts.
Import EnsembleModel.

Section facts.
Context {sk : Sklearn} {md : Models}.

Lemma take_all_from {A} (done rows : list A) :
  np.take (done ++ rows) (seq (length done) (length rows)) = rows.
Proof.
  revert done. induction rows as [|row rows IH]; intros done; [reflexivity|].
  unfold np.take in *. simpl.
  rewrite lookup_app_r, Nat.sub_diag by lia. simpl. f_equal.
  specialize (IH (done ++ [row])%list).
  rewrite <- app_assoc, length_app in IH. simpl in IH.
  rewrite Nat.add_1_r in IH. exact IH.
Qed.

Lemma take_all {A} (rows : list A) :
  np.take rows (seq 0 (length rows)) = rows.
Proof. exact (take_all_from [] rows). Qed.

(** Rows and targets selected by the same indices stay paired. *)
Lemma take_zip {A B} (X : list A) (y : list B) (idx : list nat) :
  length X = length y ->
  zip (np.take X idx) (np.take y idx) = np.take (zip X y) idx.
Proof.
  intros Hlen. unfold np.take.
  induction idx as [|i idx IH]; [reflexivity|]. simpl.
  rewrite lookup_zip_with.
  destruct (X !! i) as [x|] eqn:HX; destruct (y !! i) as [v|] eqn:Hy; simpl.
  - f_equal. exact IH.
  - apply lookup_lt_Some in HX. apply lookup_ge_None in Hy. lia.
  - apply lookup_ge_None in HX. apply lookup_lt_Some in Hy. lia.
  - exact IH.
Qed.

(** The split loses and repeats no sample, keeps every row with its target,
    and leaves both parts non-empty. *)
Lemma train_test_split_partition {laws : SklearnLaws sk} X y
    X_train X_val y_train y_val :
  train_test_split X y = Ok (X_train, X_val, y_train, y_val) ->
  (zip X_train y_train ++ zip X_val y_val)%list ≡ₚ zip X y
  /\ length X = length y
  /\ (0 < length X_val < length X)%nat
  /\ (length X_train + length X_val = length X)%nat.
Proof.
  intros Hsplit.
  destruct (SearchFacts.train_test_split_sizes _ _ _ _ _ _ Hsplit)
    as (Hn & Hv & Hlt).
  revert Hsplit. unfold train_test_split.
  destruct (negb (length X =? length y)%nat) eqn:Hlen; [discriminate|].
  apply negb_false_iff, Nat.eqb_eq in Hlen.
  destruct (length X - (length X + 4) / 5 =? 0)%nat eqn:Hempty;
    [discriminate|].
  apply Nat.eqb_neq in Hempty.
  intros [= <- <- <- <-].
  assert (Hpos : (0 < (length X + 4) / 5 < length X)%nat).
  { pose proof (Nat.div_mod_eq (length X + 4) 5) as Hdm.
    pose proof (Nat.mod_upper_bound (length X + 4) 5) as Hmod. lia. }
  split; [|split; [exact Hlen|split; lia]].
  rewrite !take_zip by exact Hlen. unfold np.take.
  rewrite <- omap_app.
  transitivity (omap (fun i => zip X y !! i) (permutation (length X))).
  { apply omap_Permutation.
    rewrite Permutation_app_comm, take_drop. reflexivity. }
  rewrite (permutation_range (length X)).
  replace (length X) with (length (zip X y))
    by (rewrite length_zip_with; lia).
  pose proof (take_all (zip X y)) as Hall. unfold np.take in Hall.
  rewrite Hall. reflexivity.
Qed.

(** X14. When [_fit_voting] returns, its metrics are those of [evaluate]
    on the validation part of the split, which holds [ceil(N / 5)] of the
    [N] samples and is not empty.  The split is made of the very data the
    ensemble was fitted on: every member was fitted on all of [X], [y], and
    every validation row, with its target, is one of those samples. *)
Theorem voting_validation_is_in_sample {laws : SklearnLaws sk}
    X y self self' ms :
  _fit_voting X y self = (self', Ok ms) ->
  exists X_train X_val y_train y_val ens,
    train_test_split X y = Ok (X_train, X_val, y_train, y_val)
    /\ evaluate _ self' X_val y_val = Ok ms
    /\ ensemble self' = Some ens
    /\ Forall (fun e => est_fitted e = Some (X, y)) (Voting.estimators_ ens)
    /\ length X_val = ((length X + 4) / 5)%nat
    /\ X_val <> []
    /\ (forall row target,
          (row, target) ∈ zip X_val y_val -> (row, target) ∈ zip X y).
Proof.
  intros Hfit.
  unfold _fit_voting, mbind, method_bind, get_state, modify, call in Hfit.
  destruct (fit_base_models X y 0 (base_models self) [] self)
    as [s1 [ests|ex]]; [|discriminate].
  set (ens0 := if String.eqb (task_type self) "regression"
               then Voting.VotingRegressor ests
               else Voting.VotingClassifier ests (voting_strategy self))
    in Hfit.
  simpl in Hfit.
  destruct (Voting.fit ens0 X y) as [ens|ex] eqn:Hens; [|discriminate].
  assert (Hmembers :
    Forall (fun e => est_fitted e = Some (X, y)) (Voting.estimators_ ens)).
  { unfold Voting.fit in Hens. destruct (Voting.estimators ens0); [discriminate|].
    destruct (Voting.fit_clones _ X y) as [fitted|ex] eqn:Hclones;
      [|discriminate].
    injection Hens as <-. simpl.
    rewrite (EnsembleFacts.fit_clones_spec _ _ _ _ Hclones).
    apply Forall_map, Forall_forall. intros ne _. reflexivity. }
  destruct (train_test_split X y)
    as [[[[X_train X_val] y_train] y_val]|ex] eqn:Hsplit; [|discriminate].
  simpl in Hfit.
  destruct (evaluate _ _ X_val y_val) as [ms'|ex] eqn:Heval; [|discriminate].
  injection Hfit as <- <-.
  destruct (train_test_split_partition _ _ _ _ _ _ Hsplit)
    as (Hperm & Hlen & Hval & Hsum).
  destruct (SearchFacts.train_test_split_sizes _ _ _ _ _ _ Hsplit)
    as (_ & Hn & _).
  exists X_train, X_val, y_train, y_val, ens.
  split; [reflexivity|]. split; [exact Heval|]. split; [reflexivity|].
  split; [exact Hmembers|]. split; [exact Hn|].
  split; [intros ->; simpl in Hval; lia|].
  intros row target Hin. rewrite <- Hperm. apply elem_of_app. right.
  exact Hin.
Qed.

End facts.

Lemma voting_validation_is_in_sample_witness :
  _fit_voting (sk := Demo.sk0) (md := Demo.md0) Demo.X10 Demo.y10
    Demo.ensemble0 = (Demo.ensemble1, Ok ∅)
  /\ exists X_train X_val y_train y_val ens,
       train_test_split (sk := Demo.sk0) Demo.X10 Demo.y10 =
         Ok (X_train, X_val, y_train, y_val)
       /\ evaluate (Models := Demo.md0) _ Demo.ensemble1 X_val y_val = Ok ∅
       /\ ensemble Demo.ensemble1 = Some ens
       /\ Forall (fun e => est_fitted e = Some (Demo.X10, Demo.y10))
            (Voting.estimators_ ens)
       /\ length X_val = 2%nat
       /\ X_val <> []
       /\ (forall row target,
             (row, target) ∈ zip X_val y_val ->
             (row, target) ∈ zip Demo.X10 Demo.y10).
Proof.
  assert (Hfit :
    _fit_voting (sk := Demo.sk0) (md := Demo.md0) Demo.X10 Demo.y10
      Demo.ensemble0 = (Demo.ensemble1, Ok ∅)) by reflexivity.
  split; [exact Hfit|].
  exact (voting_validation_is_in_sample (sk := Demo.sk0) (md := Demo.md0)
           (laws := SearchFacts.demo_sklearn_laws _) Demo.X10 Demo.y10
           Demo.ensemble0 Demo.ensemble1 ∅ Hfit).
Defined.

End SplitFacts.

Module ConvolutionalFacts.
Import ConvolutionalNN Shapes.

Local Open Scope Z_scope.

Lemma used_from (xs : list Z) d i todo :
  map (fun j => item_or xs j d) (seq i (S todo)) =
    item_or xs i d :: map (fun j => item_or xs j d) (seq (S i) todo).
Proof. reflexivity. Qed.

Lemma last_cons {A} (a : A) l d : List.last (a :: l) d = List.last l a.
Proof.
  revert a d. induction l as [|b l IH]; intros a d; [reflexivity|].
  change (List.last (b :: l) d = List.last (b :: l) a).
  rewrite !IH. reflexivity.
Qed.

Lemma product_pos xs : Forall (fun x => 0 < x) xs -> 0 < product xs.
Proof.
  unfold product. induction 1 as [|x xs Hx _ IH]; simpl; [lia|nia].
Qed.

Lemma foldl_div_product pools :
  Forall (fun p => 0 < p) pools ->
  forall a, foldl Z.div a pools = a / product pools.
Proof.
  induction 1 as [|p pools Hp Hpools IH]; intros a.
  - simpl. rewrite Z.div_1_r. reflexivity.
  - cbn [foldl product foldr]. rewrite IH.
    apply Z.div_div; [lia|]. apply product_pos. exact Hpools.
Qed.

Lemma allocate_ok shape : Forall (fun size => 0 <= size) shape ->
  allocate shape = Ok tt.
Proof.
  intros Hshape. unfold allocate.
  destruct (List.find _ shape) as [size|] eqn:Hfind; [|reflexivity].
  apply List.find_some in Hfind as [Hin Hneg].
  simpl in Hneg. apply Z.ltb_lt in Hneg.
  pose proof (proj1 (List.Forall_forall _ _) Hshape _ Hin) as Hsize.
  simpl in Hsize. lia.
Qed.

Lemma new_Conv1d_ok in_channels out_channels kernel_size padding :
  0 < in_channels -> 0 < out_channels -> 0 < kernel_size ->
  new_Conv1d in_channels out_channels kernel_size padding =
    Ok (Conv1d in_channels out_channels kernel_size padding).
Proof.
  intros Hi Ho Hk. unfold new_Conv1d. rewrite allocate_ok; [reflexivity|].
  repeat constructor; lia.
Qed.

Lemma new_Dropout_ok rate : (0 <= rate <= 1)%R ->
  new_Dropout rate = Ok (Dropout rate).
Proof.
  intros Hrate. unfold new_Dropout.
  rewrite !bool_decide_eq_false_2 by lra. reflexivity.
Qed.

Lemma new_Linear_ok in_features out_features :
  0 <= in_features -> 0 < out_features ->
  new_Linear in_features out_features = Ok (Linear in_features out_features).
Proof.
  intros Hi Ho. unfold new_Linear. rewrite allocate_ok; [reflexivity|].
  repeat constructor; lia.
Qed.

Lemma new_Linear_negative in_features out_features :
  in_features < 0 -> 0 < out_features ->
  new_Linear in_features out_features =
    Raise (negative_dimension in_features [out_features; in_features]).
Proof.
  intros Hi Ho. unfold new_Linear, allocate. cbn [List.find].
  destruct (Z.ltb_spec out_features 0); [lia|].
  destruct (Z.ltb_spec in_features 0); [reflexivity|lia].
Qed.

(** The loop over the convolutional blocks, for channel counts, kernel
    sizes and a dropout probability that the layers accept: it raises at
    the first block whose pool size is zero, and without one it appends four
    layers per block and divides the length by each pool size in turn. *)
Lemma build_conv_spec channels kernels pools rate todo :
  (0 <= rate <= 1)%R ->
  forall i layers in_channels current_length,
    0 < in_channels ->
    Forall (fun c => 0 < c)
      (map (fun j => item_or channels j 64) (seq i todo)) ->
    Forall (fun k => 0 < k)
      (map (fun j => item_or kernels j 3) (seq i todo)) ->
    (Exists (fun p => p = 0)
       (map (fun j => item_or pools j 2) (seq i todo)) ->
     build_conv channels kernels pools rate todo i layers in_channels
       current_length = Raise ZeroDivisionError)
    /\ (Forall (fun p => p <> 0)
          (map (fun j => item_or pools j 2) (seq i todo)) ->
        exists blocks,
          build_conv channels kernels pools rate todo i layers in_channels
            current_length =
            Ok ((layers ++ blocks)%list,
                List.last (map (fun j => item_or channels j 64) (seq i todo))
                  in_channels,
                foldl Z.div current_length
                  (map (fun j => item_or pools j 2) (seq i todo)))
          /\ length blocks = (4 * todo)%nat).
Proof.
  intros Hrate.
  induction todo as [|todo IH];
    intros i layers in_channels current_length Hin Hc Hk.
  - split; [intros Hex; inversion Hex|]. intros _. exists []. simpl.
    rewrite app_nil_r. split; reflexivity.
  - rewrite used_from in Hc. apply Forall_cons in Hc as [Hci Hc].
    rewrite used_from in Hk. apply Forall_cons in Hk as [Hki Hk].
    rewrite (used_from pools). cbn [build_conv].
    rewrite (new_Conv1d_ok _ _ _ _ Hin Hci Hki), (new_Dropout_ok _ Hrate).
    cbn [mbind result_bind].
    destruct (IH (S i)
                (layers ++
                   [Conv1d in_channels (item_or channels i 64)
                      (item_or kernels i 3) (item_or kernels i 3 / 2);
                    ReLU; MaxPool1d (item_or pools i 2); Dropout rate])%list
                (item_or channels i 64)
                (current_length / item_or pools i 2) Hci Hc Hk)
      as [Hzero Hnonzero].
    destruct (item_or pools i 2 =? 0) eqn:Hz.
    + split; [reflexivity|].
      intros Hall. apply Forall_cons in Hall as [Hne _]. lia.
    + split.
      * intros Hex. apply Exists_cons in Hex as [Hex|Hex]; [lia|].
        apply Hzero. exact Hex.
      * intros Hall. apply Forall_cons in Hall as [_ Hall].
        destruct (Hnonzero Hall) as (blocks & Hbuild & Hlen).
        eexists. rewrite Hbuild, <- app_assoc. split.
        -- rewrite (used_from channels), last_cons. reflexivity.
        -- simpl. rewrite Hlen. lia.
Qed.

Lemma build_fc_spec rate hidden :
  (0 <= rate <= 1)%R ->
  Forall (fun h => 0 < h) hidden ->
  forall layers prev_dim,
    0 <= prev_dim ->
    build_fc rate hidden layers prev_dim =
      Ok ((layers ++
             flat_map
               (fun io : Z * Z => [Linear io.1 io.2; ReLU; Dropout rate])
               (zip (prev_dim :: hidden) hidden))%list,
          List.last hidden prev_dim).
Proof.
  intros Hrate.
  induction 1 as [|h hidden Hh _ IH]; intros layers prev_dim Hprev.
  - simpl. rewrite app_nil_r. reflexivity.
  - cbn [build_fc].
    rewrite (new_Linear_ok _ _ Hprev Hh), (new_Dropout_ok _ Hrate).
    cbn [mbind result_bind].
    rewrite IH by lia. rewrite <- app_assoc, last_cons. reflexivity.
Qed.

(** With a negative flattened size, the first [nn.Linear] that is
    constructed fails. *)
Lemma dense_negative rate hidden output_dim size :
  Forall (fun h => 0 < h) hidden -> 0 < output_dim -> size < 0 ->
  (dense ← build_fc rate hidden [] size;
   new_Linear dense.2 output_dim) =
    Raise (negative_dimension size [hd output_dim hidden; size]).
Proof.
  intros Hhidden Hout Hsize. destruct Hhidden as [|h hidden Hh _].
  - simpl. apply new_Linear_negative; assumption.
  - cbn [build_fc hd]. rewrite (new_Linear_negative _ _ Hsize Hh).
    reflexivity.
Qed.

Lemma used_Forall (P : Z -> Prop) xs d n :
  Forall P xs -> P d -> Forall P (used xs d n).
Proof.
  intros Hxs Hd. unfold used. apply Forall_map, Forall_forall. intros i _.
  unfold item_or. destruct (xs !! i) as [x|] eqn:Hx; simpl; [|exact Hd].
  eapply Forall_lookup_1; eauto.
Qed.

Lemma or_default_Forall (P : Z -> Prop) xs d n :
  Forall P xs -> P d -> Forall P (or_default xs d n).
Proof.
  intros Hxs Hd. unfold or_default. destruct xs; [|exact Hxs].
  apply Forall_replicate. exact Hd.
Qed.

Lemma last_Forall {A} (P : A -> Prop) l d :
  Forall P l -> P d -> P (List.last l d).
Proof.
  intros Hl. revert d. induction Hl as [|a l Ha _ IH]; intros d Hd;
    [exact Hd|]. rewrite last_cons. apply IH. exact Ha.
Qed.

(** What the loop over the blocks does for accepted arguments. *)
Lemma accepted_blocks input_dim num_conv_layers conv_channels kernel_sizes
    pool_sizes hidden_dims dropout_rate output_dim :
  accepted conv_channels kernel_sizes hidden_dims dropout_rate output_dim ->
  let n := Z.to_nat num_conv_layers in
  let channels := used (or_default conv_channels 64 num_conv_layers) 64 n in
  let pools := used (or_default pool_sizes 2 num_conv_layers) 2 n in
  let build :=
    build_conv (or_default conv_channels 64 num_conv_layers)
      (or_default kernel_sizes 3 num_conv_layers)
      (or_default pool_sizes 2 num_conv_layers) dropout_rate n 0 [] 1
      input_dim in
  0 < List.last channels 1
  /\ (Exists (fun p => p = 0) pools -> build = Raise ZeroDivisionError)
  /\ (Forall (fun p => p <> 0) pools ->
      exists blocks,
        build = Ok (blocks, List.last channels 1, foldl Z.div input_dim pools)
        /\ length blocks = (4 * n)%nat).
Proof.
  intros (Hchannels & Hkernels & _ & _ & Hrate) n channels pools build.
  assert (Hc : Forall (fun c => 0 < c) channels).
  { apply used_Forall; [|lia].
    apply or_default_Forall; [exact Hchannels|lia]. }
  assert (Hk : Forall (fun k => 0 < k)
                 (used (or_default kernel_sizes 3 num_conv_layers) 3 n)).
  { apply used_Forall; [|lia].
    apply or_default_Forall; [exact Hkernels|lia]. }
  split; [apply (last_Forall (fun c => 0 < c)); [exact Hc|lia]|].
  exact (build_conv_spec _ _ (or_default pool_sizes 2 num_conv_layers) _ n
           Hrate 0%nat [] 1 input_dim ltac:(lia) Hc Hk).
Qed.

(** X19. For arguments that the layer constructors accept, positive pool
    sizes and a non-negative [input_dim], [ConvolutionalNN.__init__]
    returns an unfitted network with four layers per convolutional block,
    whose fully connected stack takes [c * (input_dim // p)] features,
    where [c] is the channel count of the last block (1 without blocks) and
    [p] the product of the pool sizes the blocks use; the stack has one
    [Linear; ReLU; Dropout] group per hidden size and ends in the output
    layer. *)
Theorem cnn_flattened_size task_type input_dim num_conv_layers
    conv_channels kernel_sizes pool_sizes hidden_dims dropout_rate output_dim :
  accepted conv_channels kernel_sizes hidden_dims dropout_rate output_dim ->
  Forall (fun p => 0 < p) pool_sizes ->
  0 <= input_dim ->
  let n := Z.to_nat num_conv_layers in
  let channels := used (or_default conv_channels 64 num_conv_layers) 64 n in
  let pools := used (or_default pool_sizes 2 num_conv_layers) 2 n in
  exists self,
    __init__ task_type input_dim num_conv_layers conv_channels kernel_sizes
      pool_sizes hidden_dims dropout_rate output_dim = Ok self
    /\ length (conv_layers self) = (4 * n)%nat
    /\ fc_layers self =
         dense dropout_rate
           (List.last channels 1 * (input_dim / product pools))
           hidden_dims output_dim
    /\ 0 <= List.last channels 1 * (input_dim / product pools)
    /\ is_fitted self = false.
Proof.
  intros Hacc Hpools Hinput n channels pools.
  assert (Hused : Forall (fun p => 0 < p) pools).
  { apply used_Forall; [|lia]. apply or_default_Forall; [exact Hpools|lia]. }
  destruct (accepted_blocks input_dim num_conv_layers conv_channels
              kernel_sizes pool_sizes hidden_dims dropout_rate output_dim Hacc)
    as (Hlast & _ & Hbuild).
  fold n channels pools in Hlast, Hbuild.
  destruct Hbuild as (blocks & Hbuild & Hlen).
  { eapply Forall_impl; [exact Hused|]. simpl. intros p Hp. lia. }
  rewrite (foldl_div_product _ Hused) in Hbuild.
  destruct Hacc as (_ & _ & Hhidden & Hout & Hrate).
  pose proof (Z.div_pos input_dim (product pools) Hinput
                (product_pos pools Hused)) as Hdiv.
  assert (Hsize : 0 <= List.last channels 1 * (input_dim / product pools))
    by nia.
  unfold __init__. fold n. rewrite Hbuild. cbn [mbind result_bind].
  rewrite (build_fc_spec _ _ Hrate Hhidden [] _ Hsize).
  cbn [mbind result_bind].
  rewrite new_Linear_ok;
    [|apply (last_Forall (fun h => 0 <= h));
        [eapply Forall_impl; [exact Hhidden|]; simpl; intros h Hh; lia
        |exact Hsize]
     |exact Hout].
  eexists. split; [reflexivity|]. simpl.
  split; [exact Hlen|]. split; [reflexivity|]. split; [exact Hsize|].
  reflexivity.
Qed.

(** X20. For channel counts, kernel sizes, hidden sizes, an output size and
    a dropout probability that the layer constructors accept, whatever the
    pool sizes and [input_dim]: [ConvolutionalNN.__init__] raises
    [ZeroDivisionError] exactly when one of the pool sizes its blocks use is
    zero.  When none is, the flattened size is [c] times the result of
    floor-dividing [input_dim] by the pool sizes in turn; the constructor
    returns the network with that input size when it is not negative, and
    otherwise the first [nn.Linear] raises torch's [RuntimeError] for a
    negative dimension. *)
Theorem cnn_zero_pool_size task_type input_dim num_conv_layers
    conv_channels kernel_sizes pool_sizes hidden_dims dropout_rate output_dim :
  accepted conv_channels kernel_sizes hidden_dims dropout_rate output_dim ->
  let n := Z.to_nat num_conv_layers in
  let channels := used (or_default conv_channels 64 num_conv_layers) 64 n in
  let pools := used (or_default pool_sizes 2 num_conv_layers) 2 n in
  let size := List.last channels 1 * foldl Z.div input_dim pools in
  let init :=
    __init__ task_type input_dim num_conv_layers conv_channels kernel_sizes
      pool_sizes hidden_dims dropout_rate output_dim in
  (init = Raise ZeroDivisionError <-> Exists (fun p => p = 0) pools)
  /\ (Forall (fun p => p <> 0) pools -> 0 <= size ->
      exists self,
        init = Ok self
        /\ fc_layers self = dense dropout_rate size hidden_dims output_dim)
  /\ (Forall (fun p => p <> 0) pools -> size < 0 ->
      init =
        Raise (negative_dimension size [hd output_dim hidden_dims; size])).
Proof.
  intros Hacc n channels pools size init.
  destruct (accepted_blocks input_dim num_conv_layers conv_channels
              kernel_sizes pool_sizes hidden_dims dropout_rate output_dim Hacc)
    as (Hlast & Hzero & Hbuild).
  fold n channels pools in Hlast, Hzero, Hbuild.
  destruct Hacc as (_ & _ & Hhidden & Hout & Hrate).
  assert (Hok : Forall (fun p => p <> 0) pools -> 0 <= size ->
    exists self,
      init = Ok self
      /\ fc_layers self = dense dropout_rate size hidden_dims output_dim).
  { intros Hall Hsize. destruct (Hbuild Hall) as (blocks & Hblocks & _).
    unfold init, __init__. fold n. rewrite Hblocks. cbn [mbind result_bind].
    fold size. rewrite (build_fc_spec _ _ Hrate Hhidden [] _ Hsize).
    cbn [mbind result_bind].
    rewrite new_Linear_ok;
      [|apply (last_Forall (fun h => 0 <= h));
          [eapply Forall_impl; [exact Hhidden|]; simpl; intros h Hh; lia
          |exact Hsize]
       |exact Hout].
    eexists. split; reflexivity. }
  assert (Hneg : Forall (fun p => p <> 0) pools -> size < 0 ->
    init = Raise (negative_dimension size [hd output_dim hidden_dims; size])).
  { intros Hall Hsize. destruct (Hbuild Hall) as (blocks & Hblocks & _).
    pose proof (dense_negative dropout_rate hidden_dims output_dim size
                  Hhidden Hout Hsize) as Hdense.
    unfold init, __init__. fold n. rewrite Hblocks. cbn [mbind result_bind].
    fold size. cbn [mbind result_bind] in Hdense.
    destruct (build_fc dropout_rate hidden_dims [] size)
      as [[layers prev_dim]|ex]; simpl in Hdense |- *.
    - rewrite Hdense. reflexivity.
    - injection Hdense as ->. reflexivity. }
  split; [|split; [exact Hok|exact Hneg]].
  split;
    [|intros Hex; unfold init, __init__; fold n; rewrite (Hzero Hex);
      reflexivity].
  intros Hinit.
  destruct (decide (Exists (fun p => p = 0) pools)) as [Hex|Hnone];
    [exact Hex|].
  apply not_Exists_Forall in Hnone; [|intros p; apply Z.eq_dec].
  destruct (Z_lt_le_dec size 0) as [Hsize|Hsize].
  - rewrite (Hneg Hnone Hsize) in Hinit. discriminate.
  - destruct (Hok Hnone Hsize) as (self & Hself & _).
    rewrite Hself in Hinit. discriminate.
Qed.

Lemma cnn_flattened_size_witness :
  accepted [64; 128; 256] [3; 3; 3] [512; 256] 0.3%R 1
  /\ Forall (fun p => 0 < p) [2; 2; 2]
  /\ 0 <= 2048
  /\ exists self,
       __init__ "regression" 2048 3 [64; 128; 256] [3; 3; 3] [2; 2; 2]
         [512; 256] 0.3%R 1 = Ok self
       /\ length (conv_layers self) = 12%nat
       /\ fc_layers self = dense 0.3%R (256 * (2048 / 8)) [512; 256] 1.
Proof.
  assert (Hacc : accepted [64; 128; 256] [3; 3; 3] [512; 256] 0.3%R 1).
  { unfold accepted. repeat split; try (repeat constructor; lia); lra. }
  assert (Hpools : Forall (fun p => 0 < p) [2; 2; 2]).
  { repeat constructor; lia. }
  split; [exact Hacc|]. split; [exact Hpools|]. split; [lia|].
  destruct (cnn_flattened_size "regression" 2048 3 [64; 128; 256] [3; 3; 3]
              [2; 2; 2] [512; 256] 0.3%R 1 Hacc Hpools ltac:(lia))
    as (self & Hinit & Hconv & Hfc & _).
  exists self. split; [exact Hinit|]. split; [exact Hconv|exact Hfc].
Defined.

Lemma cnn_zero_pool_size_witness :
  accepted [64; 128; 256] [3; 3; 3] [512; 256] 0.3%R 1
  /\ __init__ "regression" 2048 3 [64; 128; 256] [3; 3; 3] [2; 0; 2]
       [512; 256] 0.3%R 1 = Raise ZeroDivisionError
  /\ __init__ "regression" 2048 3 [64; 128; 256] [3; 3; 3] [2; -2; 2]
       [512; 256] 0.3%R 1 =
       Raise (Exception "RuntimeError"
                "Trying to create tensor with negative dimension -65536: [512, -65536]").
Proof.
  assert (Hacc : accepted [64; 128; 256] [3; 3; 3] [512; 256] 0.3%R 1).
  { unfold accepted. repeat split; try (repeat constructor; lia); lra. }
  split; [exact Hacc|].
  destruct (cnn_zero_pool_size "regression" 2048 3 [64; 128; 256] [3; 3; 3]
              [2; 0; 2] [512; 256] 0.3%R 1 Hacc) as [[_ Hzero] _].
  destruct (cnn_zero_pool_size "regression" 2048 3 [64; 128; 256] [3; 3; 3]
              [2; -2; 2] [512; 256] 0.3%R 1 Hacc) as (_ & _ & Hneg).
  split.
  - apply Hzero.
    change (Exists (fun p => p = 0) [2; 0; 2]).
    apply Exists_cons_tl, Exists_cons_hd. reflexivity.
  - rewrite Hneg; [reflexivity| |reflexivity].
    change (Forall (fun p => p <> 0) [2; -2; 2]).
    repeat (apply Forall_cons_2; [lia|]). apply Forall_nil_2.
Defined.

End ConvolutionalFacts.

Module EnsembleLifecycleFacts.
Import EnsembleModel.

Section facts.
Context {sk : Sklearn} {md : Models}.

(** X16. An ensemble made by [__init__] has at least one base model, is not
    fitted and has no ensemble yet, so [predict] raises the [ValueError] of
    an unfitted model; a non-empty list of base models is kept as given,
    an absent or an empty list is replaced by the three default models:
    ridge regression, a forest of 100 trees and an RBF support vector
    machine, in that order. *)
Theorem ensemble_init_base_models task_type base_models0 ensemble_method0
    voting_strategy0 meta_model cv_folds0 self meta :
  EnsembleInit.__init__ task_type base_models0 ensemble_method0
    voting_strategy0 meta_model cv_folds0 = Ok (self, meta) ->
  base_models self <> []
  /\ is_fitted self = false
  /\ ensemble self = None
  /\ (forall X, predict self X = Raise not_fitted_predict)
  /\ (forall m ms, base_models0 = Some (m :: ms) -> base_models self = m :: ms)
  /\ (base_models0 = None \/ base_models0 = Some [] ->
      exists linear forest svm,
        base_models self = [linear; forest; svm]
        /\ models_new "LinearModel" task_type
             (<["regularization" := VStr "ridge"]> ∅) = Ok linear
        /\ models_new "RandomForestModel" task_type
             (<["n_estimators" := VInt 100]> ∅) = Ok forest
        /\ models_new "SVMModel" task_type (<["kernel" := VStr "rbf"]> ∅) =
             Ok svm).
Proof.
  unfold EnsembleInit.__init__. intros Hinit.
  assert (Hdefault :
    EnsembleInit._get_default_models task_type = Ok (base_models self) ->
    exists linear forest svm,
      base_models self = [linear; forest; svm]
      /\ models_new "LinearModel" task_type
           (<["regularization" := VStr "ridge"]> ∅) = Ok linear
      /\ models_new "RandomForestModel" task_type
           (<["n_estimators" := VInt 100]> ∅) = Ok forest
      /\ models_new "SVMModel" task_type (<["kernel" := VStr "rbf"]> ∅) =
           Ok svm).
  { unfold EnsembleInit._get_default_models.
    destruct (models_new "LinearModel" _ _) as [linear|ex]; [|discriminate].
    destruct (models_new "RandomForestModel" _ _) as [forest|ex];
      [|discriminate].
    destruct (models_new "SVMModel" _ _) as [svm|ex]; [|discriminate].
    simpl. intros [= <-]. eauto 10. }
  destruct base_models0 as [[|m ms]|].
  - destruct (EnsembleInit._get_default_models task_type) as [ms|ex] eqn:Hms;
      [|discriminate].
    injection Hinit as <- _. simpl in *.
    destruct (Hdefault eq_refl) as (l & f & s & -> & Hl & Hf & Hs).
    repeat split; try discriminate. eauto 10.
  - injection Hinit as <- _. simpl.
    repeat split; try discriminate.
    + intros m' ms' [= <- <-]. reflexivity.
    + intros [H|H]; discriminate.
  - destruct (EnsembleInit._get_default_models task_type) as [ms|ex] eqn:Hms;
      [|discriminate].
    injection Hinit as <- _. simpl in *.
    destruct (Hdefault eq_refl) as (l & f & s & -> & Hl & Hf & Hs).
    repeat split; try discriminate. eauto 10.
Qed.

(** The loop over the base models touches neither the [is_fitted] flag nor
    the stored ensemble, whether it ends or raises. *)
Lemma fit_base_models_frame X y todo :
  forall i acc s s' r,
    fit_base_models X y i todo acc s = (s', r) ->
    is_fitted s' = is_fitted s /\ ensemble s' = ensemble s
    /\ task_type s' = task_type s.
Proof.
  induction todo as [|model rest IH]; intros i acc s s' r; simpl.
  - intros [= <- _]. auto.
  - unfold mbind, method_bind, call, modify.
    destruct (call_fit model X y) as [fitted|ex].
    + intros Hloop. apply IH in Hloop. exact Hloop.
    + intros [= <- _]. auto.
Qed.

(** X17. When [_fit_voting] raises on an ensemble that was not fitted,
    either a base model or the voting ensemble failed to fit, and the
    ensemble stays unfitted with [predict] raising, or the exception comes
    from the validation split or from [evaluate], and then the ensemble is
    already marked fitted and its members are fitted, so [predict] hands the
    input to the voting ensemble although [fit] raised. *)
Theorem voting_fit_failure X y self self' ex :
  is_fitted self = false ->
  _fit_voting X y self = (self', Raise ex) ->
  (is_fitted self' = false
   /\ (ensemble self' = ensemble self
       \/ exists ens,
            ensemble self' = Some ens
            /\ Voting.estimators_ ens = []
            /\ Voting.fit ens X y = Raise ex)
   /\ forall X', predict self' X' = Raise not_fitted_predict)
  \/ (is_fitted self' = true
      /\ exists ens,
           ensemble self' = Some ens
           /\ Voting.estimators_ ens <> []
           /\ (forall X', predict self' X' = Voting.predict ens X')
           /\ (train_test_split X y = Raise ex
               \/ exists X_train X_val y_train y_val,
                    train_test_split X y =
                      Ok (X_train, X_val, y_train, y_val)
                    /\ evaluate _ self' X_val y_val = Raise ex)).
Proof.
  intros Hunfit Hfit.
  unfold _fit_voting, mbind, method_bind, get_state, modify, call in Hfit.
  destruct (fit_base_models X y 0 (base_models self) [] self)
    as [s1 [ests|ex0]] eqn:Hloop.
  - apply fit_base_models_frame in Hloop as (Hf1 & He1 & _).
    set (ens0 := if String.eqb (task_type self) "regression"
                 then Voting.VotingRegressor ests
                 else Voting.VotingClassifier ests (voting_strategy self))
      in Hfit.
    simpl in Hfit.
    destruct (Voting.fit ens0 X y) as [ens|ex0] eqn:Hens.
    + right.
      assert (Hmembers : Voting.estimators_ ens <> []).
      { unfold Voting.fit in Hens.
        destruct (Voting.estimators ens0) as [|[name e] rest];
          [discriminate|].
        simpl in Hens.
        destruct (estimator_fit (clone e) X y []) as [e'|ex1];
          [|discriminate].
        simpl in Hens.
        destruct (Voting.fit_clones rest X y) as [rest'|ex1];
          [|discriminate].
        injection Hens as <-. discriminate. }
      destruct (train_test_split X y)
        as [[[[X_train X_val] y_train] y_val]|ex0] eqn:Hsplit.
      * simpl in Hfit.
        destruct (evaluate _ _ X_val y_val) as [ms|ex0] eqn:Heval;
          [discriminate|].
        injection Hfit as <- <-. split; [reflexivity|].
        exists ens. split; [reflexivity|]. split; [exact Hmembers|].
        split; [reflexivity|].
        right. exists X_train, X_val, y_train, y_val.
        split; [reflexivity|exact Heval].
      * injection Hfit as <- <-. split; [reflexivity|].
        exists ens. split; [reflexivity|]. split; [exact Hmembers|].
        split; [reflexivity|].
        left. reflexivity.
    + left. injection Hfit as <- <-. simpl.
      split; [congruence|]. split.
      * right. exists ens0. split; [reflexivity|].
        split; [|exact Hens].
        unfold ens0. destruct (String.eqb _ _); reflexivity.
      * intros X'. unfold predict. simpl. rewrite Hf1, Hunfit. reflexivity.
  - apply fit_base_models_frame in Hloop as (Hf1 & He1 & _).
    left. injection Hfit as <- <-.
    split; [congruence|]. split; [left; exact He1|].
    intros X'. unfold predict. rewrite Hf1, Hunfit. reflexivity.
Qed.

(** The loop names the estimators by position. *)
Lemma fit_base_models_names X y todo :
  forall i acc s s' ests,
    fit_base_models X y i todo acc s = (s', Ok ests) ->
    map fst ests =
      (map fst acc
         ++ map (fun j => String.append "model_" (pretty j))
              (seq i (length todo)))%list.
Proof.
  induction todo as [|model rest IH]; intros i acc s s' ests; simpl.
  - intros [= _ <-]. rewrite app_nil_r. reflexivity.
  - unfold mbind, method_bind, call, modify.
    destruct (call_fit model X y) as [fitted|ex]; [|discriminate].
    intros Hloop. apply IH in Hloop. rewrite Hloop, map_app, <- app_assoc.
    reflexivity.
Qed.

(** X18. After a [_fit_voting] that returns, the voting ensemble was given
    the base models' estimators under the names [model_0], [model_1], ...,
    in the order of [base_models], and its fitted members are those
    estimators refitted on all of [X], [y]; for any task type other than
    "regression" it is a classifier that votes in the mode
    [voting_strategy], unless the vote raises on the input. *)
Theorem voting_members_are_named_by_position X y self self' ms :
  _fit_voting X y self = (self', Ok ms) ->
  exists ens,
    ensemble self' = Some ens
    /\ is_fitted self' = true
    /\ map fst (Voting.estimators ens) =
         map (fun i => String.append "model_" (pretty i))
           (seq 0 (length (base_models self)))
    /\ map snd (Voting.estimators ens) =
         map BaseModel.model (base_models self')
    /\ Voting.estimators_ ens =
         map (fun bm => refit X y (BaseModel.model bm)) (base_models self')
    /\ base_models self <> []
    /\ (task_type self <> "regression" ->
        Voting.kind_of ens = Voting.Classifier
        /\ Voting.voting ens = voting_strategy self
        /\ forall X',
             predict self' X' =
               match classifier_vote_error (Voting.estimators_ ens)
                       (voting_strategy self) X' with
               | Some ex => Raise ex
               | None =>
                   Ok (map (classifier_vote (Voting.estimators_ ens)
                              (voting_strategy self)) X')
               end).
Proof.
  intros Hfit.
  unfold _fit_voting, mbind, method_bind, get_state, modify, call in Hfit.
  destruct (fit_base_models X y 0 (base_models self) [] self)
    as [s1 [ests|ex]] eqn:Hloop; [|discriminate].
  pose proof (fit_base_models_names _ _ _ _ _ _ _ _ Hloop) as Hnames.
  apply (EnsembleFacts.fit_base_models_spec X y _ _ _ _ []) in Hloop;
    [|reflexivity..].
  destruct Hloop as (done' & Hb & Hl & He & Ht & Hv). simpl in Hb, He, Hnames.
  set (ens0 := if String.eqb (task_type self) "regression"
               then Voting.VotingRegressor ests
               else Voting.VotingClassifier ests (voting_strategy self))
    in Hfit.
  simpl in Hfit.
  assert (Hens0 : Voting.estimators ens0 = ests)
    by (unfold ens0; destruct (String.eqb _ _); reflexivity).
  assert (Hkind : task_type self <> "regression" ->
                  Voting.kind_of ens0 = Voting.Classifier
                  /\ Voting.voting ens0 = voting_strategy self).
  { intros Htask. apply String.eqb_neq in Htask. unfold ens0.
    rewrite Htask. split; reflexivity. }
  destruct (Voting.fit ens0 X y) as [ens|ex] eqn:Hens; [|discriminate].
  unfold Voting.fit in Hens. rewrite Hens0 in Hens.
  destruct ests as [|ne ests]; [discriminate|].
  destruct (Voting.fit_clones (ne :: ests) X y) as [fitted|ex] eqn:Hclones;
    [|discriminate].
  simpl in Hens. injection Hens as <-.
  apply EnsembleFacts.fit_clones_spec in Hclones.
  destruct (train_test_split X y) as [[[[X_train X_val] y_train] y_val]|ex];
    [|discriminate].
  simpl in Hfit. destruct (evaluate _ _ X_val y_val); [|discriminate].
  injection Hfit as <- _. eexists. split; [reflexivity|]. simpl.
  split; [reflexivity|]. split; [exact Hnames|]. rewrite Hb.
  split; [exact He|]. split.
  { rewrite Hclones.
    rewrite <- (map_map BaseModel.model (refit X y) done'), <- He, map_map.
    reflexivity. }
  split.
  { intros Hnil. rewrite Hnil in Hnames. discriminate. }
  intros Htask. destruct (Hkind Htask) as [Hk Hvoting].
  split; [exact Hk|]. split; [exact Hvoting|].
  intros X'. unfold predict. simpl.
  unfold Voting.predict. simpl. rewrite Hk, Hvoting, Hclones. reflexivity.
Qed.

End facts.

Lemma ensemble_init_base_models_witness :
  EnsembleInit.__init__ (md := Demo.md0) "regression" (Some []) "voting"
    "soft" None 5 = Ok (Cases.default_ensemble, None)
  /\ base_models Cases.default_ensemble <> []
  /\ is_fitted Cases.default_ensemble = false
  /\ forall X,
       predict (sk := Demo.sk0) Cases.default_ensemble X =
         Raise not_fitted_predict.
Proof.
  pose proof (ensemble_init_base_models (sk := Demo.sk0) (md := Demo.md0)
                "regression" (Some []) "voting" "soft" None 5
                Cases.default_ensemble None eq_refl)
    as (Hne & Hfitted & _ & Hpredict & _).
  split; [reflexivity|]. split; [exact Hne|]. split; [exact Hfitted|].
  exact Hpredict.
Defined.

(** The run of [_fit_voting] that [Cases.ensemble_one] is the result of. *)
Lemma demo_fit_voting_one :
  _fit_voting (sk := Demo.sk0) (md := Demo.md0) Cases.X1 Cases.y1
    Demo.ensemble0 =
  (Cases.ensemble_one, Raise (empty_train_set 1)).
Proof.
  unfold Cases.ensemble_one.
  rewrite (surjective_pairing (_fit_voting _ _ _)) at 1. f_equal.
Qed.

Lemma voting_fit_failure_witness :
  is_fitted Demo.ensemble0 = false
  /\ is_fitted Cases.ensemble_one = true
  /\ ((is_fitted Cases.ensemble_one = false
       /\ (ensemble Cases.ensemble_one = ensemble Demo.ensemble0
           \/ exists ens,
                ensemble Cases.ensemble_one = Some ens
                /\ Voting.estimators_ ens = []
                /\ Voting.fit (sk := Demo.sk0) ens Cases.X1 Cases.y1 =
                     Raise (empty_train_set 1))
       /\ forall X',
            predict (sk := Demo.sk0) Cases.ensemble_one X' =
              Raise not_fitted_predict)
      \/ (is_fitted Cases.ensemble_one = true
          /\ exists ens,
               ensemble Cases.ensemble_one = Some ens
               /\ Voting.estimators_ ens <> []
               /\ (forall X',
                     predict (sk := Demo.sk0) Cases.ensemble_one X' =
                       Voting.predict (sk := Demo.sk0) ens X')
               /\ (train_test_split (sk := Demo.sk0) Cases.X1 Cases.y1 =
                     Raise (empty_train_set 1)
                   \/ exists X_train X_val y_train y_val,
                        train_test_split (sk := Demo.sk0) Cases.X1 Cases.y1 =
                          Ok (X_train, X_val, y_train, y_val)
                        /\ evaluate (Models := Demo.md0) _ Cases.ensemble_one
                             X_val y_val = Raise (empty_train_set 1)))).
Proof.
  split; [reflexivity|]. split; [reflexivity|].
  exact (voting_fit_failure (sk := Demo.sk0) (md := Demo.md0) Cases.X1
           Cases.y1 Demo.ensemble0 Cases.ensemble_one _ eq_refl
           demo_fit_voting_one).
Defined.

Lemma voting_members_are_named_by_position_witness :
  _fit_voting (sk := Demo.sk0) (md := Demo.md0) Demo.X10 Demo.y10
    Demo.ensemble0 = (Demo.ensemble1, Ok ∅)
  /\ exists ens,
       ensemble Demo.ensemble1 = Some ens
       /\ is_fitted Demo.ensemble1 = true
       /\ map fst (Voting.estimators ens) = ["model_0"; "model_1"]
       /\ map snd (Voting.estimators ens) =
            map BaseModel.model (base_models Demo.ensemble1)
       /\ Voting.estimators_ ens =
            map (fun bm => refit Demo.X10 Demo.y10 (BaseModel.model bm))
              (base_models Demo.ensemble1).
Proof.
  assert (Hfit :
    _fit_voting (sk := Demo.sk0) (md := Demo.md0) Demo.X10 Demo.y10
      Demo.ensemble0 = (Demo.ensemble1, Ok ∅)) by reflexivity.
  split; [exact Hfit|].
  destruct (voting_members_are_named_by_position (sk := Demo.sk0)
              (md := Demo.md0) Demo.X10 Demo.y10 Demo.ensemble0
              Demo.ensemble1 ∅ Hfit)
    as (ens & Hens & Hfitted & Hnames & Hests & Hmembers & _).
  exists ens. repeat split; assumption.
Defined.

End EnsembleLifecycleFacts.
